(** * GDL 90 codec: a shallow embedding of [gdl90py] and its properties

    The development follows the layout of the Python package:
    - [utils/bitarray.py] and the part of the [bitstring] API the package
      uses ([BitArray] as a list of bits, most significant bit first);
    - [utils/gdl90.py]: CRC, byte stuffing, [build] and [deconstruct];
    - [messages/_base_message.py]: the typed field encoders;
    - one module per message class; [serialize] is split into [body]
      (the concatenation of the fields) and the call of [build], and
      [deserialize] into [_clean_data] and [read_body] (the sequence of
      [pop_bits] calls).

    Conventions of the embedding.
    - A Python [bytes]/[bytearray] is a [list byte]; a [BitArray] is a
      [list bool], the head of the list being bit 0 of the bit array.
    - A Python [int] is a [Z]; a Python [float] is an exact rational [Q]
      (rounding of binary floating point is not modelled; every resolution
      used with integer inputs, 25, 64, 80, 5 and 360/256, and 180/2^23,
      is exact in binary floating point).
    - A raised exception is a value [Raise e] of type [result]; the
      exceptions of [exceptions.py] keep their names, and the built-in
      ones the code can reach ([IndexError], [ValueError], ...) are added.
    - A Python [str] is a [list ascii]; the text predicates [isspace],
      [isalnum] and [upper] are given on the ASCII range (a character
      outside it counts as neither whitespace nor alphanumeric), and the
      theorem about the callsign states that its input is ASCII. *)

From Stdlib Require Import ZArith QArith Qround List Bool Lia Ascii.
From Stdlib Require Import Strings.Byte.
From Stdlib Require String.
Import ListNotations.
Import String.StringSyntax.
Delimit Scope string_scope with string.

Local Open Scope Z_scope.

(* ================================================================== *)
(** * Exceptions and results *)

Inductive exn : Type :=
  (* exceptions.py *)
  | UnkownMessageID
  | InvalidMessageID
  | DataTooLong
  | InvalidCRC
  | MissingFlagBytes
  | InvalidCallsign
  | UnexpectedNegative
  | UplinkDataWrongSize
  | BadIntegerSize
  (* built-in and bitstring exceptions reachable from the code *)
  | IndexError
  | ValueError
  | OverflowError
  | UnicodeError
  | ZeroDivisionError
  | InterpretError
  | CreationError.

Inductive result (A : Type) : Type :=
  | Ok (a : A)
  | Raise (e : exn).

Arguments Ok {A} a.
Arguments Raise {A} e.

Definition bind {A B : Type} (m : result A) (k : A -> result B) : result B :=
  match m with
  | Ok a => k a
  | Raise e => Raise e
  end.

Notation "x <- m ;; k" := (bind m (fun x => k))
  (at level 61, m at next level, right associativity).
Notation "' p <- m ;; k" := (bind m (fun p => k))
  (at level 61, p pattern, m at next level, right associativity).

(* ================================================================== *)
(** * Bytes and bit arrays *)

Definition bits := list bool.
Definition bytes := list byte.

Definition byte_to_Z (b : byte) : Z := Z.of_N (Byte.to_N b).

(** [int.to_bytes()] for one byte: [OverflowError] outside [0, 255]. *)
Definition Z_to_byte (z : Z) : result byte :=
  if z <? 0 then Raise OverflowError
  else match Byte.of_N (Z.to_N z) with
       | Some b => Ok b
       | None => Raise OverflowError
       end.

Definition byte_xor (a b : byte) : byte :=
  match Byte.of_N (N.lxor (Byte.to_N a) (Byte.to_N b)) with
  | Some c => c
  | None => x00
  end.

(** The eight bits of a byte, most significant first. *)
Definition bits_of_byte (b : byte) : bits :=
  let '(b0, (b1, (b2, (b3, (b4, (b5, (b6, b7))))))) := Byte.to_bits b in
  [b7; b6; b5; b4; b3; b2; b1; b0].

Definition byte_of_bits8 (b7 b6 b5 b4 b3 b2 b1 b0 : bool) : byte :=
  Byte.of_bits (b0, (b1, (b2, (b3, (b4, (b5, (b6, b7))))))).

(** [BitArray(bytes_)] *)
Definition BitArray_of_bytes (bs : bytes) : bits := flat_map bits_of_byte bs.

(** [BitArray.tobytes()]: packs most significant bit first and pads the
    last byte with zero bits. *)
Fixpoint tobytes (ba : bits) : bytes :=
  match ba with
  | b7 :: b6 :: b5 :: b4 :: b3 :: b2 :: b1 :: b0 :: rest =>
      byte_of_bits8 b7 b6 b5 b4 b3 b2 b1 b0 :: tobytes rest
  | [] => []
  | [b7] => [byte_of_bits8 b7 false false false false false false false]
  | [b7; b6] => [byte_of_bits8 b7 b6 false false false false false false]
  | [b7; b6; b5] => [byte_of_bits8 b7 b6 b5 false false false false false]
  | [b7; b6; b5; b4] => [byte_of_bits8 b7 b6 b5 b4 false false false false]
  | [b7; b6; b5; b4; b3] => [byte_of_bits8 b7 b6 b5 b4 b3 false false false]
  | [b7; b6; b5; b4; b3; b2] => [byte_of_bits8 b7 b6 b5 b4 b3 b2 false false]
  | [b7; b6; b5; b4; b3; b2; b1] => [byte_of_bits8 b7 b6 b5 b4 b3 b2 b1 false]
  end.

(** [BitArray.bytes]: as [tobytes], but fails on a partial last byte. *)
Definition BitArray_bytes (ba : bits) : result bytes :=
  if (Nat.modulo (length ba) 8 =? 0)%nat then Ok (tobytes ba)
  else Raise InterpretError.

(** [BitArray(uint=v, length=n)]: big-endian unsigned; the constructor
    refuses a value that does not fit. *)
Fixpoint uint_bits (n : nat) (v : Z) : bits :=
  match n with
  | O => []
  | S k => Z.testbit v (Z.of_nat k) :: uint_bits k v
  end.

Definition BitArray_uint (v : Z) (n : nat) : result bits :=
  if (v <? 0) || (2 ^ Z.of_nat n <=? v) then Raise CreationError
  else Ok (uint_bits n v).

(** [BitArray(int=v, length=n)]: two's complement ([Z.testbit] of a
    negative number already reads its two's-complement digits). *)
Definition BitArray_int (v : Z) (n : nat) : result bits :=
  if (v <? - 2 ^ (Z.of_nat n - 1)) || (2 ^ (Z.of_nat n - 1) <=? v)
  then Raise CreationError
  else Ok (uint_bits n v).

Definition bits_to_Z (ba : bits) : Z :=
  fold_left (fun acc (b : bool) => 2 * acc + Z.b2z b) ba 0.

(** [BitArray.uint] *)
Definition BitArray_get_uint (ba : bits) : result Z :=
  match ba with
  | [] => Raise InterpretError
  | _ => Ok (bits_to_Z ba)
  end.

(** [BitArray.int] *)
Definition BitArray_get_int (ba : bits) : result Z :=
  match ba with
  | [] => Raise InterpretError
  | sign :: _ =>
      Ok (if sign then bits_to_Z ba - 2 ^ Z.of_nat (length ba)
          else bits_to_Z ba)
  end.

(** [BitArray.bool] *)
Definition BitArray_get_bool (ba : bits) : result bool :=
  match ba with
  | [b] => Ok b
  | _ => Raise InterpretError
  end.

(** [bitarray[0]] *)
Definition BitArray_index0 (ba : bits) : result bool :=
  match ba with
  | [] => Raise IndexError
  | b :: _ => Ok b
  end.

(** [BitArray.byteswap()] with no format: reverses the order of the bytes
    of a whole-byte bit array. *)
Fixpoint chunks8 (ba : bits) : list bits :=
  match ba with
  | b7 :: b6 :: b5 :: b4 :: b3 :: b2 :: b1 :: b0 :: rest =>
      [b7; b6; b5; b4; b3; b2; b1; b0] :: chunks8 rest
  | [] => []
  | short => [short]
  end.

Definition byteswap (ba : bits) : result bits :=
  if (Nat.modulo (length ba) 8 =? 0)%nat then Ok (concat (rev (chunks8 ba)))
  else Raise ValueError.

(* ------------------------------------------------------------------ *)
(** ** utils/bitarray.py *)

(** [pop_bits]: the first [n] bits and the bit array that remains (the
    Python function removes them in place; a slice past the end is short,
    not an error). *)
Definition pop_bits (bitarray : bits) (n : nat) : bits * bits :=
  (firstn n bitarray, skipn n bitarray).

(** [lsb]: flips the order of the bits in each byte. *)
Fixpoint lsb (bitarray : bits) : bits :=
  match bitarray with
  | b7 :: b6 :: b5 :: b4 :: b3 :: b2 :: b1 :: b0 :: rest =>
      [b0; b1; b2; b3; b4; b5; b6; b7] ++ lsb rest
  | short => rev short
  end.

Definition lsb_bytes (bytes_ : bytes) : result bytes :=
  BitArray_bytes (lsb (BitArray_of_bytes bytes_)).

(* ================================================================== *)
(** * utils/gdl90.py *)

Definition FLAG_BYTE : byte := x7e.
Definition CONTROL_ESCAPE_BYTE : byte := x7d.
Definition ESCAPE_XOR_BYTE : byte := x20.
Definition MASK_16_BIT : Z := 0xFFFF.
Definition FOREFLIGHT_MESSAGE_ID : byte := x65.

(** One turn of the inner loop of [crc_table]. *)
Definition crc_shift (crc : Z) : Z :=
  Z.lxor (Z.land (Z.shiftl crc 1) MASK_16_BIT)
         (if Z.land crc 0x8000 =? 0 then 0 else 0x1021).

Definition crc_table_entry (i : Z) : Z :=
  Nat.iter 8 crc_shift (Z.land (Z.shiftl i 8) MASK_16_BIT).

Definition crc_table : list Z :=
  map (fun i => crc_table_entry (Z.of_nat i)) (seq 0 256).

(** [crc_table()[i]] *)
Definition crc_table_get (i : Z) : result Z :=
  if i <? 0 then
    (* a negative index counts from the end *)
    match nth_error crc_table (Z.to_nat (256 + i)) with
    | Some v => if 256 + i <? 0 then Raise IndexError else Ok v
    | None => Raise IndexError
    end
  else
    match nth_error crc_table (Z.to_nat i) with
    | Some v => Ok v
    | None => Raise IndexError
    end.

(** [crc.to_bytes(length=2, byteorder="little")] *)
Definition to_bytes_2_little (crc : Z) : result bytes :=
  if (crc <? 0) || (0x10000 <=? crc) then Raise OverflowError
  else
    lo <- Z_to_byte (Z.land crc 0xFF) ;;
    hi <- Z_to_byte (Z.shiftr crc 8) ;;
    Ok [lo; hi].

(** The body of the loop of [compute_crc]. *)
Definition crc_step (crc : Z) (c : byte) : result Z :=
  let m := Z.land (Z.shiftl crc 8) MASK_16_BIT in
  t <- crc_table_get (Z.shiftr crc 8) ;;
  Ok (Z.lxor (Z.lxor t m) (byte_to_Z c)).

Fixpoint crc_loop (crc : Z) (data : bytes) : result Z :=
  match data with
  | [] => Ok crc
  | c :: rest => crc' <- crc_step crc c ;; crc_loop crc' rest
  end.

Definition compute_crc (data : bytes) : result bytes :=
  crc <- crc_loop 0 data ;;
  to_bytes_2_little crc.

Definition bytes_eqb (a b : bytes) : bool :=
  if list_eq_dec Byte.byte_eq_dec a b then true else false.

Definition check_crc (data crc : bytes) : result unit :=
  computed_crc <- compute_crc data ;;
  if bytes_eqb computed_crc crc then Ok tt else Raise InvalidCRC.

Definition escape_byte (item : byte) : bytes :=
  if Byte.eqb item FLAG_BYTE || Byte.eqb item CONTROL_ESCAPE_BYTE
  then [CONTROL_ESCAPE_BYTE; byte_xor item ESCAPE_XOR_BYTE]
  else [item].

Definition escape (data : bytes) : bytes := flat_map escape_byte data.

(** [unescape]: the loop looks for the next 0x7D, keeps what precedes it,
    replaces the pair by the following byte XOR 0x20 and goes on after the
    pair; a 0x7D that ends the data makes [data[escape_index + 1]] raise. *)
Fixpoint unescape (data : bytes) : result bytes :=
  match data with
  | [] => Ok []
  | b :: rest =>
      if Byte.eqb b CONTROL_ESCAPE_BYTE then
        match rest with
        | [] => Raise IndexError
        | c :: rest' =>
            tl <- unescape rest' ;;
            Ok (byte_xor c ESCAPE_XOR_BYTE :: tl)
        end
      else
        tl <- unescape rest ;; Ok (b :: tl)
  end.

(** Python slices used by the framing code. *)
Definition slice_1_m1 {A} (l : list A) : list A := removelast (tl l).
Definition slice_last2 {A} (l : list A) : list A := skipn (length l - 2) l.
Definition slice_but_last2 {A} (l : list A) : list A :=
  firstn (length l - 2) l.

(** [build]: the message IDs are given as the bytes that
    [message_id.to_bytes()] makes of them. *)
Definition build (message_ids : bytes) (data : bits) (outgoing_lsb : bool)
  : result bytes :=
  let message_id_bytes := message_ids in
  let message_id_data := message_id_bytes ++ tobytes data in
  crc <- compute_crc message_id_data ;;
  let message_id_data_crc := message_id_data ++ crc in
  let message_id_data_crc_escaped := escape message_id_data_crc in
  let framed := FLAG_BYTE :: message_id_data_crc_escaped ++ [FLAG_BYTE] in
  if outgoing_lsb then lsb_bytes framed else Ok framed.

Definition deconstruct (data : bytes) (incoming_msb : bool)
  : result (bytes * bits) :=
  match data with
  | [] => Raise IndexError
  | first :: _ =>
      if negb (Byte.eqb first FLAG_BYTE)
         && negb (Byte.eqb (last data first) FLAG_BYTE)
      then Raise MissingFlagBytes
      else
        let message_without_flags := slice_1_m1 data in
        message_without_flags <-
          (if negb incoming_msb then lsb_bytes message_without_flags
           else Ok message_without_flags) ;;
        unescaped_message <- unescape message_without_flags ;;
        let received_crc := slice_last2 unescaped_message in
        let message_id_data := slice_but_last2 unescaped_message in
        _ <- check_crc message_id_data received_crc ;;
        match message_id_data with
        | [] => Raise IndexError
        | message_id :: after_id =>
            if Byte.eqb message_id FOREFLIGHT_MESSAGE_ID then
              match after_id with
              | [] => Raise IndexError
              | sub_id :: message_data =>
                  Ok ([message_id; sub_id], BitArray_of_bytes message_data)
              end
            else Ok ([message_id], BitArray_of_bytes after_id)
        end
  end.

(* ================================================================== *)
(** * Python numbers and text *)

(** [int(x)] on a float: truncation toward zero. *)
Definition py_int (x : Q) : Z := Z.quot (Qnum x) (Zpos (Qden x)).

Definition str := list ascii.

Definition char_code (c : ascii) : Z := Z.of_N (N_of_ascii c).

Definition is_ascii_char (c : ascii) : bool := char_code c <? 128.
Definition is_ascii_str (s : str) : bool := forallb is_ascii_char s.

(** [str.isspace] on the ASCII range: TAB, LF, VT, FF, CR, FS, GS, RS, US
    and the space. *)
Definition char_isspace (c : ascii) : bool :=
  let n := char_code c in
  ((9 <=? n) && (n <=? 13)) || ((28 <=? n) && (n <=? 32)).

Definition char_isdigit (c : ascii) : bool :=
  let n := char_code c in (48 <=? n) && (n <=? 57).
Definition char_isupper (c : ascii) : bool :=
  let n := char_code c in (65 <=? n) && (n <=? 90).
Definition char_islower (c : ascii) : bool :=
  let n := char_code c in (97 <=? n) && (n <=? 122).
Definition char_isalnum (c : ascii) : bool :=
  char_isdigit c || char_isupper c || char_islower c.

Definition char_upper (c : ascii) : ascii :=
  if char_islower c then ascii_of_N (N_of_ascii c - 32) else c.

Definition SPACE : ascii := " "%char.

Fixpoint str_lstrip (s : str) : str :=
  match s with
  | c :: rest => if char_isspace c then str_lstrip rest else s
  | [] => []
  end.

Definition str_rstrip (s : str) : str := rev (str_lstrip (rev s)).
Definition str_strip (s : str) : str := str_rstrip (str_lstrip s).
Definition str_upper (s : str) : str := map char_upper s.

(** [str.isalnum]: every character is alphanumeric and there is at least
    one. *)
Definition str_isalnum (s : str) : bool :=
  match s with
  | [] => false
  | _ => forallb char_isalnum s
  end.

(** [str.ljust(width)] *)
Definition str_ljust (s : str) (width : nat) : str :=
  s ++ repeat SPACE (width - length s).

Inductive encoding : Type := enc_ascii | enc_utf8.

Definition encode_char (e : encoding) (c : ascii) : result bytes :=
  if is_ascii_char c then Ok [byte_of_ascii c]
  else match e with
       | enc_ascii => Raise UnicodeError
       | enc_utf8 =>
           hi <- Z_to_byte (Z.lor 0xC0 (Z.shiftr (char_code c) 6)) ;;
           lo <- Z_to_byte (Z.lor 0x80 (Z.land (char_code c) 0x3F)) ;;
           Ok [hi; lo]
       end.

Fixpoint str_encode (e : encoding) (s : str) : result bytes :=
  match s with
  | [] => Ok []
  | c :: rest =>
      bs <- encode_char e c ;;
      tl <- str_encode e rest ;;
      Ok (bs ++ tl)
  end.

(** [bytes.decode("ascii")] *)
Fixpoint bytes_decode_ascii (bs : bytes) : result str :=
  match bs with
  | [] => Ok []
  | b :: rest =>
      if byte_to_Z b <? 128 then
        tl <- bytes_decode_ascii rest ;; Ok (ascii_of_byte b :: tl)
      else Raise UnicodeError
  end.

(** [BitArray(bytes=b, length=n)]: the first [n] bits of [b]. *)
Definition BitArray_bytes_length (b : bytes) (n : nat) : result bits :=
  if (8 * length b <? n)%nat then Raise CreationError
  else Ok (firstn n (BitArray_of_bytes b)).

(* ================================================================== *)
(** * messages/_base_message.py *)

Module BaseMessage.

(** [_clean_data] on a frame given as bytes. *)
Definition _clean_data (MESSAGE_IDS : bytes) (data : bytes)
           (incoming_msb : bool) : result bits :=
  '(message_ids, data) <- deconstruct data incoming_msb ;;
  if bytes_eqb message_ids MESSAGE_IDS then Ok data
  else Raise InvalidMessageID.

Definition _serialize_uint (value : Z) (bits_ : nat) (constrain : bool)
  : result bits :=
  if value <? 0 then Raise UnexpectedNegative
  else if constrain then
    BitArray_uint (Z.min value (2 ^ Z.of_nat bits_ - 1)) bits_
  else if value >? 2 ^ Z.of_nat bits_ - 1 then Raise BadIntegerSize
  else BitArray_uint value bits_.

Definition _deserialize_uint (bitarray : bits) : result Z :=
  BitArray_get_uint bitarray.

Definition _serialize_int (value : Z) (bits_ : nat) (constrain : bool)
  : result bits :=
  if constrain then
    let value := Z.min value (2 ^ (Z.of_nat bits_ - 1) - 1) in
    let value := Z.max value (0 - 2 ^ (Z.of_nat bits_ - 1)) in
    BitArray_int value bits_
  else if value >? 2 ^ (Z.of_nat bits_ - 1) - 1 then Raise BadIntegerSize
  else if value <? 0 - 2 ^ (Z.of_nat bits_ - 1) then Raise BadIntegerSize
  else BitArray_int value bits_.

Definition _deserialize_int (bitarray : bits) : result Z :=
  BitArray_get_int bitarray.

(** [value / resolution]: true division, [ZeroDivisionError] on zero. *)
Definition true_div (value resolution : Q) : result Q :=
  if Qeq_bool resolution 0 then Raise ZeroDivisionError
  else Ok (value / resolution)%Q.

Definition _serialize_resolution_uint (value : Z) (resolution : Q)
           (bits_ : nat) : result bits :=
  q <- true_div (inject_Z value) resolution ;;
  _serialize_uint (py_int q) bits_ true.

Definition _deserialize_resolution_uint (bitarray : bits) (resolution : Q)
  : result Z :=
  u <- _deserialize_uint bitarray ;;
  Ok (py_int (inject_Z u * resolution)%Q).

Definition _serialize_resolution_int (value resolution : Q) (bits_ : nat)
  : result bits :=
  q <- true_div value resolution ;;
  _serialize_int (py_int q) bits_ true.

Definition _deserialize_resolution_float (bitarray : bits) (resolution : Q)
  : result Q :=
  i <- _deserialize_int bitarray ;;
  Ok (inject_Z i * resolution)%Q.

Definition _deserialize_resolution_int (bitarray : bits) (resolution : Q)
  : result Z :=
  f <- _deserialize_resolution_float bitarray resolution ;;
  Ok (py_int f).

Definition _serialize_resolution_float (value resolution : Q) (bits_ : nat)
  : result bits :=
  _serialize_resolution_int value resolution bits_.

Definition _serialize_resolution_offset_uint (value offset : Z)
           (resolution : Q) (bits_ : nat) : result bits :=
  _serialize_resolution_uint (value + offset) resolution bits_.

Definition _deserialize_resolution_offset_uint (bitarray : bits)
           (offset : Z) (resolution : Q) : result Z :=
  v <- _deserialize_resolution_uint bitarray resolution ;;
  Ok (v - offset).

Definition _serialize_bool (value : bool) : result bits :=
  _serialize_uint (Z.b2z value) 1 true.

Definition _deserialize_bool (bitarray : bits) : result bool :=
  BitArray_get_bool bitarray.

Definition _serialize_str (value : str) (bits_ : nat) (e : encoding)
  : result bits :=
  let num_bytes := Nat.div bits_ 8 in
  let value := str_ljust value num_bytes in
  let value := firstn num_bytes value in
  encoded <- str_encode e value ;;
  BitArray_bytes_length encoded bits_.

Definition _deserialize_str_ascii (bitarray : bits) : result str :=
  bs <- BitArray_bytes bitarray ;;
  bytes_decode_ascii bs.

End BaseMessage.

(* ================================================================== *)
(** * enums.py

    Each [IntEnum] class is a module: its members, the integer value of a
    member, and the list of the members in the order of declaration. *)

Module TrackType.

Inductive t : Type :=
  | invalid
  | true_track_angle
  | magnetic_heading
  | true_heading.

Definition value (m : t) : Z :=
  match m with
  | invalid => 0
  | true_track_angle => 1
  | magnetic_heading => 2
  | true_heading => 3
  end.

Definition members : list t :=
  [invalid;
   true_track_angle;
   magnetic_heading;
   true_heading].

End TrackType.

Module Integrity.

Inductive t : Type :=
  | unknown
  | less_than_20_nm
  | less_than_8_nm
  | less_than_4_nm
  | less_than_2_nm
  | less_than_1_nm
  | less_than_0_6_nm
  | less_than_0_2_nm
  | less_than_0_1_nm
  | less_than_75_m_hpl_and_112_m_vpl
  | less_than_25_m_hpl_and_37_5_m_vpl
  | less_than_7_5_m_hpl_and_11_m_vpl.

Definition value (m : t) : Z :=
  match m with
  | unknown => 0
  | less_than_20_nm => 1
  | less_than_8_nm => 2
  | less_than_4_nm => 3
  | less_than_2_nm => 4
  | less_than_1_nm => 5
  | less_than_0_6_nm => 6
  | less_than_0_2_nm => 7
  | less_than_0_1_nm => 8
  | less_than_75_m_hpl_and_112_m_vpl => 9
  | less_than_25_m_hpl_and_37_5_m_vpl => 10
  | less_than_7_5_m_hpl_and_11_m_vpl => 11
  end.

Definition members : list t :=
  [unknown;
   less_than_20_nm;
   less_than_8_nm;
   less_than_4_nm;
   less_than_2_nm;
   less_than_1_nm;
   less_than_0_6_nm;
   less_than_0_2_nm;
   less_than_0_1_nm;
   less_than_75_m_hpl_and_112_m_vpl;
   less_than_25_m_hpl_and_37_5_m_vpl;
   less_than_7_5_m_hpl_and_11_m_vpl].

End Integrity.

Module Accuracy.

Inductive t : Type :=
  | unknown
  | less_than_10_nm
  | less_than_4_nm
  | less_than_2_nm
  | less_than_1_nm
  | less_than_0_5_nm
  | less_than_0_3_nm
  | less_than_0_1_nm
  | less_than_0_05_nm
  | less_than_30_m_hfom_and_45_m_vfom
  | less_than_10_m_hfom_and_15_m_vfom
  | less_than_3_m_hfom_and_4_m_vfom.

Definition value (m : t) : Z :=
  match m with
  | unknown => 0
  | less_than_10_nm => 1
  | less_than_4_nm => 2
  | less_than_2_nm => 3
  | less_than_1_nm => 4
  | less_than_0_5_nm => 5
  | less_than_0_3_nm => 6
  | less_than_0_1_nm => 7
  | less_than_0_05_nm => 8
  | less_than_30_m_hfom_and_45_m_vfom => 9
  | less_than_10_m_hfom_and_15_m_vfom => 10
  | less_than_3_m_hfom_and_4_m_vfom => 11
  end.

Definition members : list t :=
  [unknown;
   less_than_10_nm;
   less_than_4_nm;
   less_than_2_nm;
   less_than_1_nm;
   less_than_0_5_nm;
   less_than_0_3_nm;
   less_than_0_1_nm;
   less_than_0_05_nm;
   less_than_30_m_hfom_and_45_m_vfom;
   less_than_10_m_hfom_and_15_m_vfom;
   less_than_3_m_hfom_and_4_m_vfom].

End Accuracy.

Module AddressType.

Inductive t : Type :=
  | ads_b_icao
  | ads_b_self_assigned
  | tis_b_icao
  | tis_b_track_file_id
  | surface_vehicle
  | ground_station_beacon.

Definition value (m : t) : Z :=
  match m with
  | ads_b_icao => 0
  | ads_b_self_assigned => 1
  | tis_b_icao => 2
  | tis_b_track_file_id => 3
  | surface_vehicle => 4
  | ground_station_beacon => 5
  end.

Definition members : list t :=
  [ads_b_icao;
   ads_b_self_assigned;
   tis_b_icao;
   tis_b_track_file_id;
   surface_vehicle;
   ground_station_beacon].

End AddressType.

Module EmitterCategory.

Inductive t : Type :=
  | no_aircraft_type_information
  | light
  | small
  | large
  | high_vortex_large
  | heavy
  | highly_maneuverable
  | rotorcraft
  | glider_or_sailplane
  | lighter_than_air
  | parachutist_or_sky_diver
  | ultra_light_or_hang_glider_or_paraglider
  | unmanned_aerial_vehicle
  | space_or_transatmospheric_vehicle
  | surface_emergency_vehicle
  | surface_service_vehicle
  | point_obstacle
  | cluster_obstacle
  | line_obstacle.

Definition value (m : t) : Z :=
  match m with
  | no_aircraft_type_information => 0
  | light => 1
  | small => 2
  | large => 3
  | high_vortex_large => 4
  | heavy => 5
  | highly_maneuverable => 6
  | rotorcraft => 7
  | glider_or_sailplane => 9
  | lighter_than_air => 10
  | parachutist_or_sky_diver => 11
  | ultra_light_or_hang_glider_or_paraglider => 12
  | unmanned_aerial_vehicle => 14
  | space_or_transatmospheric_vehicle => 15
  | surface_emergency_vehicle => 17
  | surface_service_vehicle => 18
  | point_obstacle => 19
  | cluster_obstacle => 20
  | line_obstacle => 21
  end.

Definition members : list t :=
  [no_aircraft_type_information;
   light;
   small;
   large;
   high_vortex_large;
   heavy;
   highly_maneuverable;
   rotorcraft;
   glider_or_sailplane;
   lighter_than_air;
   parachutist_or_sky_diver;
   ultra_light_or_hang_glider_or_paraglider;
   unmanned_aerial_vehicle;
   space_or_transatmospheric_vehicle;
   surface_emergency_vehicle;
   surface_service_vehicle;
   point_obstacle;
   cluster_obstacle;
   line_obstacle].

End EmitterCategory.

Module EmergencyPriorityCode.

Inductive t : Type :=
  | no_emergency
  | general_emergency
  | medical_emergency
  | minimum_fuel
  | no_communication
  | unlawful_interference
  | downed_aircraft.

Definition value (m : t) : Z :=
  match m with
  | no_emergency => 0
  | general_emergency => 1
  | medical_emergency => 2
  | minimum_fuel => 3
  | no_communication => 4
  | unlawful_interference => 5
  | downed_aircraft => 6
  end.

Definition members : list t :=
  [no_emergency;
   general_emergency;
   medical_emergency;
   minimum_fuel;
   no_communication;
   unlawful_interference;
   downed_aircraft].

End EmergencyPriorityCode.

(** An [IntEnum] class as the code uses it: the value of a member, and the
    member of a value ([ValueError] when there is none). *)
Record IntEnum (T : Type) : Type := {
  enum_value : T -> Z;
  enum_members : list T
}.
Arguments enum_value {T} _ _.
Arguments enum_members {T} _.

Definition enum_call {T} (E : IntEnum T) (v : Z) : result T :=
  match find (fun m => enum_value E m =? v) (enum_members E) with
  | Some m => Ok m
  | None => Raise ValueError
  end.

Definition TrackType_enum : IntEnum TrackType.t := {|
  enum_value := TrackType.value; enum_members := TrackType.members |}.
Definition Integrity_enum : IntEnum Integrity.t := {|
  enum_value := Integrity.value; enum_members := Integrity.members |}.
Definition Accuracy_enum : IntEnum Accuracy.t := {|
  enum_value := Accuracy.value; enum_members := Accuracy.members |}.
Definition AddressType_enum : IntEnum AddressType.t := {|
  enum_value := AddressType.value; enum_members := AddressType.members |}.
Definition EmitterCategory_enum : IntEnum EmitterCategory.t := {|
  enum_value := EmitterCategory.value; enum_members := EmitterCategory.members |}.
Definition EmergencyPriorityCode_enum : IntEnum EmergencyPriorityCode.t := {|
  enum_value := EmergencyPriorityCode.value; enum_members := EmergencyPriorityCode.members |}.

Definition _serialize_enum {T} (E : IntEnum T) (value : T) (length_ : nat)
  : result bits :=
  BaseMessage._serialize_uint (enum_value E value) length_ true.

Definition _deserialize_enum {T} (E : IntEnum T) (bitarray : bits)
  : result T :=
  u <- BaseMessage._deserialize_uint bitarray ;;
  enum_call E u.

(* ================================================================== *)
(** * Reading a body field by field

    [deserialize] pops the fields off the front of one bit array, in
    order, and any field decoder may raise: a computation that reads is a
    function from the bits that remain to a result and the bits left. *)

Definition reader (A : Type) : Type := bits -> result (A * bits).

Definition rret {A} (a : A) : reader A := fun data => Ok (a, data).

Definition rbind {A B} (m : reader A) (k : A -> reader B) : reader B :=
  fun data =>
    match m data with
    | Ok (a, data') => k a data'
    | Raise e => Raise e
    end.

Notation "x <~ m ;; k" := (rbind m (fun x => k))
  (at level 61, m at next level, right associativity).

(** [decode(pop_bits(data, n))] *)
Definition field {A} (decode : bits -> result A) (n : nat) : reader A :=
  fun data =>
    let '(popped, data') := pop_bits data n in
    a <- decode popped ;;
    Ok (a, data').

(** [pop_bits(data, n)] kept as bits, or dropped (reserved spans). *)
Definition raw (n : nat) : reader bits := field (fun b => Ok b) n.

(** [if len(data) != 0: raise DataTooLong] and the final constructor. *)
Definition finish {A} (a : result A) : reader A :=
  fun data =>
    match data with
    | [] => v <- a ;; Ok (v, [])
    | _ => Raise DataTooLong
    end.

Definition run_reader {A} (m : reader A) (data : bits) : result A :=
  '(a, _) <- m data ;; Ok a.

(* ================================================================== *)
(** * messages/heartbeat.py *)

(** [datetime.time]: the constructor checks the ranges. *)
Module datetime.

Record time : Type := mk_time {
  hour : Z;
  minute : Z;
  second : Z;
  microsecond : Z;
  tzinfo_UTC : bool
}.

Definition make (hour minute second : Z) (utc : bool) : result time :=
  if (0 <=? hour) && (hour <=? 23) && (0 <=? minute) && (minute <=? 59)
     && (0 <=? second) && (second <=? 59)
  then Ok (mk_time hour minute second 0 utc)
  else Raise ValueError.

End datetime.

Module HeartbeatMessage.

Definition MESSAGE_IDS : bytes := [x00].

Record t : Type := {
  gps_position_valid : bool;
  maintenance_required : bool;
  ident_talkback : bool;
  self_assigned_address_talkback : bool;
  gps_battery_low : bool;
  RATCS_talkback : bool;
  UAT_initialized : bool;
  CSA_requested : bool;
  CSA_unavailable : bool;
  UTC_timing_valid : bool;
  timestamp : datetime.time;
  uplink_messages_count : Z;
  basic_long_messages_count : Z
}.

Definition SECONDS_PER_MINUTE : Z := 60.
Definition MINUTES_PER_HOUR : Z := 60.
Definition SECONDS_PER_HOUR : Z := SECONDS_PER_MINUTE * MINUTES_PER_HOUR.

Definition TIMESTAMP_BITS_1 : nat := 1.
Definition TIMESTAMP_BITS_2 : nat := 8.
Definition TIMESTAMP_BITS_3 : nat := 8.
Definition TIMESTAMP_BITS : nat :=
  TIMESTAMP_BITS_1 + TIMESTAMP_BITS_2 + TIMESTAMP_BITS_3.
Definition UPLINK_MESSAGES_COUNT_BITS : nat := 5.
Definition BASIC_LONG_MESSAGES_COUNT_BITS : nat := 10.
Definition RESERVED_1_BITS : nat := 1.
Definition RESERVED_2_BITS : nat := 4.
Definition RESERVED_3_BITS : nat := 1.

Import BaseMessage.

Definition _serialize_timestamp (self : t) : result bits :=
  let total_seconds :=
    datetime.hour (timestamp self) * SECONDS_PER_HOUR
    + datetime.minute (timestamp self) * SECONDS_PER_MINUTE
    + datetime.second (timestamp self) in
  _serialize_uint total_seconds TIMESTAMP_BITS true.

Definition _deserialize_timestamp (timestamp_bitarray : bits)
  : result datetime.time :=
  total_seconds <- _deserialize_uint timestamp_bitarray ;;
  let hours := total_seconds / SECONDS_PER_HOUR in
  let remainder_seconds := total_seconds mod SECONDS_PER_HOUR in
  let minutes := remainder_seconds / SECONDS_PER_MINUTE in
  let seconds := remainder_seconds mod SECONDS_PER_MINUTE in
  datetime.make hours minutes seconds true.

Definition _serialize_uplink_messages_count (self : t) : result bits :=
  _serialize_uint (uplink_messages_count self)
                  UPLINK_MESSAGES_COUNT_BITS true.

Definition _serialize_basic_long_messages_count (self : t) : result bits :=
  _serialize_uint (basic_long_messages_count self)
                  BASIC_LONG_MESSAGES_COUNT_BITS true.

(** The body of [serialize], before framing. *)
Definition body (self : t) : result bits :=
  timestamp_bitarray <- _serialize_timestamp self ;;
  f1 <- _serialize_bool (gps_position_valid self) ;;
  f2 <- _serialize_bool (maintenance_required self) ;;
  f3 <- _serialize_bool (ident_talkback self) ;;
  f4 <- _serialize_bool (self_assigned_address_talkback self) ;;
  f5 <- _serialize_bool (gps_battery_low self) ;;
  f6 <- _serialize_bool (RATCS_talkback self) ;;
  r1 <- BitArray_uint 0 RESERVED_1_BITS ;;
  f7 <- _serialize_bool (UAT_initialized self) ;;
  let t1 := firstn TIMESTAMP_BITS_1 timestamp_bitarray in
  f8 <- _serialize_bool (CSA_requested self) ;;
  f9 <- _serialize_bool (CSA_unavailable self) ;;
  r2 <- BitArray_uint 0 RESERVED_2_BITS ;;
  f10 <- _serialize_bool (UTC_timing_valid self) ;;
  let t3 := skipn (TIMESTAMP_BITS_1 + TIMESTAMP_BITS_2) timestamp_bitarray in
  let t2 := firstn TIMESTAMP_BITS_2
              (skipn TIMESTAMP_BITS_1 timestamp_bitarray) in
  f11 <- _serialize_uplink_messages_count self ;;
  r3 <- BitArray_uint 0 RESERVED_3_BITS ;;
  f12 <- _serialize_basic_long_messages_count self ;;
  Ok (f1 ++ f2 ++ f3 ++ f4 ++ f5 ++ f6 ++ r1 ++ f7 ++ t1 ++ f8 ++ f9
      ++ r2 ++ f10 ++ t3 ++ t2 ++ f11 ++ r3 ++ f12).

Definition serialize (self : t) (outgoing_lsb : bool) : result bytes :=
  all_data <- body self ;;
  build MESSAGE_IDS all_data outgoing_lsb.

Definition read_body : reader t :=
  gps_position_valid <~ field _deserialize_bool 1 ;;
  maintenance_required <~ field _deserialize_bool 1 ;;
  ident_talkback <~ field _deserialize_bool 1 ;;
  self_assigned_address_talkback <~ field _deserialize_bool 1 ;;
  gps_battery_low <~ field _deserialize_bool 1 ;;
  RATCS_talkback <~ field _deserialize_bool 1 ;;
  _ <~ raw RESERVED_1_BITS ;;
  UAT_initialized <~ field _deserialize_bool 1 ;;
  timestamp_bits_1 <~ raw TIMESTAMP_BITS_1 ;;
  CSA_requested <~ field _deserialize_bool 1 ;;
  CSA_unavailable <~ field _deserialize_bool 1 ;;
  _ <~ raw RESERVED_2_BITS ;;
  UTC_timing_valid <~ field _deserialize_bool 1 ;;
  timestamp_bits_2 <~ raw TIMESTAMP_BITS_2 ;;
  timestamp_bits_3 <~ raw TIMESTAMP_BITS_3 ;;
  timestamp <~ (fun data =>
    ts <- _deserialize_timestamp
            (timestamp_bits_1 ++ timestamp_bits_3 ++ timestamp_bits_2) ;;
    Ok (ts, data)) ;;
  uplink_messages_count <~
    field _deserialize_uint UPLINK_MESSAGES_COUNT_BITS ;;
  _ <~ raw RESERVED_3_BITS ;;
  basic_long_messages_count <~
    field _deserialize_uint BASIC_LONG_MESSAGES_COUNT_BITS ;;
  finish (Ok {|
    gps_position_valid := gps_position_valid;
    maintenance_required := maintenance_required;
    ident_talkback := ident_talkback;
    self_assigned_address_talkback := self_assigned_address_talkback;
    gps_battery_low := gps_battery_low;
    RATCS_talkback := RATCS_talkback;
    UAT_initialized := UAT_initialized;
    CSA_requested := CSA_requested;
    CSA_unavailable := CSA_unavailable;
    UTC_timing_valid := UTC_timing_valid;
    timestamp := timestamp;
    uplink_messages_count := uplink_messages_count;
    basic_long_messages_count := basic_long_messages_count |}).

Definition deserialize (data : bytes) (incoming_msb : bool) : result t :=
  data <- _clean_data MESSAGE_IDS data incoming_msb ;;
  run_reader read_body data.

End HeartbeatMessage.

(* ================================================================== *)
(** * messages/height_above_terrain.py *)

Module HeightAboveTerrainMessage.

Definition MESSAGE_IDS : bytes := [x09].

Record t : Type := { height_above_terrain : option Z }.

Definition HEIGHT_ABOVE_TERRAIN_BITS : nat := 16.
Definition HEIGHT_ABOVE_TERRAIN_INVALID_VALUE : Z := 0x8000.

Import BaseMessage.

Definition _serialize_height_above_terrain (self : t) : result bits :=
  match height_above_terrain self with
  | None =>
      _serialize_uint HEIGHT_ABOVE_TERRAIN_INVALID_VALUE
                      HEIGHT_ABOVE_TERRAIN_BITS true
  | Some h => _serialize_int h HEIGHT_ABOVE_TERRAIN_BITS true
  end.

Definition _deserialize_height_above_terrain
           (height_above_terrain_bitarray : bits) : result (option Z) :=
  u <- BitArray_get_uint height_above_terrain_bitarray ;;
  if u =? HEIGHT_ABOVE_TERRAIN_INVALID_VALUE then Ok None
  else
    h <- _deserialize_int height_above_terrain_bitarray ;;
    Ok (Some h).

Definition serialize (self : t) (outgoing_lsb : bool) : result bytes :=
  all_data <- _serialize_height_above_terrain self ;;
  build MESSAGE_IDS all_data outgoing_lsb.

Definition read_body : reader t :=
  height_above_terrain <~
    field _deserialize_height_above_terrain HEIGHT_ABOVE_TERRAIN_BITS ;;
  finish (Ok {| height_above_terrain := height_above_terrain |}).

Definition deserialize (data : bytes) (incoming_msb : bool) : result t :=
  data <- _clean_data MESSAGE_IDS data incoming_msb ;;
  run_reader read_body data.

End HeightAboveTerrainMessage.

(* ================================================================== *)
(** * messages/_base_traffic_report.py *)

Module BaseTrafficReport.

Record t : Type := {
  traffic_alert : bool;
  address_type : AddressType.t;
  address : Z;
  latitude : Q;
  longitude : Q;
  pressure_altitude : option Z;
  track_type : TrackType.t;
  report_extrapolated : bool;
  airborne : bool;
  integrity : Integrity.t;
  accuracy : Accuracy.t;
  horizontal_velocity : option Z;
  vertical_velocity : option Z;
  track : Z;
  emitter_category : EmitterCategory.t;
  callsign : option str;
  emergency_priority_code : EmergencyPriorityCode.t
}.

Definition TRAFFIC_ALERT_BITS : nat := 4.
Definition ADDRESS_TYPE_BITS : nat := 4.
Definition ADDRESS_BITS : nat := 24.
Definition LATITUDE_BITS : nat := 24.
Definition LATITUDE_MAX : Q := 90.
Definition LATITUDE_MIN : Q := -90.
Definition LONGITUDE_BITS : nat := 24.
Definition LONGITUDE_MAX : Q := 180.
Definition LONGITUDE_MIN : Q := -180.
Definition LATLON_RESOLUTION : Q := 180 / inject_Z (2 ^ 23).
Definition PRESSURE_ALTITUDE_BITS : nat := 12.
Definition PRESSURE_ALTITUDE_RESOLUTION : Q := 25.
Definition PRESSURE_ALTITUDE_OFFSET : Z := 1000.
Definition PRESSURE_ALTITUDE_MINIMUM : Z := -1000.
Definition PRESSURE_ALTITUDE_MAXIMUM : Z := 101350.
Definition PRESSURE_ALTITUDE_INVALID_VALUE : Z := 0xFFF.
Definition TRACK_TYPE_BITS : nat := 2.
Definition INTEGRITY_BITS : nat := 4.
Definition ACCURACY_BITS : nat := 4.
Definition HORIZONTAL_VELOCITY_BITS : nat := 12.
Definition HORIZONTAL_VELOCITY_MAX : Z := 4094.
Definition HORIZONTAL_VELOCITY_MAX_VALUE : Z := 0xFFE.
Definition HORIZONTAL_VELOCITY_INVALID : Z := 0xFFF.
Definition VERTICAL_VELOCITY_BITS : nat := 12.
Definition VERTICAL_VELOCITY_RESOLUTION : Q := 64.
Definition VERTICAL_VELOCITY_INVALID : Z := 0x800.
Definition VERTICAL_VELOCITY_MAX : Z := 32576.
Definition VERTICAL_VELOCITY_MIN : Z := -32576.
Definition VERTICAL_VELOCITY_MAX_VALUE : Z := 32640.
Definition VERTICAL_VELOCITY_MIN_VALUE : Z := -32640.
Definition TRACK_BITS : nat := 8.
Definition TRACK_RESOLUTION : Q := 360 / 256.
Definition EMITTER_CATEGORY_BITS : nat := 8.
Definition CALLSIGN_BITS : nat := 64.
Definition EMERGENCY_PRIORITY_CODE_BITS : nat := 4.
Definition RESERVED_BITS : nat := 4.

Import BaseMessage.

Definition _deserialize_traffic_alert (traffic_alert_bitarray : bits)
  : result bool :=
  BitArray_index0 traffic_alert_bitarray.

Definition _serialize_traffic_alert (self : t) : result bits :=
  _serialize_uint (Z.b2z (traffic_alert self)) TRAFFIC_ALERT_BITS true.

Definition _deserialize_address_type := _deserialize_enum AddressType_enum.

Definition _serialize_address_type (self : t) : result bits :=
  _serialize_enum AddressType_enum (address_type self) ADDRESS_TYPE_BITS.

Definition _deserialize_address := _deserialize_uint.

Definition _serialize_address (self : t) : result bits :=
  _serialize_uint (address self) ADDRESS_BITS false.

Definition _deserialize_latitude (latitude_bitarray : bits) : result Q :=
  _deserialize_resolution_float latitude_bitarray LATLON_RESOLUTION.

Definition _serialize_latitude (self : t) : result bits :=
  let latitude := latitude self in
  let latitude :=
    if negb (Qle_bool LATITUDE_MIN latitude && Qle_bool latitude LATITUDE_MAX)
    then 0%Q else latitude in
  let latitude :=
    if Integrity.value (integrity self) =? Integrity.value Integrity.unknown
    then 0%Q else latitude in
  _serialize_resolution_float latitude LATLON_RESOLUTION LATITUDE_BITS.

Definition _deserialize_longitude (longitude_bitarray : bits) : result Q :=
  _deserialize_resolution_float longitude_bitarray LATLON_RESOLUTION.

Definition _serialize_longitude (self : t) : result bits :=
  let longitude := longitude self in
  let longitude :=
    if negb (Qle_bool LONGITUDE_MIN longitude
             && Qle_bool longitude LONGITUDE_MAX)
    then 0%Q else longitude in
  let longitude :=
    if Integrity.value (integrity self) =? Integrity.value Integrity.unknown
    then 0%Q else longitude in
  _serialize_resolution_float longitude LATLON_RESOLUTION LONGITUDE_BITS.

Definition _deserialize_pressure_altitude
           (pressure_altitude_bitarray : bits) : result (option Z) :=
  u <- BitArray_get_uint pressure_altitude_bitarray ;;
  if u =? PRESSURE_ALTITUDE_INVALID_VALUE then Ok None
  else
    v <- _deserialize_resolution_offset_uint
           pressure_altitude_bitarray PRESSURE_ALTITUDE_OFFSET
           PRESSURE_ALTITUDE_RESOLUTION ;;
    Ok (Some v).

Definition _serialize_pressure_altitude (self : t) : result bits :=
  match pressure_altitude self with
  | None =>
      _serialize_uint PRESSURE_ALTITUDE_INVALID_VALUE
                      PRESSURE_ALTITUDE_BITS true
  | Some pa =>
      let pressure_altitude :=
        Z.max (Z.min pa PRESSURE_ALTITUDE_MAXIMUM)
              PRESSURE_ALTITUDE_MINIMUM in
      _serialize_resolution_offset_uint
        pressure_altitude PRESSURE_ALTITUDE_OFFSET
        PRESSURE_ALTITUDE_RESOLUTION PRESSURE_ALTITUDE_BITS
  end.

Definition _deserialize_track_type := _deserialize_enum TrackType_enum.

Definition _serialize_track_type (self : t) : result bits :=
  _serialize_enum TrackType_enum (track_type self) TRACK_TYPE_BITS.

Definition _deserialize_report_extrapolated := _deserialize_bool.

Definition _serialize_report_extrapolated (self : t) : result bits :=
  _serialize_bool (report_extrapolated self).

Definition _deserialize_airborne := _deserialize_bool.

Definition _serialize_airborne (self : t) : result bits :=
  _serialize_bool (airborne self).

Definition _deserialize_integrity := _deserialize_enum Integrity_enum.

Definition _serialize_integrity (self : t) : result bits :=
  _serialize_enum Integrity_enum (integrity self) INTEGRITY_BITS.

Definition _deserialize_accuracy := _deserialize_enum Accuracy_enum.

Definition _serialize_accuracy (self : t) : result bits :=
  _serialize_enum Accuracy_enum (accuracy self) ACCURACY_BITS.

Definition _serialize_horizontal_velocity (self : t) : result bits :=
  match horizontal_velocity self with
  | None =>
      _serialize_uint HORIZONTAL_VELOCITY_INVALID
                      HORIZONTAL_VELOCITY_BITS true
  | Some hv =>
      let horizontal_velocity := Z.min hv HORIZONTAL_VELOCITY_MAX in
      _serialize_uint horizontal_velocity HORIZONTAL_VELOCITY_BITS true
  end.

Definition _deserialize_horizontal_velocity
           (horizontal_velocity_bitarray : bits) : result (option Z) :=
  u <- BitArray_get_uint horizontal_velocity_bitarray ;;
  if u =? HORIZONTAL_VELOCITY_INVALID then Ok None
  else
    v <- _deserialize_uint horizontal_velocity_bitarray ;;
    Ok (Some v).

Definition _serialize_vertical_velocity (self : t) : result bits :=
  match vertical_velocity self with
  | None =>
      _serialize_uint VERTICAL_VELOCITY_INVALID VERTICAL_VELOCITY_BITS true
  | Some vv =>
      let vertical_velocity :=
        if vv >? VERTICAL_VELOCITY_MAX then VERTICAL_VELOCITY_MAX_VALUE
        else vv in
      let vertical_velocity :=
        if vertical_velocity <? VERTICAL_VELOCITY_MIN
        then VERTICAL_VELOCITY_MIN_VALUE else vertical_velocity in
      _serialize_resolution_int (inject_Z vertical_velocity)
        VERTICAL_VELOCITY_RESOLUTION VERTICAL_VELOCITY_BITS
  end.

Definition _deserialize_vertical_velocity
           (vertical_velocity_bitarray : bits) : result (option Z) :=
  u <- BitArray_get_uint vertical_velocity_bitarray ;;
  if u =? VERTICAL_VELOCITY_INVALID then Ok None
  else
    v <- _deserialize_resolution_int
           vertical_velocity_bitarray VERTICAL_VELOCITY_RESOLUTION ;;
    Ok (Some v).

Definition _serialize_track (self : t) : result bits :=
  _serialize_resolution_uint (track self) TRACK_RESOLUTION TRACK_BITS.

Definition _deserialize_track (track_bitarray : bits) : result Z :=
  _deserialize_resolution_uint track_bitarray TRACK_RESOLUTION.

Definition _deserialize_emitter_category :=
  _deserialize_enum EmitterCategory_enum.

Definition _serialize_emitter_category (self : t) : result bits :=
  _serialize_enum EmitterCategory_enum (emitter_category self)
                  EMITTER_CATEGORY_BITS.

(** [_serialize_callsign] on a callsign value. *)
Definition serialize_callsign_of (callsign : option str) : result bits :=
  let callsign := option_map str_strip callsign in
  match callsign with
  | Some ((_ :: _) as callsign) =>
      let callsign := firstn CALLSIGN_BITS (str_upper callsign) in
      if negb (str_isalnum callsign) then Raise InvalidCallsign
      else _serialize_str callsign CALLSIGN_BITS enc_ascii
  | _ => _serialize_str [] CALLSIGN_BITS enc_ascii
  end.

Definition _serialize_callsign (self : t) : result bits :=
  serialize_callsign_of (callsign self).

Definition _deserialize_callsign (callsign_bitarray : bits) : result str :=
  s <- _deserialize_str_ascii callsign_bitarray ;;
  Ok (str_rstrip s).

Definition _deserialize_emergency_priority_code :=
  _deserialize_enum EmergencyPriorityCode_enum.

Definition _serialize_emergency_priority_code (self : t) : result bits :=
  _serialize_enum EmergencyPriorityCode_enum (emergency_priority_code self)
                  EMERGENCY_PRIORITY_CODE_BITS.

Definition body (self : t) : result bits :=
  f1 <- _serialize_traffic_alert self ;;
  f2 <- _serialize_address_type self ;;
  f3 <- _serialize_address self ;;
  f4 <- _serialize_latitude self ;;
  f5 <- _serialize_longitude self ;;
  f6 <- _serialize_pressure_altitude self ;;
  f7 <- _serialize_airborne self ;;
  f8 <- _serialize_report_extrapolated self ;;
  f9 <- _serialize_track_type self ;;
  f10 <- _serialize_integrity self ;;
  f11 <- _serialize_accuracy self ;;
  f12 <- _serialize_horizontal_velocity self ;;
  f13 <- _serialize_vertical_velocity self ;;
  f14 <- _serialize_track self ;;
  f15 <- _serialize_emitter_category self ;;
  f16 <- _serialize_callsign self ;;
  f17 <- _serialize_emergency_priority_code self ;;
  r <- BitArray_uint 0 RESERVED_BITS ;;
  Ok (f1 ++ f2 ++ f3 ++ f4 ++ f5 ++ f6 ++ f7 ++ f8 ++ f9 ++ f10 ++ f11
      ++ f12 ++ f13 ++ f14 ++ f15 ++ f16 ++ f17 ++ r).

Definition read_body : reader t :=
  traffic_alert <~ field _deserialize_traffic_alert TRAFFIC_ALERT_BITS ;;
  address_type <~ field _deserialize_address_type ADDRESS_TYPE_BITS ;;
  address <~ field _deserialize_address ADDRESS_BITS ;;
  latitude <~ field _deserialize_latitude LATITUDE_BITS ;;
  longitude <~ field _deserialize_longitude LONGITUDE_BITS ;;
  pressure_altitude <~
    field _deserialize_pressure_altitude PRESSURE_ALTITUDE_BITS ;;
  airborne <~ field _deserialize_airborne 1 ;;
  report_extrapolated <~ field _deserialize_report_extrapolated 1 ;;
  track_type <~ field _deserialize_track_type TRACK_TYPE_BITS ;;
  integrity <~ field _deserialize_integrity INTEGRITY_BITS ;;
  accuracy <~ field _deserialize_accuracy ACCURACY_BITS ;;
  horizontal_velocity <~
    field _deserialize_horizontal_velocity HORIZONTAL_VELOCITY_BITS ;;
  vertical_velocity <~
    field _deserialize_vertical_velocity VERTICAL_VELOCITY_BITS ;;
  track <~ field _deserialize_track TRACK_BITS ;;
  emitter_category <~
    field _deserialize_emitter_category EMITTER_CATEGORY_BITS ;;
  callsign <~ field _deserialize_callsign CALLSIGN_BITS ;;
  emergency_priority_code <~
    field _deserialize_emergency_priority_code
          EMERGENCY_PRIORITY_CODE_BITS ;;
  _ <~ raw RESERVED_BITS ;;
  finish (Ok {|
    traffic_alert := traffic_alert;
    address_type := address_type;
    address := address;
    latitude := latitude;
    longitude := longitude;
    pressure_altitude := pressure_altitude;
    track_type := track_type;
    report_extrapolated := report_extrapolated;
    airborne := airborne;
    integrity := integrity;
    accuracy := accuracy;
    horizontal_velocity := horizontal_velocity;
    vertical_velocity := vertical_velocity;
    track := track;
    emitter_category := emitter_category;
    callsign := Some callsign;
    emergency_priority_code := emergency_priority_code |}).

(** [serialize] and [deserialize] of a subclass with the given
    [MESSAGE_IDS]. *)
Section Subclass.
Variable MESSAGE_IDS : bytes.

Definition serialize (self : t) (outgoing_lsb : bool) : result bytes :=
  all_data <- body self ;;
  build MESSAGE_IDS all_data outgoing_lsb.

Definition deserialize (data : bytes) (incoming_msb : bool) : result t :=
  data <- _clean_data MESSAGE_IDS data incoming_msb ;;
  run_reader read_body data.
End Subclass.

End BaseTrafficReport.

(** messages/ownship_report.py *)
Module OwnshipReportMessage.
Definition MESSAGE_IDS : bytes := [x0a].
Definition serialize := BaseTrafficReport.serialize MESSAGE_IDS.
Definition deserialize := BaseTrafficReport.deserialize MESSAGE_IDS.
End OwnshipReportMessage.

Module TrafficReportMessage.
(** Modelled from the spec: [messages/traffic_report.py] declares the
    subclass of [BaseTrafficReport] that [parser.py] imports; the spec
    gives its message ID, 20. *)
Definition MESSAGE_IDS : bytes := [x14].
Definition serialize := BaseTrafficReport.serialize MESSAGE_IDS.
Definition deserialize := BaseTrafficReport.deserialize MESSAGE_IDS.
End TrafficReportMessage.

(* ================================================================== *)
(** * messages/foreflight_ahrs.py *)

Module ForeFlightAHRSMessage.

Definition MESSAGE_IDS : bytes := [FOREFLIGHT_MESSAGE_ID; x01].

Record t : Type := {
  roll : option Q;
  pitch : option Q;
  is_magnetic_heading : option bool;
  heading : option Q;
  indicated_airspeed : option Z;
  true_airspeed : option Z
}.

Definition ROLL_BITS : nat := 16.
Definition ROLL_RESOLUTION : Q := 1 / 10.
Definition ROLL_MIN : Q := -180.
Definition ROLL_MAX : Q := 180.
Definition ROLL_INVALID_VALUE : Z := 0x7FFF.
Definition PITCH_BITS : nat := 16.
Definition PITCH_RESOLUTION : Q := 1 / 10.
Definition PITCH_MIN : Q := -180.
Definition PITCH_MAX : Q := 180.
Definition PITCH_INVALID_VALUE : Z := 0x7FFF.
Definition IS_MAGNETIC_HEADING_BITS : nat := 1.
Definition HEADING_BITS : nat := 15.
Definition HEADING_RESOLUTION : Q := 1 / 10.
Definition HEADING_MIN : Q := -360.
Definition HEADING_MAX : Q := 360.
Definition HEADING_INVALID_VALUE : Z := 0xFFFF.
Definition INDICATED_AIRSPEED_BITS : nat := 16.
Definition INDICATED_AIRSPEED_INVALID_VALUE : Z := 0xFFFF.
Definition TRUE_AIRSPEED_BITS : nat := 16.
Definition TRUE_AIRSPEED_INVALID_VALUE : Z := 0xFFFF.

Import BaseMessage.

(** [lo <= x <= hi] on floats. *)
Definition between (lo x hi : Q) : bool := Qle_bool lo x && Qle_bool x hi.

Definition _serialize_roll (self : t) : result bits :=
  match roll self with
  | None => _serialize_uint ROLL_INVALID_VALUE ROLL_BITS true
  | Some r =>
      if negb (between ROLL_MIN r ROLL_MAX)
      then _serialize_uint ROLL_INVALID_VALUE ROLL_BITS true
      else _serialize_resolution_int r ROLL_RESOLUTION ROLL_BITS
  end.

Definition _deserialize_roll (roll_bitarray : bits) : result (option Q) :=
  u <- BitArray_get_uint roll_bitarray ;;
  if u =? ROLL_INVALID_VALUE then Ok None
  else
    v <- _deserialize_resolution_int roll_bitarray ROLL_RESOLUTION ;;
    Ok (Some (inject_Z v)).

Definition _serialize_pitch (self : t) : result bits :=
  match pitch self with
  | None => _serialize_uint PITCH_INVALID_VALUE PITCH_BITS true
  | Some p =>
      if negb (between PITCH_MIN p PITCH_MAX)
      then _serialize_uint PITCH_INVALID_VALUE PITCH_BITS true
      else _serialize_resolution_int p PITCH_RESOLUTION PITCH_BITS
  end.

Definition _deserialize_pitch (pitch_bitarray : bits) : result (option Q) :=
  u <- BitArray_get_uint pitch_bitarray ;;
  if u =? PITCH_INVALID_VALUE then Ok None
  else
    v <- _deserialize_resolution_int pitch_bitarray PITCH_RESOLUTION ;;
    Ok (Some (inject_Z v)).

Definition _serialize_heading (self : t) : result bits :=
  match heading self, is_magnetic_heading self with
  | Some h, Some magnetic =>
      if negb (between HEADING_MIN h HEADING_MAX)
      then _serialize_uint HEADING_INVALID_VALUE
                           (IS_MAGNETIC_HEADING_BITS + HEADING_BITS) true
      else
        a <- _serialize_bool magnetic ;;
        b <- _serialize_resolution_int h HEADING_RESOLUTION HEADING_BITS ;;
        Ok (a ++ b)
  | _, _ =>
      _serialize_uint HEADING_INVALID_VALUE
                      (IS_MAGNETIC_HEADING_BITS + HEADING_BITS) true
  end.

Definition _deserialize_heading (heading_bitarray : bits)
  : result (option bool * option Q) :=
  u <- BitArray_get_uint heading_bitarray ;;
  if u =? HEADING_INVALID_VALUE then Ok (None, None)
  else
    m <- BitArray_index0 heading_bitarray ;;
    h <- _deserialize_resolution_int
           (skipn IS_MAGNETIC_HEADING_BITS heading_bitarray)
           HEADING_RESOLUTION ;;
    Ok (Some m, Some (inject_Z h)).

Definition _serialize_indicated_airspeed (self : t) : result bits :=
  match indicated_airspeed self with
  | None =>
      _serialize_uint INDICATED_AIRSPEED_INVALID_VALUE
                      INDICATED_AIRSPEED_BITS true
  | Some v => _serialize_int v INDICATED_AIRSPEED_BITS true
  end.

Definition _deserialize_indicated_airspeed
           (indicated_airspeed_bitarray : bits) : result (option Z) :=
  u <- BitArray_get_uint indicated_airspeed_bitarray ;;
  if u =? INDICATED_AIRSPEED_INVALID_VALUE then Ok None
  else
    v <- _deserialize_int indicated_airspeed_bitarray ;;
    Ok (Some v).

Definition _serialize_true_airspeed (self : t) : result bits :=
  match true_airspeed self with
  | None =>
      _serialize_uint TRUE_AIRSPEED_INVALID_VALUE TRUE_AIRSPEED_BITS true
  | Some v => _serialize_int v TRUE_AIRSPEED_BITS true
  end.

Definition _deserialize_true_airspeed (true_airspeed_bitarray : bits)
  : result (option Z) :=
  u <- BitArray_get_uint true_airspeed_bitarray ;;
  if u =? TRUE_AIRSPEED_INVALID_VALUE then Ok None
  else
    v <- _deserialize_int true_airspeed_bitarray ;;
    Ok (Some v).

Definition body (self : t) : result bits :=
  f1 <- _serialize_roll self ;;
  f2 <- _serialize_pitch self ;;
  f3 <- _serialize_heading self ;;
  f4 <- _serialize_indicated_airspeed self ;;
  f5 <- _serialize_true_airspeed self ;;
  Ok (f1 ++ f2 ++ f3 ++ f4 ++ f5).

Definition serialize (self : t) (outgoing_lsb : bool) : result bytes :=
  all_data <- body self ;;
  build MESSAGE_IDS all_data outgoing_lsb.

Definition read_body : reader t :=
  roll <~ field _deserialize_roll ROLL_BITS ;;
  pitch <~ field _deserialize_pitch PITCH_BITS ;;
  mh <~ field _deserialize_heading
              (IS_MAGNETIC_HEADING_BITS + HEADING_BITS) ;;
  indicated_airspeed <~
    field _deserialize_indicated_airspeed INDICATED_AIRSPEED_BITS ;;
  true_airspeed <~ field _deserialize_true_airspeed TRUE_AIRSPEED_BITS ;;
  finish (Ok {|
    roll := roll;
    pitch := pitch;
    is_magnetic_heading := fst mh;
    heading := snd mh;
    indicated_airspeed := indicated_airspeed;
    true_airspeed := true_airspeed |}).

Definition deserialize (data : bytes) (incoming_msb : bool) : result t :=
  data <- _clean_data MESSAGE_IDS data incoming_msb ;;
  run_reader read_body data.

End ForeFlightAHRSMessage.

(* ================================================================== *)
(** * messages/_base_uat_report.py *)

Module BaseUATReportMessage.

Record t : Type := {
  time_of_reception : option Z;
  uplink_payload : bytes
}.

Definition TIME_OF_RECEPTION_BITS : nat := 24.
Definition TIME_OF_RECEPTION_RESOLUTION : Q := 80.
Definition TIME_OF_RECEPTION_MIN : Z := 0.
Definition TIME_OF_RECEPTION_MAX : Z := 100000000.
Definition TIME_OF_RECEPTION_INVALID_VALUE : Z := 0xFFFFFF.

Import BaseMessage.

Definition tor_in_range (v : Z) : bool :=
  (TIME_OF_RECEPTION_MIN <=? v) && (v <=? TIME_OF_RECEPTION_MAX).

Definition _serialize_time_of_reception (self : t) : result bits :=
  result_ <-
    match time_of_reception self with
    | None =>
        _serialize_uint TIME_OF_RECEPTION_INVALID_VALUE
                        TIME_OF_RECEPTION_BITS true
    | Some v =>
        if negb (tor_in_range v)
        then _serialize_uint TIME_OF_RECEPTION_INVALID_VALUE
                             TIME_OF_RECEPTION_BITS true
        else _serialize_resolution_uint
               v TIME_OF_RECEPTION_RESOLUTION TIME_OF_RECEPTION_BITS
    end ;;
  byteswap result_.

Definition _deserialize_time_of_reception
           (time_of_reception_bitarray : bits) : result (option Z) :=
  time_of_reception_bitarray <- byteswap time_of_reception_bitarray ;;
  u <- BitArray_get_uint time_of_reception_bitarray ;;
  if u =? TIME_OF_RECEPTION_INVALID_VALUE then Ok None
  else
    v <- _deserialize_resolution_int
           time_of_reception_bitarray TIME_OF_RECEPTION_RESOLUTION ;;
    Ok (Some v).

(** The three subclasses differ in [MESSAGE_IDS] and
    [UPLINK_PAYLOAD_BITS]. *)
Section Subclass.
Variable MESSAGE_IDS : bytes.
Variable UPLINK_PAYLOAD_BITS : nat.

Definition _serialize_uplink_payload (self : t) : result bits :=
  let bitarray := BitArray_of_bytes (uplink_payload self) in
  if negb (length bitarray =? UPLINK_PAYLOAD_BITS)%nat
  then Raise UplinkDataWrongSize
  else Ok bitarray.

Definition _deserialize_uplink_payload (uplink_payload_bitarray : bits)
  : result bytes :=
  BitArray_bytes uplink_payload_bitarray.

Definition body (self : t) : result bits :=
  f1 <- _serialize_time_of_reception self ;;
  f2 <- _serialize_uplink_payload self ;;
  Ok (f1 ++ f2).

Definition serialize (self : t) (outgoing_lsb : bool) : result bytes :=
  all_data <- body self ;;
  build MESSAGE_IDS all_data outgoing_lsb.

Definition read_body : reader t :=
  time_of_reception <~
    field _deserialize_time_of_reception TIME_OF_RECEPTION_BITS ;;
  uplink_payload <~
    field _deserialize_uplink_payload UPLINK_PAYLOAD_BITS ;;
  finish (Ok {|
    time_of_reception := time_of_reception;
    uplink_payload := uplink_payload |}).

Definition deserialize (data : bytes) (incoming_msb : bool) : result t :=
  data <- _clean_data MESSAGE_IDS data incoming_msb ;;
  run_reader read_body data.
End Subclass.

End BaseUATReportMessage.

(** messages/uplink_data.py *)
Module UplinkDataMessage.
Definition MESSAGE_IDS : bytes := [x07].
Definition UPLINK_PAYLOAD_BITS : nat := 432 * 8.
Definition serialize :=
  BaseUATReportMessage.serialize MESSAGE_IDS UPLINK_PAYLOAD_BITS.
Definition deserialize :=
  BaseUATReportMessage.deserialize MESSAGE_IDS UPLINK_PAYLOAD_BITS.
End UplinkDataMessage.

(** messages/basic_uat_report.py *)
Module BasicUATReportMessage.
Definition MESSAGE_IDS : bytes := [x1e].
Definition UPLINK_PAYLOAD_BITS : nat := 18 * 8.
Definition serialize :=
  BaseUATReportMessage.serialize MESSAGE_IDS UPLINK_PAYLOAD_BITS.
Definition deserialize :=
  BaseUATReportMessage.deserialize MESSAGE_IDS UPLINK_PAYLOAD_BITS.
End BasicUATReportMessage.

(** messages/long_uat_report.py *)
Module LongUATReportMessage.
Definition MESSAGE_IDS : bytes := [x1f].
Definition UPLINK_PAYLOAD_BITS : nat := 34 * 8.
Definition serialize :=
  BaseUATReportMessage.serialize MESSAGE_IDS UPLINK_PAYLOAD_BITS.
Definition deserialize :=
  BaseUATReportMessage.deserialize MESSAGE_IDS UPLINK_PAYLOAD_BITS.
End LongUATReportMessage.

(* ================================================================== *)
(** * messages/initialization.py *)

Module InitializationMessage.

Definition MESSAGE_IDS : bytes := [x02].

Record t : Type := {
  audio_test : bool;
  audio_inhibit : bool;
  CDTI_ok : bool;
  CSA_audio_disable : bool;
  CSA_disable : bool
}.

Definition RESERVED_1_BITS : nat := 1.
Definition RESERVED_2_BITS : nat := 4.
Definition RESERVED_3_BITS : nat := 6.

Import BaseMessage.

Definition body (self : t) : result bits :=
  r1 <- BitArray_uint 0 RESERVED_1_BITS ;;
  f1 <- _serialize_bool (audio_test self) ;;
  r2 <- BitArray_uint 0 RESERVED_2_BITS ;;
  f2 <- _serialize_bool (audio_inhibit self) ;;
  f3 <- _serialize_bool (CDTI_ok self) ;;
  r3 <- BitArray_uint 0 RESERVED_3_BITS ;;
  f4 <- _serialize_bool (CSA_audio_disable self) ;;
  f5 <- _serialize_bool (CSA_disable self) ;;
  Ok (r1 ++ f1 ++ r2 ++ f2 ++ f3 ++ r3 ++ f4 ++ f5).

Definition serialize (self : t) (outgoing_lsb : bool) : result bytes :=
  all_data <- body self ;;
  build MESSAGE_IDS all_data outgoing_lsb.

Definition read_body : reader t :=
  _ <~ raw RESERVED_1_BITS ;;
  audio_test <~ field _deserialize_bool 1 ;;
  _ <~ raw RESERVED_2_BITS ;;
  audio_inhibit <~ field _deserialize_bool 1 ;;
  CDTI_ok <~ field _deserialize_bool 1 ;;
  _ <~ raw RESERVED_3_BITS ;;
  CSA_audio_disable <~ field _deserialize_bool 1 ;;
  CSA_disable <~ field _deserialize_bool 1 ;;
  finish (Ok {|
    audio_test := audio_test;
    audio_inhibit := audio_inhibit;
    CDTI_ok := CDTI_ok;
    CSA_audio_disable := CSA_audio_disable;
    CSA_disable := CSA_disable |}).

Definition deserialize (data : bytes) (incoming_msb : bool) : result t :=
  data <- _clean_data MESSAGE_IDS data incoming_msb ;;
  run_reader read_body data.

End InitializationMessage.

(* ================================================================== *)
(** * messages/ownship_geometric_altitude.py *)

Module OwnshipGeometricAltitudeMessage.

Definition MESSAGE_IDS : bytes := [x0b].

Record t : Type := {
  geo_altitude : Z;
  vertical_warning_indicator : bool;
  vertical_figure_of_merit : option Z
}.

Definition GEO_ALTITUDE_RESOLUTION : Q := 5.
Definition GEO_ALTITUDE_BITS : nat := 16.
Definition VERTICAL_FIGURE_OF_MERIT_UNAVAILABLE : Z := 0x7FFF.
Definition VERTICAL_FIGURE_OF_MERIT_MAX : Z := 32766.
Definition VERTICAL_FIGURE_OF_MERIT_MAX_VALUE : Z := 0x7FFE.
Definition VERTICAL_FIGURE_OF_MERIT_BITS : nat := 15.

Import BaseMessage.

Definition _serialize_geo_altitude (self : t) : result bits :=
  _serialize_resolution_int (inject_Z (geo_altitude self))
                            GEO_ALTITUDE_RESOLUTION GEO_ALTITUDE_BITS.

Definition _serialize_vertical_warning_indicator (self : t) : result bits :=
  _serialize_bool (vertical_warning_indicator self).

Definition _serialize_vertical_figure_of_merit (self : t) : result bits :=
  let vertical_figure_of_merit_normalized :=
    match vertical_figure_of_merit self with
    | None => VERTICAL_FIGURE_OF_MERIT_UNAVAILABLE
    | Some v =>
        if v >? VERTICAL_FIGURE_OF_MERIT_MAX
        then VERTICAL_FIGURE_OF_MERIT_MAX_VALUE
        else v
    end in
  BitArray_uint vertical_figure_of_merit_normalized
                VERTICAL_FIGURE_OF_MERIT_BITS.

Definition body (self : t) : result bits :=
  f1 <- _serialize_geo_altitude self ;;
  f2 <- _serialize_vertical_warning_indicator self ;;
  f3 <- _serialize_vertical_figure_of_merit self ;;
  Ok (f1 ++ f2 ++ f3).

Definition serialize (self : t) (outgoing_lsb : bool) : result bytes :=
  all_data <- body self ;;
  build MESSAGE_IDS all_data outgoing_lsb.

Definition _deserialize_geo_altitude (geo_altitude_bitarray : bits)
  : result Z :=
  _deserialize_resolution_int geo_altitude_bitarray GEO_ALTITUDE_RESOLUTION.

Definition _deserialize_vertical_warning_indicator := _deserialize_bool.

Definition _deserialize_vertical_figure_of_merit
           (vertical_figure_of_merit_bitarray : bits) : result (option Z) :=
  vertical_figure_of_merit <-
    BitArray_get_uint vertical_figure_of_merit_bitarray ;;
  if vertical_figure_of_merit =? VERTICAL_FIGURE_OF_MERIT_UNAVAILABLE
  then Ok None
  else if vertical_figure_of_merit =? VERTICAL_FIGURE_OF_MERIT_MAX_VALUE
       then Ok (Some VERTICAL_FIGURE_OF_MERIT_MAX)
       else Ok (Some vertical_figure_of_merit).

Definition read_body : reader t :=
  geo_altitude <~ field _deserialize_geo_altitude GEO_ALTITUDE_BITS ;;
  vertical_warning_indicator <~
    field _deserialize_vertical_warning_indicator 1 ;;
  vertical_figure_of_merit <~
    field _deserialize_vertical_figure_of_merit
          VERTICAL_FIGURE_OF_MERIT_BITS ;;
  finish (Ok {|
    geo_altitude := geo_altitude;
    vertical_warning_indicator := vertical_warning_indicator;
    vertical_figure_of_merit := vertical_figure_of_merit |}).

Definition deserialize (data : bytes) (incoming_msb : bool) : result t :=
  data <- _clean_data MESSAGE_IDS data incoming_msb ;;
  run_reader read_body data.

End OwnshipGeometricAltitudeMessage.

(* ================================================================== *)
(** * messages/foreflight_id.py (encoder) *)

Module ForeFlightIDMessage.

Definition MESSAGE_IDS : bytes := [FOREFLIGHT_MESSAGE_ID; x00].

Record t : Type := {
  device_serial_number : option Z;
  device_name : str;
  device_long_name : option str;
  is_msl : bool;
  version : Z
}.

Definition VERSION_BITS : nat := 8.
Definition DEVICE_SERIAL_NUMBER_BITS : nat := 64.
Definition DEVICE_SERIAL_NUMBER_INVALID_VALUE : Z := 0xFFFFFFFFFFFFFFFF.
Definition DEVICE_NAME_BITS : nat := 64.
Definition DEVICE_LONG_NAME_BITS : nat := 128.
Definition RESERVED_BITS_1 : nat := 7.
Definition RESERVED_BITS_2 : nat := 24.

Import BaseMessage.

Definition _serialize_version (self : t) : result bits :=
  _serialize_uint (version self) VERSION_BITS true.

Definition _serialize_device_serial_number (self : t) : result bits :=
  let device_serial_number :=
    match device_serial_number self with
    | None => DEVICE_SERIAL_NUMBER_INVALID_VALUE
    | Some n => n
    end in
  _serialize_uint device_serial_number DEVICE_SERIAL_NUMBER_BITS false.

Definition _serialize_device_name (self : t) : result bits :=
  _serialize_str (device_name self) DEVICE_NAME_BITS enc_utf8.

Definition _serialize_device_long_name (self : t) : result bits :=
  let device_long_name :=
    match device_long_name self with
    | None => device_name self
    | Some n => n
    end in
  _serialize_str device_long_name DEVICE_LONG_NAME_BITS enc_utf8.

Definition _serialize_is_msl (self : t) : result bits :=
  _serialize_bool (is_msl self).

Definition body (self : t) : result bits :=
  f1 <- _serialize_version self ;;
  f2 <- _serialize_device_serial_number self ;;
  f3 <- _serialize_device_name self ;;
  f4 <- _serialize_device_long_name self ;;
  r1 <- BitArray_uint 0 RESERVED_BITS_1 ;;
  f5 <- _serialize_is_msl self ;;
  r2 <- BitArray_uint 0 RESERVED_BITS_2 ;;
  Ok (f1 ++ f2 ++ f3 ++ f4 ++ r1 ++ f5 ++ r2).

Definition serialize (self : t) (outgoing_lsb : bool) : result bytes :=
  all_data <- body self ;;
  build MESSAGE_IDS all_data outgoing_lsb.

End ForeFlightIDMessage.

(* ================================================================== *)
(** * Every message type

    The registry of [parser.py] as a tagged union, with the [serialize]
    of each class. *)

Inductive message : Type :=
  | Heartbeat (m : HeartbeatMessage.t)
  | Initialization (m : InitializationMessage.t)
  | UplinkData (m : BaseUATReportMessage.t)
  | HeightAboveTerrain (m : HeightAboveTerrainMessage.t)
  | OwnshipReport (m : BaseTrafficReport.t)
  | OwnshipGeometricAltitude (m : OwnshipGeometricAltitudeMessage.t)
  | TrafficReport (m : BaseTrafficReport.t)
  | BasicUATReport (m : BaseUATReportMessage.t)
  | LongUATReport (m : BaseUATReportMessage.t)
  | ForeFlightID (m : ForeFlightIDMessage.t)
  | ForeFlightAHRS (m : ForeFlightAHRSMessage.t).

Definition message_ids (r : message) : bytes :=
  match r with
  | Heartbeat _ => HeartbeatMessage.MESSAGE_IDS
  | Initialization _ => InitializationMessage.MESSAGE_IDS
  | UplinkData _ => UplinkDataMessage.MESSAGE_IDS
  | HeightAboveTerrain _ => HeightAboveTerrainMessage.MESSAGE_IDS
  | OwnshipReport _ => OwnshipReportMessage.MESSAGE_IDS
  | OwnshipGeometricAltitude _ => OwnshipGeometricAltitudeMessage.MESSAGE_IDS
  | TrafficReport _ => TrafficReportMessage.MESSAGE_IDS
  | BasicUATReport _ => BasicUATReportMessage.MESSAGE_IDS
  | LongUATReport _ => LongUATReportMessage.MESSAGE_IDS
  | ForeFlightID _ => ForeFlightIDMessage.MESSAGE_IDS
  | ForeFlightAHRS _ => ForeFlightAHRSMessage.MESSAGE_IDS
  end.

Definition serialize (r : message) (outgoing_lsb : bool) : result bytes :=
  match r with
  | Heartbeat m => HeartbeatMessage.serialize m outgoing_lsb
  | Initialization m => InitializationMessage.serialize m outgoing_lsb
  | UplinkData m => UplinkDataMessage.serialize m outgoing_lsb
  | HeightAboveTerrain m => HeightAboveTerrainMessage.serialize m outgoing_lsb
  | OwnshipReport m => OwnshipReportMessage.serialize m outgoing_lsb
  | OwnshipGeometricAltitude m =>
      OwnshipGeometricAltitudeMessage.serialize m outgoing_lsb
  | TrafficReport m => TrafficReportMessage.serialize m outgoing_lsb
  | BasicUATReport m => BasicUATReportMessage.serialize m outgoing_lsb
  | LongUATReport m => LongUATReportMessage.serialize m outgoing_lsb
  | ForeFlightID m => ForeFlightIDMessage.serialize m outgoing_lsb
  | ForeFlightAHRS m => ForeFlightAHRSMessage.serialize m outgoing_lsb
  end.

(* ================================================================== *)
(** * parser.py

    [KNOWN_MESSAGE_TYPES] maps a tuple of message IDs to a message class;
    [parse_message] calls the [deserialize] of the class on the bit array
    that [deconstruct] returns, where [_clean_data] lets a [BitArray]
    through unchanged.  The registry is kept abstract here: a partial map
    from message IDs to the decoder of a body. *)

Section Parser.

Variable M : Type.
Variable KNOWN_MESSAGE_TYPES : bytes -> option (bits -> result M).

Definition parse_message (data : bytes) (incoming_msb ignore_unknown : bool)
  : result (option M) :=
  '(message_ids, message_data) <- deconstruct data incoming_msb ;;
  match KNOWN_MESSAGE_TYPES message_ids with
  | None =>
      if ignore_unknown then Ok None else Raise UnkownMessageID
  | Some deserialize_ =>
      m <- deserialize_ message_data ;; Ok (Some m)
  end.

(** [data.index(FLAG_BYTE, 1)]: the position of the first flag byte at
    index 1 or later, [ValueError] when there is none. *)
Fixpoint index_from (x : byte) (data : bytes) (start : nat) : result nat :=
  match data with
  | [] => Raise ValueError
  | b :: rest =>
      if Byte.eqb b x then Ok start else index_from x rest (S start)
  end.

Definition index_flag_from_1 (data : bytes) : result nat :=
  index_from FLAG_BYTE (tl data) 1.

(** The loop of [parse_messages], [message_count] turns. *)
Fixpoint parse_loop (message_count : nat) (data : bytes)
         (incoming_msb ignore_unknown : bool) (output : list M)
  : result (list M) :=
  match message_count with
  | O => Ok output
  | S k =>
      message_end_index <- index_flag_from_1 data ;;
      msg <- parse_message (firstn (message_end_index + 1) data)
               incoming_msb ignore_unknown ;;
      let output := match msg with
                    | Some m => output ++ [m]
                    | None => output
                    end in
      parse_loop k (skipn (message_end_index + 1) data)
                 incoming_msb ignore_unknown output
  end.

Definition parse_messages (data : bytes) (incoming_msb ignore_unknown : bool)
  : result (list M) :=
  let flag_byte_count := count_occ Byte.byte_eq_dec data FLAG_BYTE in
  let message_count := Nat.div flag_byte_count 2 in
  parse_loop message_count data incoming_msb ignore_unknown [].

End Parser.

Arguments parse_message {M} KNOWN_MESSAGE_TYPES data incoming_msb
  ignore_unknown.
Arguments parse_loop {M} KNOWN_MESSAGE_TYPES message_count data incoming_msb
  ignore_unknown output.
Arguments parse_messages {M} KNOWN_MESSAGE_TYPES data incoming_msb
  ignore_unknown.

(** [lsb_int] of [utils/bitarray.py]. *)
Definition lsb_int (int_ : Z) (length_ : nat) : result Z :=
  ba <- BitArray_uint int_ length_ ;;
  BitArray_get_uint (lsb ba).

(* ================================================================== *)
(** * Definitions used to state the properties *)

(** Reversal of the bits of one byte: what [lsb] does to each byte. *)
Definition rev_byte (b : byte) : byte :=
  let '(b0, (b1, (b2, (b3, (b4, (b5, (b6, b7))))))) := Byte.to_bits b in
  Byte.of_bits (b7, (b6, (b5, (b4, (b3, (b2, (b1, b0))))))).

(** The generator of CRC-16-CCITT, x^16 + x^12 + x^5 + 1, and the
    remainder of a polynomial over GF(2) by it: [poly_mod k p] clears the
    coefficients of degree 16 to 16 + k - 1 of [p], highest first. *)
Definition CCITT_GENERATOR : Z := 0x11021.

Fixpoint poly_mod (k : nat) (p : Z) : Z :=
  match k with
  | O => p
  | S k' =>
      poly_mod k'
        (if Z.testbit p (16 + Z.of_nat k')
         then Z.lxor p (Z.shiftl CCITT_GENERATOR (Z.of_nat k'))
         else p)
  end.

(** The table entry of index [i] for polynomial 0x1021 without
    reflection: the remainder of [i * x^16]. *)
Definition ccitt_table (i : Z) : Z := poly_mod 8 (Z.shiftl i 16).

(** The recurrence [compute_crc] runs: the table is indexed by the high
    byte of the CRC and the data byte is XORed into the result. *)
Definition crc_recurrence (data : bytes) : Z :=
  fold_left
    (fun crc c =>
       Z.lxor (Z.lxor (ccitt_table (Z.shiftr crc 8))
                      (Z.land (Z.shiftl crc 8) 0xFFFF))
              (byte_to_Z c))
    data 0.

(** The recurrence as the specification words it: the table is indexed by
    the high byte of the CRC XOR the data byte. *)
Definition crc_recurrence_index_xor (data : bytes) : Z :=
  fold_left
    (fun crc c =>
       Z.lxor (ccitt_table (Z.lxor (Z.shiftr crc 8) (byte_to_Z c)))
              (Z.land (Z.shiftl crc 8) 0xFFFF))
    data 0.

(** A 16-bit value emitted low byte first. *)
Definition little_endian_16 (crc : Z) (out : bytes) : Prop :=
  exists lo hi,
    out = [lo; hi] /\ byte_to_Z lo = crc mod 256 /\ byte_to_Z hi = crc / 256.

(** Position by position: no flag byte, and a control-escape byte is
    always followed by the stuffed value of a flag or control-escape
    byte. *)
Definition stuffed (region : bytes) : Prop :=
  forall (i : nat) (b : byte),
    nth_error region i = Some b ->
    b <> FLAG_BYTE
    /\ (b = CONTROL_ESCAPE_BYTE ->
        exists original,
          (original = FLAG_BYTE \/ original = CONTROL_ESCAPE_BYTE)
          /\ nth_error region (S i)
             = Some (byte_xor original ESCAPE_XOR_BYTE)).

(** The frame [build] assembles before the optional bit reversal. *)
Definition frame_of (payload crc : bytes) : bytes :=
  FLAG_BYTE :: escape (payload ++ crc) ++ [FLAG_BYTE].

(** The message IDs a frame can carry: one byte other than 0x65, or 0x65
    and a sub-ID. *)
Definition well_formed_ids (message_ids : bytes) : Prop :=
  (exists i, message_ids = [i] /\ i <> FOREFLIGHT_MESSAGE_ID)
  \/ (exists s, message_ids = [FOREFLIGHT_MESSAGE_ID; s]).


(** Saturation to the range of a signed integer of [n] bits. *)
Definition saturate (n : nat) (z : Z) : Z :=
  Z.max (Z.min z (2 ^ (Z.of_nat n - 1) - 1)) (- 2 ^ (Z.of_nat n - 1)).

(** The signed reading of an unsigned [n]-bit pattern [u]. *)
Definition twos_complement (n : nat) (u : Z) : Z :=
  if u <? 2 ^ (Z.of_nat n - 1) then u else u - 2 ^ Z.of_nat n.

(** The record of the first scenario of the specification: a Heartbeat
    at 00:00:01 with only [UAT_initialized] set. *)
Definition heartbeat_scenario : HeartbeatMessage.t := {|
  HeartbeatMessage.gps_position_valid := false;
  HeartbeatMessage.maintenance_required := false;
  HeartbeatMessage.ident_talkback := false;
  HeartbeatMessage.self_assigned_address_talkback := false;
  HeartbeatMessage.gps_battery_low := false;
  HeartbeatMessage.RATCS_talkback := false;
  HeartbeatMessage.UAT_initialized := true;
  HeartbeatMessage.CSA_requested := false;
  HeartbeatMessage.CSA_unavailable := false;
  HeartbeatMessage.UTC_timing_valid := false;
  HeartbeatMessage.timestamp := datetime.mk_time 0 0 1 0 true;
  HeartbeatMessage.uplink_messages_count := 0;
  HeartbeatMessage.basic_long_messages_count := 0 |}.

(** A Heartbeat frame whose opening flag byte is replaced by 0x00. *)
Definition frame_without_opening_flag : bytes :=
  [x00; x00; x01; x00; x01; x00; x00; x00; x85; x45; x7e].

(** The same frame with the closing flag byte replaced instead. *)
Definition frame_without_closing_flag : bytes :=
  [x7e; x00; x01; x00; x01; x00; x00; x00; x85; x45; x00].

(** The span of [len] bits that starts at bit [start] of a body. *)
Definition span (body : bits) (start len : nat) : bits :=
  firstn len (skipn start body).

(** A float field that carries a value outside [lo, hi]. *)
Definition outside (field_value : option Q) (lo hi : Q) : Prop :=
  exists x, field_value = Some x /\ ~ (lo <= x /\ x <= hi)%Q.

(** An integer field that carries a value outside [lo, hi]. *)
Definition outside_Z (field_value : option Z) (lo hi : Z) : Prop :=
  exists x, field_value = Some x /\ ~ (lo <= x <= hi).

(** An AHRS record with a roll of 200 degrees and a heading of 361
    degrees, and a Basic UAT report received "at" 100000001 ns. *)
Definition ahrs_out_of_range_example : ForeFlightAHRSMessage.t := {|
  ForeFlightAHRSMessage.roll := Some 200%Q;
  ForeFlightAHRSMessage.pitch := Some (-12)%Q;
  ForeFlightAHRSMessage.is_magnetic_heading := Some true;
  ForeFlightAHRSMessage.heading := Some 361%Q;
  ForeFlightAHRSMessage.indicated_airspeed := Some 100;
  ForeFlightAHRSMessage.true_airspeed := None |}.

Definition uat_out_of_range_example : BaseUATReportMessage.t := {|
  BaseUATReportMessage.time_of_reception := Some 100000001;
  BaseUATReportMessage.uplink_payload := repeat x7e 18 |}.

(** The Traffic Report of the third scenario of the specification
    (integrity unknown, latitude 47.0, longitude 2.0), with the traffic
    alert flag and the callsign left open. *)
Definition traffic_scenario (alert : bool) (callsign : option str)
  : BaseTrafficReport.t := {|
  BaseTrafficReport.traffic_alert := alert;
  BaseTrafficReport.address_type := AddressType.ads_b_icao;
  BaseTrafficReport.address := 0;
  BaseTrafficReport.latitude := 47%Q;
  BaseTrafficReport.longitude := 2%Q;
  BaseTrafficReport.pressure_altitude := None;
  BaseTrafficReport.track_type := TrackType.invalid;
  BaseTrafficReport.report_extrapolated := false;
  BaseTrafficReport.airborne := false;
  BaseTrafficReport.integrity := Integrity.unknown;
  BaseTrafficReport.accuracy := Accuracy.unknown;
  BaseTrafficReport.horizontal_velocity := None;
  BaseTrafficReport.vertical_velocity := None;
  BaseTrafficReport.track := 0;
  BaseTrafficReport.emitter_category :=
    EmitterCategory.no_aircraft_type_information;
  BaseTrafficReport.callsign := callsign;
  BaseTrafficReport.emergency_priority_code :=
    EmergencyPriorityCode.no_emergency |}.

Definition text (s : String.string) : str := String.list_ascii_of_string s.

(** A Traffic Report with an active traffic alert whose other fields
    are all encoded without loss. *)
Definition traffic_alert_example : BaseTrafficReport.t := {|
  BaseTrafficReport.traffic_alert := true;
  BaseTrafficReport.address_type := AddressType.ads_b_icao;
  BaseTrafficReport.address := 0xABCDEF;
  BaseTrafficReport.latitude := 45%Q;
  BaseTrafficReport.longitude := (-90)%Q;
  BaseTrafficReport.pressure_altitude := Some 5000;
  BaseTrafficReport.track_type := TrackType.true_track_angle;
  BaseTrafficReport.report_extrapolated := false;
  BaseTrafficReport.airborne := true;
  BaseTrafficReport.integrity := Integrity.less_than_0_1_nm;
  BaseTrafficReport.accuracy := Accuracy.less_than_0_05_nm;
  BaseTrafficReport.horizontal_velocity := Some 123;
  BaseTrafficReport.vertical_velocity := Some 64;
  BaseTrafficReport.track := 45;
  BaseTrafficReport.emitter_category := EmitterCategory.light;
  BaseTrafficReport.callsign := Some (text "N825V"%string);
  BaseTrafficReport.emergency_priority_code :=
    EmergencyPriorityCode.no_emergency |}.

(** Two reports that agree on every field other than the traffic alert
    flag (positions compared as numbers). *)
Definition same_but_alert (a b : BaseTrafficReport.t) : Prop :=
  BaseTrafficReport.address_type a = BaseTrafficReport.address_type b
  /\ BaseTrafficReport.address a = BaseTrafficReport.address b
  /\ (BaseTrafficReport.latitude a == BaseTrafficReport.latitude b)%Q
  /\ (BaseTrafficReport.longitude a == BaseTrafficReport.longitude b)%Q
  /\ BaseTrafficReport.pressure_altitude a
     = BaseTrafficReport.pressure_altitude b
  /\ BaseTrafficReport.track_type a = BaseTrafficReport.track_type b
  /\ BaseTrafficReport.report_extrapolated a
     = BaseTrafficReport.report_extrapolated b
  /\ BaseTrafficReport.airborne a = BaseTrafficReport.airborne b
  /\ BaseTrafficReport.integrity a = BaseTrafficReport.integrity b
  /\ BaseTrafficReport.accuracy a = BaseTrafficReport.accuracy b
  /\ BaseTrafficReport.horizontal_velocity a
     = BaseTrafficReport.horizontal_velocity b
  /\ BaseTrafficReport.vertical_velocity a
     = BaseTrafficReport.vertical_velocity b
  /\ BaseTrafficReport.track a = BaseTrafficReport.track b
  /\ BaseTrafficReport.emitter_category a
     = BaseTrafficReport.emitter_category b
  /\ BaseTrafficReport.callsign a = BaseTrafficReport.callsign b
  /\ BaseTrafficReport.emergency_priority_code a
     = BaseTrafficReport.emergency_priority_code b.

(** The valid domain of a Heartbeat: a UTC time of day in whole seconds
    and counts that fit their spans. *)
Definition heartbeat_valid (r : HeartbeatMessage.t) : Prop :=
  0 <= datetime.hour (HeartbeatMessage.timestamp r) <= 23
  /\ 0 <= datetime.minute (HeartbeatMessage.timestamp r) <= 59
  /\ 0 <= datetime.second (HeartbeatMessage.timestamp r) <= 59
  /\ datetime.microsecond (HeartbeatMessage.timestamp r) = 0
  /\ datetime.tzinfo_UTC (HeartbeatMessage.timestamp r) = true
  /\ 0 <= HeartbeatMessage.uplink_messages_count r < 2 ^ 5
  /\ 0 <= HeartbeatMessage.basic_long_messages_count r < 2 ^ 10.


(** A Heartbeat as a receiver reads it back: the two message counts
    saturate at the largest value of their spans, 5 and 10 bits. *)
Definition heartbeat_read_back (r : HeartbeatMessage.t) : HeartbeatMessage.t := {|
  HeartbeatMessage.gps_position_valid := HeartbeatMessage.gps_position_valid r;
  HeartbeatMessage.maintenance_required :=
    HeartbeatMessage.maintenance_required r;
  HeartbeatMessage.ident_talkback := HeartbeatMessage.ident_talkback r;
  HeartbeatMessage.self_assigned_address_talkback :=
    HeartbeatMessage.self_assigned_address_talkback r;
  HeartbeatMessage.gps_battery_low := HeartbeatMessage.gps_battery_low r;
  HeartbeatMessage.RATCS_talkback := HeartbeatMessage.RATCS_talkback r;
  HeartbeatMessage.UAT_initialized := HeartbeatMessage.UAT_initialized r;
  HeartbeatMessage.CSA_requested := HeartbeatMessage.CSA_requested r;
  HeartbeatMessage.CSA_unavailable := HeartbeatMessage.CSA_unavailable r;
  HeartbeatMessage.UTC_timing_valid := HeartbeatMessage.UTC_timing_valid r;
  HeartbeatMessage.timestamp := HeartbeatMessage.timestamp r;
  HeartbeatMessage.uplink_messages_count :=
    Z.min (HeartbeatMessage.uplink_messages_count r) 31;
  HeartbeatMessage.basic_long_messages_count :=
    Z.min (HeartbeatMessage.basic_long_messages_count r) 1023 |}.

(** The Heartbeat that [getHeartbeatMessage] of the TCP server builds,
    at 12:34:56. *)
Definition heartbeat_server_example : HeartbeatMessage.t := {|
  HeartbeatMessage.gps_position_valid := true;
  HeartbeatMessage.maintenance_required := false;
  HeartbeatMessage.ident_talkback := true;
  HeartbeatMessage.self_assigned_address_talkback := false;
  HeartbeatMessage.gps_battery_low := true;
  HeartbeatMessage.RATCS_talkback := false;
  HeartbeatMessage.UAT_initialized := true;
  HeartbeatMessage.CSA_requested := false;
  HeartbeatMessage.CSA_unavailable := true;
  HeartbeatMessage.UTC_timing_valid := false;
  HeartbeatMessage.timestamp := datetime.mk_time 12 34 56 0 true;
  HeartbeatMessage.uplink_messages_count := 234;
  HeartbeatMessage.basic_long_messages_count := 678 |}.


(** A UAT report as a receiver reads it back: the time of reception in
    steps of 80 ns, absent when it was absent or out of range. *)
Definition uat_read_back (r : BaseUATReportMessage.t)
  : BaseUATReportMessage.t := {|
  BaseUATReportMessage.time_of_reception :=
    match BaseUATReportMessage.time_of_reception r with
    | None => None
    | Some v =>
        if (0 <=? v) && (v <=? 100000000) then Some (v / 80 * 80) else None
    end;
  BaseUATReportMessage.uplink_payload :=
    BaseUATReportMessage.uplink_payload r |}.

(** The number of bytes of a buffer that [escape] has to stuff. *)
Definition count_special (data : bytes) : nat :=
  length (filter (fun b => Byte.eqb b FLAG_BYTE
                           || Byte.eqb b CONTROL_ESCAPE_BYTE) data).

(** A delimited frame: a flag byte, a region without flag bytes, a flag
    byte. *)
Definition delimited (frame : bytes) : Prop :=
  exists region,
    frame = FLAG_BYTE :: region ++ [FLAG_BYTE] /\ ~ In FLAG_BYTE region.

(** Parsing the frames of a list one after the other with
    [parse_message], keeping the messages in order and leaving out the
    frames it ignores; the first failure is the result. *)
Fixpoint parse_each {M : Type}
         (KNOWN_MESSAGE_TYPES : bytes -> option (bits -> result M))
         (frames : list bytes) (incoming_msb ignore_unknown : bool)
  : result (list M) :=
  match frames with
  | [] => Ok []
  | frame :: frames =>
      msg <- parse_message KNOWN_MESSAGE_TYPES frame
               incoming_msb ignore_unknown ;;
      rest <- parse_each KNOWN_MESSAGE_TYPES frames
                incoming_msb ignore_unknown ;;
      Ok (match msg with
          | Some m => m :: rest
          | None => rest
          end)
  end.

(* ================================================================== *)
(** * Results, bytes and bits: basic facts *)

Lemma bind_Ok {A B} (m : result A) (k : A -> result B) (b : B) :
  bind m k = Ok b -> exists a, m = Ok a /\ k a = Ok b.
Proof.
  destruct m as [a | e]; simpl; intros H; [ eauto | discriminate ].
Qed.

Lemma Ok_inj {A} (a b : A) : Ok a = Ok b -> a = b.
Proof. intros H. now injection H. Qed.

Lemma byte_to_Z_range (b : byte) : 0 <= byte_to_Z b < 256.
Proof.
  unfold byte_to_Z. pose proof (Byte.to_N_bounded b). lia.
Qed.

Lemma Z_to_byte_ok (z : Z) :
  0 <= z < 256 -> exists b, Z_to_byte z = Ok b /\ byte_to_Z b = z.
Proof.
  intros Hz. unfold Z_to_byte.
  destruct (Z.ltb_spec z 0) as [Hneg | _]; [ lia | ].
  destruct (Byte.of_N (Z.to_N z)) as [b | ] eqn:E.
  - exists b. split; [ reflexivity | ].
    unfold byte_to_Z. apply Byte.to_of_N in E. rewrite E. lia.
  - apply Byte.of_N_None_iff in E. lia.
Qed.

Lemma bits_of_byte_eta (b : byte) :
  exists b7 b6 b5 b4 b3 b2 b1 b0,
    bits_of_byte b = [b7; b6; b5; b4; b3; b2; b1; b0]
    /\ byte_of_bits8 b7 b6 b5 b4 b3 b2 b1 b0 = b
    /\ rev_byte b = byte_of_bits8 b0 b1 b2 b3 b4 b5 b6 b7.
Proof.
  unfold bits_of_byte, byte_of_bits8, rev_byte.
  pose proof (Byte.of_bits_to_bits b) as E.
  destruct (Byte.to_bits b)
    as [b0 [b1 [b2 [b3 [b4 [b5 [b6 b7]]]]]]].
  exists b7, b6, b5, b4, b3, b2, b1, b0. auto.
Qed.

Lemma bits_of_byte_of_bits8 (b7 b6 b5 b4 b3 b2 b1 b0 : bool) :
  bits_of_byte (byte_of_bits8 b7 b6 b5 b4 b3 b2 b1 b0)
  = [b7; b6; b5; b4; b3; b2; b1; b0].
Proof.
  unfold bits_of_byte, byte_of_bits8.
  rewrite Byte.to_bits_of_bits. reflexivity.
Qed.

Lemma bits_of_byte_length (b : byte) : length (bits_of_byte b) = 8%nat.
Proof.
  destruct (bits_of_byte_eta b) as (b7 & b6 & b5 & b4 & b3 & b2 & b1 & b0 & E & _).
  rewrite E. reflexivity.
Qed.

Lemma BitArray_of_bytes_length (bs : bytes) :
  length (BitArray_of_bytes bs) = (8 * length bs)%nat.
Proof.
  unfold BitArray_of_bytes.
  induction bs as [ | b bs IH]; simpl; [ reflexivity | ].
  rewrite length_app, bits_of_byte_length, IH. lia.
Qed.

Lemma tobytes_of_bytes (bs : bytes) : tobytes (BitArray_of_bytes bs) = bs.
Proof.
  induction bs as [ | b bs IH]; [ reflexivity | ].
  change (BitArray_of_bytes (b :: bs))
    with (bits_of_byte b ++ BitArray_of_bytes bs).
  destruct (bits_of_byte_eta b)
    as (b7 & b6 & b5 & b4 & b3 & b2 & b1 & b0 & E & Eb & _).
  rewrite E. simpl. rewrite IH, Eb. reflexivity.
Qed.

(** Induction over a bit array eight bits at a time. *)
Lemma whole_bytes_ind (P : bits -> Prop) :
  P [] ->
  (forall b7 b6 b5 b4 b3 b2 b1 b0 rest,
      P rest -> P (b7 :: b6 :: b5 :: b4 :: b3 :: b2 :: b1 :: b0 :: rest)) ->
  forall ba, (Nat.modulo (length ba) 8 = 0)%nat -> P ba.
Proof.
  intros H0 H8 ba.
  remember (length ba) as n eqn:En.
  revert ba En.
  induction n as [n IH] using lt_wf_ind.
  intros ba En Hm. subst n.
  destruct ba as [ | b7 [ | b6 [ | b5 [ | b4 [ | b3 [ | b2 [ | b1 [ | b0 rest]]]]]]]];
    try (simpl in Hm; discriminate Hm); [ exact H0 | ].
  apply H8. apply (IH (length rest)); [ simpl; lia | reflexivity | ].
  replace (length (b7 :: b6 :: b5 :: b4 :: b3 :: b2 :: b1 :: b0 :: rest))
    with (length rest + 1 * 8)%nat in Hm by (simpl; lia).
  rewrite Nat.Div0.mod_add in Hm. exact Hm.
Qed.

Lemma BitArray_of_bytes_tobytes (ba : bits) :
  (Nat.modulo (length ba) 8 = 0)%nat -> BitArray_of_bytes (tobytes ba) = ba.
Proof.
  revert ba.
  apply (whole_bytes_ind (fun ba => BitArray_of_bytes (tobytes ba) = ba));
    [ reflexivity | ].
  intros b7 b6 b5 b4 b3 b2 b1 b0 rest IH.
  change (tobytes (b7 :: b6 :: b5 :: b4 :: b3 :: b2 :: b1 :: b0 :: rest))
    with (byte_of_bits8 b7 b6 b5 b4 b3 b2 b1 b0 :: tobytes rest).
  change (BitArray_of_bytes (?x :: ?l))
    with (bits_of_byte x ++ BitArray_of_bytes l).
  rewrite bits_of_byte_of_bits8, IH. reflexivity.
Qed.

Lemma BitArray_bytes_of_bytes (bs : bytes) :
  BitArray_bytes (BitArray_of_bytes bs) = Ok bs.
Proof.
  unfold BitArray_bytes.
  rewrite BitArray_of_bytes_length, Nat.mul_comm, Nat.Div0.mod_mul.
  simpl. rewrite tobytes_of_bytes. reflexivity.
Qed.

(** ** [lsb] on whole bytes *)

Lemma lsb_of_bytes (bs : bytes) :
  lsb (BitArray_of_bytes bs) = BitArray_of_bytes (map rev_byte bs).
Proof.
  induction bs as [ | b bs IH]; [ reflexivity | ].
  change (BitArray_of_bytes (b :: bs))
    with (bits_of_byte b ++ BitArray_of_bytes bs).
  destruct (bits_of_byte_eta b)
    as (b7 & b6 & b5 & b4 & b3 & b2 & b1 & b0 & E & _ & Er).
  rewrite E. simpl. rewrite IH, Er.
  change (BitArray_of_bytes (?x :: ?l))
    with (bits_of_byte x ++ BitArray_of_bytes l).
  rewrite bits_of_byte_of_bits8. reflexivity.
Qed.

Lemma lsb_bytes_map (bs : bytes) : lsb_bytes bs = Ok (map rev_byte bs).
Proof.
  unfold lsb_bytes. rewrite lsb_of_bytes. apply BitArray_bytes_of_bytes.
Qed.

Lemma rev_byte_involutive (b : byte) : rev_byte (rev_byte b) = b.
Proof.
  destruct (bits_of_byte_eta b)
    as (b7 & b6 & b5 & b4 & b3 & b2 & b1 & b0 & _ & Eb & Er).
  rewrite Er. unfold rev_byte, byte_of_bits8.
  rewrite Byte.to_bits_of_bits. exact Eb.
Qed.

Lemma map_rev_byte_involutive (bs : bytes) :
  map rev_byte (map rev_byte bs) = bs.
Proof.
  rewrite map_map. rewrite <- (map_id bs) at 2.
  apply map_ext. exact rev_byte_involutive.
Qed.

(* ================================================================== *)
(** * CRC *)

Lemma land_mask_range (x : Z) (n : Z) :
  0 <= n -> 0 <= Z.land x (Z.ones n) < 2 ^ n.
Proof.
  intros Hn. rewrite Z.land_ones by exact Hn.
  apply Z.mod_pos_bound. apply Z.pow_pos_nonneg; lia.
Qed.

Lemma land_lxor_distr (a b m : Z) :
  Z.lxor (Z.land a m) (Z.land b m) = Z.land (Z.lxor a b) m.
Proof.
  apply Z.bits_inj'. intros k _.
  rewrite Z.lxor_spec, !Z.land_spec, Z.lxor_spec.
  destruct (Z.testbit a k), (Z.testbit b k), (Z.testbit m k); reflexivity.
Qed.

Lemma lxor_range (n a b : Z) :
  0 <= n -> 0 <= a < 2 ^ n -> 0 <= b < 2 ^ n -> 0 <= Z.lxor a b < 2 ^ n.
Proof.
  intros Hn Ha Hb.
  rewrite <- (Z.mod_small a (2 ^ n)) by exact Ha.
  rewrite <- (Z.mod_small b (2 ^ n)) by exact Hb.
  rewrite <- !Z.land_ones by exact Hn.
  rewrite land_lxor_distr.
  apply land_mask_range; exact Hn.
Qed.

Lemma crc_shift_range (crc : Z) : 0 <= crc_shift crc < 2 ^ 16.
Proof.
  unfold crc_shift, MASK_16_BIT.
  apply lxor_range; [ lia | | ].
  - change 0xFFFF with (Z.ones 16). apply land_mask_range; lia.
  - destruct (Z.land crc 32768 =? 0); lia.
Qed.

Lemma crc_table_entry_range (i : Z) : 0 <= crc_table_entry i < 2 ^ 16.
Proof.
  unfold crc_table_entry.
  replace 8%nat with (S 7) by reflexivity.
  rewrite Nat.iter_succ. apply crc_shift_range.
Qed.

Lemma crc_table_nth (n : nat) :
  (n < 256)%nat ->
  nth_error crc_table n = Some (crc_table_entry (Z.of_nat n)).
Proof.
  intros Hn. unfold crc_table.
  rewrite nth_error_map.
  rewrite (nth_error_nth' (seq 0 256) 0%nat) by (rewrite length_seq; exact Hn).
  rewrite seq_nth by exact Hn. reflexivity.
Qed.

Lemma crc_table_get_ok (i : Z) :
  0 <= i < 256 -> crc_table_get i = Ok (crc_table_entry i).
Proof.
  intros Hi. unfold crc_table_get.
  destruct (Z.ltb_spec i 0) as [Hneg | _]; [ lia | ].
  rewrite crc_table_nth by lia.
  rewrite Z2Nat.id by lia. reflexivity.
Qed.

(** The table the code builds is the table of remainders by the
    generator. *)
Lemma crc_table_entry_ccitt (i : Z) :
  0 <= i < 256 -> crc_table_entry i = ccitt_table i.
Proof.
  intros Hi.
  assert (H : forallb
                (fun n => crc_table_entry (Z.of_nat n)
                          =? ccitt_table (Z.of_nat n))
                (seq 0 256) = true) by (vm_compute; reflexivity).
  rewrite forallb_forall in H.
  specialize (H (Z.to_nat i)).
  rewrite Z2Nat.id in H by lia.
  apply Z.eqb_eq, H, in_seq. lia.
Qed.

Lemma shiftr8_range (crc : Z) : 0 <= crc < 2 ^ 16 -> 0 <= Z.shiftr crc 8 < 256.
Proof.
  intros H. rewrite Z.shiftr_div_pow2 by lia.
  change (2 ^ 8) with 256. change (2 ^ 16) with 65536 in H.
  split; [ apply Z.div_pos; lia | apply Z.div_lt_upper_bound; lia ].
Qed.

Lemma crc_step_ok (crc : Z) (c : byte) :
  0 <= crc < 2 ^ 16 ->
  exists crc',
    crc_step crc c = Ok crc'
    /\ crc' = Z.lxor (Z.lxor (ccitt_table (Z.shiftr crc 8))
                             (Z.land (Z.shiftl crc 8) 0xFFFF))
                     (byte_to_Z c)
    /\ 0 <= crc' < 2 ^ 16.
Proof.
  intros Hc. unfold crc_step.
  pose proof (shiftr8_range crc Hc) as Hs.
  rewrite (crc_table_get_ok _ Hs). cbn [bind].
  eexists. split; [ reflexivity | ].
  rewrite (crc_table_entry_ccitt _ Hs). split; [ reflexivity | ].
  apply lxor_range; [ lia | | ].
  - apply lxor_range; [ lia | | ].
    + rewrite <- (crc_table_entry_ccitt _ Hs). apply crc_table_entry_range.
    + unfold MASK_16_BIT. change 0xFFFF with (Z.ones 16).
      apply land_mask_range; lia.
  - pose proof (byte_to_Z_range c). change (2 ^ 16) with 65536. lia.
Qed.

Lemma crc_loop_ok (data : bytes) (crc : Z) :
  0 <= crc < 2 ^ 16 ->
  exists out,
    crc_loop crc data = Ok out
    /\ out = fold_left
               (fun crc c =>
                  Z.lxor (Z.lxor (ccitt_table (Z.shiftr crc 8))
                                 (Z.land (Z.shiftl crc 8) 0xFFFF))
                         (byte_to_Z c))
               data crc
    /\ 0 <= out < 2 ^ 16.
Proof.
  revert crc.
  induction data as [ | c rest IH]; intros crc Hc; cbn [crc_loop fold_left].
  - exists crc. auto.
  - destruct (crc_step_ok crc c Hc) as (crc' & E & Ev & Hr).
    rewrite E. cbn [bind].
    destruct (IH crc' Hr) as (out & Eo & Eov & Hor).
    exists out. split; [ exact Eo | ].
    split; [ rewrite <- Ev; exact Eov | exact Hor ].
Qed.

Lemma to_bytes_2_little_ok (crc : Z) :
  0 <= crc < 2 ^ 16 ->
  exists out, to_bytes_2_little crc = Ok out /\ little_endian_16 crc out.
Proof.
  intros Hc. unfold to_bytes_2_little.
  change (2 ^ 16) with 65536 in Hc.
  destruct (Z.ltb_spec crc 0) as [Hneg | _]; [ lia | ].
  destruct (Z.leb_spec 65536 crc) as [Hbig | _]; [ lia | ]. cbn [orb].
  assert (Hlo : 0 <= Z.land crc 255 < 256)
    by (change 255 with (Z.ones 8); apply (land_mask_range crc 8); lia).
  assert (Hhi : 0 <= Z.shiftr crc 8 < 256)
    by (apply shiftr8_range; change (2 ^ 16) with 65536; lia).
  destruct (Z_to_byte_ok _ Hlo) as (lo & Elo & Vlo).
  destruct (Z_to_byte_ok _ Hhi) as (hi & Ehi & Vhi).
  rewrite Elo. cbn [bind]. rewrite Ehi. cbn [bind].
  eexists. split; [ reflexivity | ].
  exists lo, hi. split; [ reflexivity | ].
  rewrite Vlo, Vhi.
  change 255 with (Z.ones 8). rewrite Z.land_ones by lia.
  rewrite Z.shiftr_div_pow2 by lia. auto.
Qed.

(** [compute_crc] never raises and returns two bytes. *)
Lemma compute_crc_ok (data : bytes) :
  exists out,
    compute_crc data = Ok out /\ little_endian_16 (crc_recurrence data) out.
Proof.
  unfold compute_crc, crc_recurrence.
  destruct (crc_loop_ok data 0) as (crc & E & Ev & Hr); [ lia | ].
  rewrite E. cbn [bind]. rewrite <- Ev.
  apply to_bytes_2_little_ok. exact Hr.
Qed.

Lemma compute_crc_two_bytes (data : bytes) :
  exists lo hi, compute_crc data = Ok [lo; hi].
Proof.
  destruct (compute_crc_ok data) as (out & E & lo & hi & Eo & _).
  exists lo, hi. rewrite E, Eo. reflexivity.
Qed.

Lemma bytes_eqb_refl (a : bytes) : bytes_eqb a a = true.
Proof.
  unfold bytes_eqb. destruct (list_eq_dec Byte.byte_eq_dec a a); congruence.
Qed.

Lemma check_crc_compute (data crc : bytes) :
  compute_crc data = Ok crc -> check_crc data crc = Ok tt.
Proof.
  intros E. unfold check_crc. rewrite E. cbn [bind].
  rewrite bytes_eqb_refl. reflexivity.
Qed.

(** C2 (as amended). For every byte string [compute_crc] returns, without
    raising, the CRC of the recurrence that starts from 0x0000 and, for
    each byte, takes
    [table[crc >> 8] XOR ((crc << 8) & 0xFFFF) XOR byte]
    over the table of polynomial 0x1021 without reflection; the 16-bit
    result is emitted low byte first. *)
Theorem compute_crc_recurrence (data : bytes) :
  exists out,
    compute_crc data = Ok out
    /\ little_endian_16 (crc_recurrence data) out
    /\ 0 <= crc_recurrence data < 2 ^ 16.
Proof.
  destruct (compute_crc_ok data) as (out & E & Hle).
  exists out. split; [ exact E | ]. split; [ exact Hle | ].
  unfold crc_recurrence.
  destruct (crc_loop_ok data 0) as (crc & _ & Ev & Hr); [ lia | ].
  rewrite <- Ev. exact Hr.
Qed.

(** C2 (as stated) fails: with the table indexed by
    [(crc >> 8) XOR byte] the CRC of the single byte 0x01 is 0x1021,
    while [compute_crc] returns 0x0001 (bytes 0x01 0x00). *)
Lemma compute_crc_index_xor_counterexample :
  compute_crc [x01] = Ok [x01; x00]
  /\ crc_recurrence_index_xor [x01] = 0x1021
  /\ ~ (forall data out,
          compute_crc data = Ok out ->
          little_endian_16 (crc_recurrence_index_xor data) out).
Proof.
  split; [ vm_compute; reflexivity | ].
  split; [ vm_compute; reflexivity | ].
  intros H.
  destruct (H [x01] [x01; x00]) as (lo & hi & E & Vlo & _);
    [ vm_compute; reflexivity | ].
  injection E as <- <-.
  vm_compute in Vlo. discriminate Vlo.
Qed.

(* ================================================================== *)
(** * Byte stuffing *)

(** What [escape] makes of one byte. *)
Lemma escape_byte_cases (d : byte) :
  ((d = x7e \/ d = x7d) /\ escape_byte d = [x7d; byte_xor d x20])
  \/ (d <> x7e /\ d <> x7d /\ escape_byte d = [d]).
Proof.
  unfold escape_byte, FLAG_BYTE, CONTROL_ESCAPE_BYTE, ESCAPE_XOR_BYTE.
  destruct (Byte.eqb d x7e) eqn:E1; [ left | ].
  - apply Byte.byte_dec_bl in E1. auto.
  - destruct (Byte.eqb d x7d) eqn:E2; [ left | right ].
    + apply Byte.byte_dec_bl in E2. auto.
    + apply Byte.eqb_false in E1, E2. auto.
Qed.

Lemma escaped_value_plain (d : byte) :
  d = x7e \/ d = x7d ->
  byte_xor d x20 <> x7e /\ byte_xor d x20 <> x7d
  /\ byte_xor (byte_xor d x20) x20 = d.
Proof.
  intros [-> | ->]; repeat split; vm_compute; congruence.
Qed.

Lemma unescape_pair (c : byte) (rest : bytes) :
  unescape (x7d :: c :: rest)
  = (tl <- unescape rest ;; Ok (byte_xor c x20 :: tl)).
Proof. reflexivity. Qed.

Lemma unescape_plain (b : byte) (rest : bytes) :
  b <> x7d ->
  unescape (b :: rest) = (tl <- unescape rest ;; Ok (b :: tl)).
Proof.
  intros Hb. cbn [unescape]. unfold CONTROL_ESCAPE_BYTE.
  destruct (Byte.eqb b x7d) eqn:E; [ | reflexivity ].
  apply Byte.byte_dec_bl in E. contradiction.
Qed.

Lemma unescape_escape (data : bytes) : unescape (escape data) = Ok data.
Proof.
  induction data as [ | d rest IH]; [ reflexivity | ].
  change (escape (d :: rest)) with (escape_byte d ++ escape rest).
  destruct (escape_byte_cases d) as [[Hd E] | (H1 & H2 & E)]; rewrite E.
  - destruct (escaped_value_plain d Hd) as (_ & _ & Hx).
    cbn [app]. rewrite unescape_pair, IH. cbn [bind].
    rewrite Hx. reflexivity.
  - cbn [app]. rewrite (unescape_plain _ _ H2), IH. reflexivity.
Qed.

Lemma escape_stuffed (data : bytes) : stuffed (escape data).
Proof.
  unfold stuffed, FLAG_BYTE, CONTROL_ESCAPE_BYTE, ESCAPE_XOR_BYTE.
  induction data as [ | d rest IH]; intros i b Hi.
  - destruct i; discriminate Hi.
  - change (escape (d :: rest)) with (escape_byte d ++ escape rest) in *.
    destruct (escape_byte_cases d) as [[Hd E] | (H1 & H2 & E)];
      rewrite E in *; cbn [app] in *.
    + destruct (escaped_value_plain d Hd) as (Hx1 & Hx2 & _).
      destruct i as [ | [ | i]]; cbn [nth_error] in *.
      * injection Hi as <-. split; [ discriminate | ].
        intros _. exists d. auto.
      * injection Hi as <-. split; [ exact Hx1 | ].
        intros Hb. contradiction.
      * exact (IH i b Hi).
    + destruct i as [ | i]; cbn [nth_error] in *.
      * injection Hi as <-. split; [ exact H1 | ].
        intros Hb. contradiction.
      * exact (IH i b Hi).
Qed.

(* ================================================================== *)
(** * Framing: [build] and [deconstruct] *)

(** [build] never raises. *)
Lemma build_ok (message_ids : bytes) (data : bits) (outgoing_lsb : bool) :
  exists crc,
    compute_crc (message_ids ++ tobytes data) = Ok crc
    /\ length crc = 2%nat
    /\ build message_ids data outgoing_lsb
       = Ok (if outgoing_lsb
             then map rev_byte (frame_of (message_ids ++ tobytes data) crc)
             else frame_of (message_ids ++ tobytes data) crc).
Proof.
  destruct (compute_crc_two_bytes (message_ids ++ tobytes data))
    as (lo & hi & E).
  exists [lo; hi]. split; [ exact E | ]. split; [ reflexivity | ].
  unfold build. rewrite E. cbn [bind].
  destruct outgoing_lsb; [ apply lsb_bytes_map | reflexivity ].
Qed.

Lemma slice_1_m1_frame {A} (x y : A) (l : list A) :
  slice_1_m1 (x :: l ++ [y]) = l.
Proof.
  unfold slice_1_m1. cbn [tl]. apply removelast_last.
Qed.

Lemma slice_last2_app {A} (l c : list A) :
  length c = 2%nat -> slice_last2 (l ++ c) = c.
Proof.
  intros Hc. unfold slice_last2.
  rewrite length_app, Hc.
  replace (length l + 2 - 2)%nat with (length l + 0)%nat by lia.
  rewrite skipn_app, Nat.add_0_r, skipn_all, Nat.sub_diag. reflexivity.
Qed.

Lemma slice_but_last2_app {A} (l c : list A) :
  length c = 2%nat -> slice_but_last2 (l ++ c) = l.
Proof.
  intros Hc. unfold slice_but_last2.
  rewrite length_app, Hc.
  replace (length l + 2 - 2)%nat with (length l) by lia.
  rewrite firstn_app, firstn_all, Nat.sub_diag, firstn_O.
  apply app_nil_r.
Qed.

(** [deconstruct] undoes [frame_of] on a payload with its own CRC. *)
Lemma deconstruct_frame (message_ids body crc : bytes) (lsb_ : bool) :
  well_formed_ids message_ids ->
  compute_crc (message_ids ++ body) = Ok crc ->
  length crc = 2%nat ->
  deconstruct
    (if lsb_ then map rev_byte (frame_of (message_ids ++ body) crc)
     else frame_of (message_ids ++ body) crc)
    (negb lsb_)
  = Ok (message_ids, BitArray_of_bytes body).
Proof.
  intros Hids Hcrc Hlen.
  set (payload := message_ids ++ body) in *.
  assert (Hrest :
    (unescaped_message <- unescape (escape (payload ++ crc)) ;;
     let received_crc := slice_last2 unescaped_message in
     let message_id_data := slice_but_last2 unescaped_message in
     _ <- check_crc message_id_data received_crc ;;
     match message_id_data with
     | [] => Raise IndexError
     | message_id :: after_id =>
         if Byte.eqb message_id FOREFLIGHT_MESSAGE_ID then
           match after_id with
           | [] => Raise IndexError
           | sub_id :: message_data =>
               Ok ([message_id; sub_id], BitArray_of_bytes message_data)
           end
         else Ok ([message_id], BitArray_of_bytes after_id)
     end) = Ok (message_ids, BitArray_of_bytes body)).
  { rewrite unescape_escape. cbn [bind].
    rewrite (slice_last2_app _ _ Hlen), (slice_but_last2_app _ _ Hlen).
    rewrite (check_crc_compute _ _ Hcrc). cbn [bind].
    subst payload.
    destruct Hids as [(i & -> & Hi) | (s & ->)]; cbn [app].
    - destruct (Byte.eqb i FOREFLIGHT_MESSAGE_ID) eqn:E; [ | reflexivity ].
      apply Byte.byte_dec_bl in E. contradiction.
    - reflexivity. }
  unfold frame_of, FLAG_BYTE in *.
  destruct lsb_.
  - rewrite map_cons, map_app. cbn [map].
    change (rev_byte x7e) with x7e.
    unfold deconstruct. cbn [negb andb Byte.eqb FLAG_BYTE].
    change (Byte.eqb x7e x7e) with true. cbn [negb andb].
    rewrite slice_1_m1_frame.
    rewrite lsb_bytes_map, map_rev_byte_involutive. cbn [bind].
    exact Hrest.
  - unfold deconstruct. cbn [negb andb FLAG_BYTE].
    change (Byte.eqb x7e x7e) with true. cbn [negb andb].
    rewrite slice_1_m1_frame. cbn [bind].
    exact Hrest.
Qed.

(** A frame built with one bit order and read with the same one gives
    back the message IDs and the body, padded to whole bytes. *)
Lemma deconstruct_build (message_ids : bytes) (data : bits) (lsb_ : bool)
      (frame : bytes) :
  well_formed_ids message_ids ->
  build message_ids data lsb_ = Ok frame ->
  deconstruct frame (negb lsb_)
  = Ok (message_ids, BitArray_of_bytes (tobytes data)).
Proof.
  intros Hids Hb.
  destruct (build_ok message_ids data lsb_) as (crc & Hcrc & Hlen & E).
  rewrite E in Hb. injection Hb as <-.
  apply deconstruct_frame; assumption.
Qed.

(* ================================================================== *)
(** * Integers as bit arrays *)

Lemma uint_bits_length (n : nat) (v : Z) : length (uint_bits n v) = n.
Proof.
  induction n as [ | n IH]; simpl; [ reflexivity | now rewrite IH ].
Qed.

Lemma fold_bits_acc (ba : bits) (acc : Z) :
  fold_left (fun a (b : bool) => 2 * a + Z.b2z b) ba acc
  = acc * 2 ^ Z.of_nat (length ba) + bits_to_Z ba.
Proof.
  unfold bits_to_Z. revert acc.
  induction ba as [ | b rest IH]; intros acc.
  - simpl. lia.
  - cbn [fold_left length].
    rewrite (IH (2 * acc + Z.b2z b)), (IH (2 * 0 + Z.b2z b)).
    rewrite Nat2Z.inj_succ, Z.pow_succ_r by lia. ring.
Qed.

Lemma bits_to_Z_cons (b : bool) (rest : bits) :
  bits_to_Z (b :: rest)
  = Z.b2z b * 2 ^ Z.of_nat (length rest) + bits_to_Z rest.
Proof.
  unfold bits_to_Z at 1. cbn [fold_left].
  rewrite fold_bits_acc. ring.
Qed.

Lemma bits_to_Z_range (ba : bits) :
  0 <= bits_to_Z ba < 2 ^ Z.of_nat (length ba).
Proof.
  induction ba as [ | b rest IH].
  - unfold bits_to_Z. simpl. lia.
  - rewrite bits_to_Z_cons. cbn [length].
    rewrite Nat2Z.inj_succ, Z.pow_succ_r by lia.
    destruct b; simpl Z.b2z; lia.
Qed.

Lemma bits_to_Z_uint_bits (n : nat) (v : Z) :
  bits_to_Z (uint_bits n v) = v mod 2 ^ Z.of_nat n.
Proof.
  induction n as [ | n IH].
  - simpl. unfold bits_to_Z. simpl. now rewrite Z.mod_1_r.
  - cbn [uint_bits]. rewrite bits_to_Z_cons, uint_bits_length, IH.
    rewrite Nat2Z.inj_succ, Z.pow_succ_r by lia.
    rewrite Z.testbit_spec' by lia.
    rewrite (Z.mul_comm 2), Z.rem_mul_r by (try apply Z.pow_nonzero; lia).
    ring.
Qed.

Lemma BitArray_get_uint_nonempty (ba : bits) :
  ba <> [] -> BitArray_get_uint ba = Ok (bits_to_Z ba).
Proof.
  destruct ba; [ congruence | reflexivity ].
Qed.

Lemma nonempty_of_length (ba : bits) (n : nat) :
  length ba = n -> (0 < n)%nat -> ba <> [].
Proof.
  intros <- H ->. simpl in H. lia.
Qed.

Lemma uint_bits_nonempty (n : nat) (v : Z) : (0 < n)%nat -> uint_bits n v <> [].
Proof.
  intros H. apply (nonempty_of_length _ n); [ apply uint_bits_length | exact H ].
Qed.

(** The sign bit of a bit array is set exactly when its unsigned value
    reaches half of the range, so [BitArray.int] is the two's-complement
    reading of [BitArray.uint]. *)
Lemma BitArray_get_int_twos_complement (ba : bits) :
  ba <> [] ->
  BitArray_get_int ba = Ok (twos_complement (length ba) (bits_to_Z ba)).
Proof.
  destruct ba as [ | sign rest]; [ congruence | intros _ ].
  unfold BitArray_get_int, twos_complement.
  rewrite bits_to_Z_cons. cbn [length].
  pose proof (bits_to_Z_range rest) as Hr.
  replace (Z.of_nat (S (length rest)) - 1) with (Z.of_nat (length rest)) by lia.
  destruct sign; simpl Z.b2z.
  - destruct (Z.ltb_spec (1 * 2 ^ Z.of_nat (length rest) + bits_to_Z rest)
                         (2 ^ Z.of_nat (length rest))); [ lia | reflexivity ].
  - destruct (Z.ltb_spec (0 * 2 ^ Z.of_nat (length rest) + bits_to_Z rest)
                         (2 ^ Z.of_nat (length rest))); [ reflexivity | lia ].
Qed.

Lemma twos_complement_spec (n : nat) (u : Z) :
  (0 < n)%nat -> 0 <= u < 2 ^ Z.of_nat n ->
  - 2 ^ (Z.of_nat n - 1) <= twos_complement n u < 2 ^ (Z.of_nat n - 1)
  /\ twos_complement n u mod 2 ^ Z.of_nat n = u.
Proof.
  intros Hn Hu. unfold twos_complement.
  assert (E : 2 ^ Z.of_nat n = 2 * 2 ^ (Z.of_nat n - 1)).
  { rewrite <- Z.pow_succ_r by lia. f_equal. lia. }
  destruct (Z.ltb_spec u (2 ^ (Z.of_nat n - 1))) as [Hlt | Hge].
  - split; [ lia | apply Z.mod_small; lia ].
  - split; [ lia | ].
    replace (u - 2 ^ Z.of_nat n) with (u + (-1) * 2 ^ Z.of_nat n) by ring.
    rewrite Z.mod_add by lia. apply Z.mod_small; lia.
Qed.

Lemma twos_complement_of_signed (n : nat) (v : Z) :
  (0 < n)%nat ->
  - 2 ^ (Z.of_nat n - 1) <= v < 2 ^ (Z.of_nat n - 1) ->
  twos_complement n (v mod 2 ^ Z.of_nat n) = v.
Proof.
  intros Hn Hv. unfold twos_complement.
  assert (E : 2 ^ Z.of_nat n = 2 * 2 ^ (Z.of_nat n - 1)).
  { rewrite <- Z.pow_succ_r by lia. f_equal. lia. }
  destruct (Z.neg_nonneg_cases v) as [Hneg | Hpos].
  - replace (v mod 2 ^ Z.of_nat n) with (v + 2 ^ Z.of_nat n).
    + destruct (Z.ltb_spec (v + 2 ^ Z.of_nat n) (2 ^ (Z.of_nat n - 1))); lia.
    + symmetry. replace v with (v + 2 ^ Z.of_nat n + (-1) * 2 ^ Z.of_nat n) at 1
        by ring.
      rewrite Z.mod_add by lia. apply Z.mod_small; lia.
  - rewrite Z.mod_small by lia.
    destruct (Z.ltb_spec v (2 ^ (Z.of_nat n - 1))); lia.
Qed.

(** Reading back a signed integer that fits. *)
Lemma BitArray_get_int_uint_bits (n : nat) (v : Z) :
  (0 < n)%nat ->
  - 2 ^ (Z.of_nat n - 1) <= v < 2 ^ (Z.of_nat n - 1) ->
  BitArray_get_int (uint_bits n v) = Ok v.
Proof.
  intros Hn Hv.
  rewrite BitArray_get_int_twos_complement by (apply uint_bits_nonempty; exact Hn).
  rewrite uint_bits_length, bits_to_Z_uint_bits.
  rewrite twos_complement_of_signed by assumption. reflexivity.
Qed.

(* ================================================================== *)
(** * The field encoders of [BaseMessage] *)

Lemma serialize_uint_constrain (value : Z) (n : nat) :
  0 <= value ->
  BaseMessage._serialize_uint value n true
  = Ok (uint_bits n (Z.min value (2 ^ Z.of_nat n - 1))).
Proof.
  intros Hv. unfold BaseMessage._serialize_uint, BitArray_uint.
  assert (Hp : 0 < 2 ^ Z.of_nat n) by (apply Z.pow_pos_nonneg; lia).
  destruct (Z.ltb_spec value 0); [ lia | ].
  destruct (Z.ltb_spec (Z.min value (2 ^ Z.of_nat n - 1)) 0); [ lia | ].
  destruct (Z.leb_spec (2 ^ Z.of_nat n) (Z.min value (2 ^ Z.of_nat n - 1)));
    [ lia | reflexivity ].
Qed.

Lemma serialize_uint_length (value : Z) (n : nat) (c : bool) (ba : bits) :
  BaseMessage._serialize_uint value n c = Ok ba -> length ba = n.
Proof.
  unfold BaseMessage._serialize_uint, BitArray_uint.
  repeat match goal with
         | |- context [if ?b then _ else _] => destruct b
         end; intros H; try discriminate H;
    injection H as <-; apply uint_bits_length.
Qed.

Lemma serialize_int_constrain (value : Z) (n : nat) :
  (0 < n)%nat ->
  BaseMessage._serialize_int value n true = Ok (uint_bits n (saturate n value)).
Proof.
  intros Hn. unfold BaseMessage._serialize_int, BitArray_int, saturate.
  assert (Hp : 0 < 2 ^ (Z.of_nat n - 1)) by (apply Z.pow_pos_nonneg; lia).
  replace (0 - 2 ^ (Z.of_nat n - 1)) with (- 2 ^ (Z.of_nat n - 1)) by ring.
  set (s := Z.max (Z.min value (2 ^ (Z.of_nat n - 1) - 1))
                  (- 2 ^ (Z.of_nat n - 1))).
  assert (Hs : - 2 ^ (Z.of_nat n - 1) <= s < 2 ^ (Z.of_nat n - 1))
    by (subst s; lia).
  destruct (Z.ltb_spec s (- 2 ^ (Z.of_nat n - 1))); [ lia | ].
  destruct (Z.leb_spec (2 ^ (Z.of_nat n - 1)) s); [ lia | reflexivity ].
Qed.

Lemma saturate_range (n : nat) (z : Z) :
  (0 < n)%nat ->
  - 2 ^ (Z.of_nat n - 1) <= saturate n z < 2 ^ (Z.of_nat n - 1).
Proof.
  intros Hn. unfold saturate.
  assert (Hp : 0 < 2 ^ (Z.of_nat n - 1)) by (apply Z.pow_pos_nonneg; lia).
  lia.
Qed.


Lemma true_div_ok (value resolution : Q) :
  ~ resolution == 0 ->
  BaseMessage.true_div value resolution = Ok (value / resolution)%Q.
Proof.
  intros Hr. unfold BaseMessage.true_div.
  destruct (Qeq_bool resolution 0) eqn:E; [ | reflexivity ].
  apply Qeq_bool_eq in E. contradiction.
Qed.

Lemma serialize_resolution_int_ok (value resolution : Q) (n : nat) :
  ~ resolution == 0 -> (0 < n)%nat ->
  BaseMessage._serialize_resolution_int value resolution n
  = Ok (uint_bits n (saturate n (py_int (value / resolution)))).
Proof.
  intros Hr Hn. unfold BaseMessage._serialize_resolution_int.
  rewrite true_div_ok by exact Hr. cbn [bind].
  apply serialize_int_constrain. exact Hn.
Qed.




(* ================================================================== *)
(** * Readers *)

Lemma pop_bits_app (b rest : bits) (n : nat) :
  length b = n -> pop_bits (b ++ rest) n = (b, rest).
Proof.
  intros <-. unfold pop_bits.
  rewrite firstn_app, firstn_all, Nat.sub_diag, firstn_O, app_nil_r.
  rewrite skipn_app, skipn_all, Nat.sub_diag. reflexivity.
Qed.

Lemma field_app {A} (decode : bits -> result A) (n : nat) (b rest : bits) :
  length b = n ->
  field decode n (b ++ rest) = (a <- decode b ;; Ok (a, rest)).
Proof.
  intros H. unfold field. rewrite (pop_bits_app _ _ _ H). reflexivity.
Qed.

Lemma rbind_field {A B} (decode : bits -> result A) (n : nat)
      (k : A -> reader B) (b rest : bits) (a : A) :
  length b = n -> decode b = Ok a ->
  rbind (field decode n) k (b ++ rest) = k a rest.
Proof.
  intros Hl Hd. unfold rbind. rewrite (field_app _ _ _ _ Hl), Hd.
  reflexivity.
Qed.

Lemma rbind_field_last {A B} (decode : bits -> result A) (n : nat)
      (k : A -> reader B) (b : bits) (a : A) :
  length b = n -> decode b = Ok a ->
  rbind (field decode n) k b = k a [].
Proof.
  intros Hl Hd. rewrite <- (app_nil_r b) at 1.
  apply rbind_field; assumption.
Qed.

(* ================================================================== *)
(** * Frames of every message type *)

Lemma serialize_is_build (r : message) (outgoing_lsb : bool) (frame : bytes) :
  serialize r outgoing_lsb = Ok frame ->
  exists body : bits, build (message_ids r) body outgoing_lsb = Ok frame.
Proof.
  destruct r; cbn [serialize message_ids];
    unfold HeartbeatMessage.serialize, InitializationMessage.serialize,
      UplinkDataMessage.serialize, HeightAboveTerrainMessage.serialize,
      OwnshipReportMessage.serialize,
      OwnshipGeometricAltitudeMessage.serialize,
      TrafficReportMessage.serialize, BasicUATReportMessage.serialize,
      LongUATReportMessage.serialize, ForeFlightIDMessage.serialize,
      ForeFlightAHRSMessage.serialize, BaseUATReportMessage.serialize,
      BaseTrafficReport.serialize;
    intros H; apply bind_Ok in H; destruct H as (body & _ & H);
    exists body; exact H.
Qed.

Lemma message_ids_well_formed (r : message) : well_formed_ids (message_ids r).
Proof.
  destruct r; cbn [message_ids];
    solve [ left; eexists; split; [ reflexivity | discriminate ]
          | right; eexists; reflexivity ].
Qed.

(** C9. For every record of every message type, when [serialize] with
    [outgoing_lsb = False] returns a frame, the frame is a flag byte, a
    region and a flag byte, and in the region no byte is 0x7E and every
    0x7D is immediately followed by the stuffed value (original XOR
    0x20) of a 0x7E or 0x7D byte. *)
Theorem serialize_frame_stuffed (r : message) (frame : bytes) :
  serialize r false = Ok frame ->
  exists region,
    frame = FLAG_BYTE :: region ++ [FLAG_BYTE] /\ stuffed region.
Proof.
  intros H.
  destruct (serialize_is_build _ _ _ H) as (body & Hb).
  destruct (build_ok (message_ids r) body false) as (crc & _ & _ & E).
  rewrite E in Hb. injection Hb as <-.
  exists (escape ((message_ids r ++ tobytes body) ++ crc)).
  split; [ reflexivity | apply escape_stuffed ].
Qed.

Lemma serialize_frame_stuffed_witness :
  exists frame,
    serialize (BasicUATReport
                 {| BaseUATReportMessage.time_of_reception := Some 80;
                    BaseUATReportMessage.uplink_payload :=
                      [x7e; x7d; x00; x7e; x7e; x7d; x01; x02; x03; x04;
                       x05; x06; x07; x08; x09; x0a; x0b; x7d] |})
              false = Ok frame
    /\ exists region,
         frame = FLAG_BYTE :: region ++ [FLAG_BYTE] /\ stuffed region.
Proof.
  eexists. split.
  - vm_compute. reflexivity.
  - apply (serialize_frame_stuffed
             (BasicUATReport
                {| BaseUATReportMessage.time_of_reception := Some 80;
                   BaseUATReportMessage.uplink_payload :=
                     [x7e; x7d; x00; x7e; x7e; x7d; x01; x02; x03; x04;
                      x05; x06; x07; x08; x09; x0a; x0b; x7d] |})).
    vm_compute. reflexivity.
Defined.

(* ================================================================== *)
(** * [deconstruct] and the flag bytes *)

(** [deconstruct] raises [MissingFlagBytes] when neither the first nor
    the last byte is the flag byte, and only then. *)
Lemma deconstruct_MissingFlagBytes (first : byte) (rest : bytes) (msb : bool) :
  first <> FLAG_BYTE -> last (first :: rest) first <> FLAG_BYTE ->
  deconstruct (first :: rest) msb = Raise MissingFlagBytes.
Proof.
  intros H1 H2. unfold deconstruct.
  destruct (Byte.eqb first FLAG_BYTE) eqn:E1;
    [ apply Byte.byte_dec_bl in E1; contradiction | ].
  destruct (Byte.eqb (last (first :: rest) first) FLAG_BYTE) eqn:E2;
    [ apply Byte.byte_dec_bl in E2; contradiction | ].
  reflexivity.
Qed.

Lemma unescape_raises_IndexError (data : bytes) (e : exn) :
  unescape data = Raise e -> e = IndexError.
Proof.
  remember (length data) as n eqn:En. revert data En.
  induction n as [n IH] using lt_wf_ind. intros data En.
  destruct data as [ | b rest]; [ discriminate | ].
  destruct (Byte.byte_eq_dec b x7d) as [-> | Hb].
  - destruct rest as [ | c rest]; [ cbn; congruence | ].
    rewrite unescape_pair.
    destruct (unescape rest) as [tl | e'] eqn:E; cbn [bind];
      [ discriminate | ].
    intros H. injection H as <-.
    apply (IH (length rest)) with (data := rest);
      [ subst n; simpl; lia | reflexivity | exact E ].
  - rewrite (unescape_plain _ _ Hb).
    destruct (unescape rest) as [tl | e'] eqn:E; cbn [bind];
      [ discriminate | ].
    intros H. injection H as <-.
    apply (IH (length rest)) with (data := rest);
      [ subst n; simpl; lia | reflexivity | exact E ].
Qed.

Lemma deconstruct_one_flag_enough (first : byte) (rest : bytes) (msb : bool) :
  first = FLAG_BYTE \/ last (first :: rest) first = FLAG_BYTE ->
  deconstruct (first :: rest) msb <> Raise MissingFlagBytes.
Proof.
  intros Hflag. unfold deconstruct.
  assert (Hc : negb (Byte.eqb first FLAG_BYTE)
               && negb (Byte.eqb (last (first :: rest) first) FLAG_BYTE)
               = false).
  { destruct Hflag as [-> | ->]; [ reflexivity | ].
    rewrite (Byte.byte_dec_lb eq_refl). apply andb_false_r. }
  rewrite Hc.
  assert (Hl : exists m,
             (if negb msb then lsb_bytes (slice_1_m1 (first :: rest))
              else Ok (slice_1_m1 (first :: rest))) = Ok m).
  { destruct msb; cbn [negb]; [ eauto | ].
    rewrite lsb_bytes_map. eauto. }
  destruct Hl as (m & ->). cbn [bind].
  destruct (unescape m) as [u | e] eqn:Eu; cbn [bind].
  - unfold check_crc.
    destruct (compute_crc_two_bytes (slice_but_last2 u)) as (lo & hi & ->).
    cbn [bind].
    destruct (bytes_eqb [lo; hi] (slice_last2 u)); cbn [bind];
      [ | discriminate ].
    destruct (slice_but_last2 u) as [ | i [ | j tl]];
      try destruct (Byte.eqb i FOREFLIGHT_MESSAGE_ID); discriminate.
  - apply unescape_raises_IndexError in Eu. subst e. discriminate.
Qed.

(** C3 fails on the code. The first byte of [frame_without_opening_flag]
    is 0x00, not 0x7E; [deconstruct] does not raise [MissingFlagBytes]:
    it goes on to unescape, checks the CRC and returns the message ID and
    the body.  The same holds when only the closing flag is missing. *)
Theorem deconstruct_accepts_one_missing_flag :
  deconstruct frame_without_opening_flag true
  = Ok ([x00], BitArray_of_bytes [x01; x00; x01; x00; x00; x00])
  /\ deconstruct frame_without_closing_flag true
     = Ok ([x00], BitArray_of_bytes [x01; x00; x01; x00; x00; x00])
  /\ hd x7e frame_without_opening_flag <> FLAG_BYTE
  /\ last frame_without_closing_flag x7e <> FLAG_BYTE.
Proof.
  repeat split; try (vm_compute; reflexivity); vm_compute; discriminate.
Qed.

(* ================================================================== *)
(** * Height Above Terrain *)

(** C7. Serializing [height_above_terrain = None] gives the body bytes
    0x80 0x00; a 16-bit body equal to 0x8000 is decoded as [None], and
    any other 16-bit body as its two's-complement signed value (the
    integer of [-2^15, 2^15) congruent to the pattern modulo 2^16), both
    by the field decoder and by [deserialize] on a frame that carries
    it. *)
Theorem height_above_terrain_sentinel (ba : bits)
        (Hlen : length ba = 16%nat) :
  (exists body,
      HeightAboveTerrainMessage._serialize_height_above_terrain
        {| HeightAboveTerrainMessage.height_above_terrain := None |}
      = Ok body
      /\ tobytes body = [x80; x00]
      /\ bits_to_Z body = 0x8000)
  /\ HeightAboveTerrainMessage._deserialize_height_above_terrain ba
     = Ok (if bits_to_Z ba =? 0x8000 then None
           else Some (twos_complement 16 (bits_to_Z ba)))
  /\ (- 2 ^ 15 <= twos_complement 16 (bits_to_Z ba) < 2 ^ 15
      /\ twos_complement 16 (bits_to_Z ba) mod 2 ^ 16 = bits_to_Z ba)
  /\ (forall lsb_ frame,
         build HeightAboveTerrainMessage.MESSAGE_IDS ba lsb_ = Ok frame ->
         HeightAboveTerrainMessage.deserialize frame (negb lsb_)
         = Ok {| HeightAboveTerrainMessage.height_above_terrain :=
                   if bits_to_Z ba =? 0x8000 then None
                   else Some (twos_complement 16 (bits_to_Z ba)) |}).
Proof.
  assert (Hne : ba <> []) by (apply (nonempty_of_length _ 16); [ exact Hlen | lia ]).
  assert (Hd : HeightAboveTerrainMessage._deserialize_height_above_terrain ba
               = Ok (if bits_to_Z ba =? 0x8000 then None
                     else Some (twos_complement 16 (bits_to_Z ba)))).
  { unfold HeightAboveTerrainMessage._deserialize_height_above_terrain.
    rewrite BitArray_get_uint_nonempty by exact Hne. cbn [bind].
    unfold HeightAboveTerrainMessage.HEIGHT_ABOVE_TERRAIN_INVALID_VALUE.
    destruct (bits_to_Z ba =? 32768); [ reflexivity | ].
    unfold BaseMessage._deserialize_int.
    rewrite BitArray_get_int_twos_complement by exact Hne.
    rewrite Hlen. reflexivity. }
  split; [ | split; [ exact Hd | split ] ].
  - eexists. split; [ vm_compute; reflexivity | ].
    split; vm_compute; reflexivity.
  - pose proof (bits_to_Z_range ba) as Hr. rewrite Hlen in Hr.
    exact (twos_complement_spec 16 (bits_to_Z ba) ltac:(lia) Hr).
  - intros lsb_ frame Hb.
    unfold HeightAboveTerrainMessage.deserialize, BaseMessage._clean_data.
    rewrite (deconstruct_build _ _ _ _
               (message_ids_well_formed
                  (HeightAboveTerrain
                     {| HeightAboveTerrainMessage.height_above_terrain :=
                          None |}))
               Hb).
    cbn [bind]. rewrite bytes_eqb_refl.
    rewrite BitArray_of_bytes_tobytes by (rewrite Hlen; reflexivity).
    unfold run_reader, HeightAboveTerrainMessage.read_body,
      HeightAboveTerrainMessage.HEIGHT_ABOVE_TERRAIN_BITS.
    cbn [bind].
    rewrite (rbind_field_last _ _ _ _ _ Hlen Hd).
    reflexivity.
Qed.

Lemma height_above_terrain_sentinel_witness :
  HeightAboveTerrainMessage._deserialize_height_above_terrain
    (uint_bits 16 0xFF38)
  = Ok (Some (-200))
  /\ HeightAboveTerrainMessage._deserialize_height_above_terrain
       (uint_bits 16 0x8000)
     = Ok None.
Proof.
  split.
  - exact (proj1 (proj2 (height_above_terrain_sentinel
                           (uint_bits 16 0xFF38) eq_refl))).
  - exact (proj1 (proj2 (height_above_terrain_sentinel
                           (uint_bits 16 0x8000) eq_refl))).
Defined.

(* ================================================================== *)
(** * Heartbeat: the first scenario *)

(** C8 (as amended). Serializing the Heartbeat of the scenario with
    [outgoing_lsb = False] produces an 11-byte frame: a flag byte, the
    message ID 0x00, the 6 body bytes (the first is 0x01), the two CRC
    bytes and a flag byte; the CRC bytes are the CRC of 0x00 followed by
    the body, low byte first. *)
Theorem heartbeat_scenario_frame :
  exists (body_bits : bits) (body crc frame : bytes),
    HeartbeatMessage.body heartbeat_scenario = Ok body_bits
    /\ tobytes body_bits = body
    /\ length body = 6%nat
    /\ compute_crc (x00 :: body) = Ok crc
    /\ little_endian_16 (crc_recurrence (x00 :: body)) crc
    /\ HeartbeatMessage.serialize heartbeat_scenario false = Ok frame
    /\ frame = [x7e; x00] ++ body ++ crc ++ [x7e]
    /\ length frame = 11%nat
    /\ firstn 3 frame = [x7e; x00; x01]
    /\ last frame x00 = x7e.
Proof.
  destruct (compute_crc_ok [x00; x01; x00; x01; x00; x00; x00])
    as (out & E & Hle).
  assert (Eo : out = [x85; x45]).
  { assert (E' : compute_crc [x00; x01; x00; x01; x00; x00; x00]
                 = Ok [x85; x45]) by (vm_compute; reflexivity).
    rewrite E in E'. now injection E'. }
  subst out.
  eexists. exists [x01; x00; x01; x00; x00; x00], [x85; x45]. eexists.
  split; [ vm_compute; reflexivity | ].
  split; [ vm_compute; reflexivity | ].
  split; [ reflexivity | ].
  split; [ exact E | ].
  split; [ exact Hle | ].
  split; [ vm_compute; reflexivity | ].
  repeat split.
Qed.

(** C8 (as stated) fails: the frame has 11 bytes, not 9. *)
Lemma heartbeat_scenario_frame_not_9_bytes :
  ~ (exists frame,
        HeartbeatMessage.serialize heartbeat_scenario false = Ok frame
        /\ length frame = 9%nat).
Proof.
  intros (frame & E & Hlen).
  assert (E' : HeartbeatMessage.serialize heartbeat_scenario false
               = Ok [x7e; x00; x01; x00; x01; x00; x00; x00; x85; x45; x7e])
    by (vm_compute; reflexivity).
  rewrite E in E'. injection E' as ->. discriminate Hlen.
Qed.

(* ================================================================== *)
(** * Spans of a body and frames read back *)

Lemma span_app_0 (a rest : bits) (len : nat) :
  length a = len -> span (a ++ rest) 0 len = a.
Proof.
  intros <-. unfold span. cbn [skipn].
  rewrite firstn_app, firstn_all, Nat.sub_diag, firstn_O. apply app_nil_r.
Qed.

Lemma span_app_skip (a rest : bits) (s k len : nat) :
  length a = s -> span (a ++ rest) (s + k) len = span rest k len.
Proof.
  intros <-. unfold span.
  rewrite skipn_app, skipn_all2 by lia.
  replace (length a + k - length a)%nat with k by lia. reflexivity.
Qed.

(** [_clean_data] on a frame built from a whole number of body bytes. *)
Lemma clean_data_build (ids : bytes) (body : bits) (lsb_ : bool)
      (frame : bytes) :
  well_formed_ids ids ->
  (Nat.modulo (length body) 8 = 0)%nat ->
  build ids body lsb_ = Ok frame ->
  BaseMessage._clean_data ids frame (negb lsb_) = Ok body.
Proof.
  intros Hids Hm Hb. unfold BaseMessage._clean_data.
  rewrite (deconstruct_build _ _ _ _ Hids Hb). cbn [bind].
  rewrite bytes_eqb_refl, BitArray_of_bytes_tobytes by exact Hm.
  reflexivity.
Qed.

Lemma build_total (ids : bytes) (body : bits) (lsb_ : bool) :
  exists frame, build ids body lsb_ = Ok frame.
Proof.
  destruct (build_ok ids body lsb_) as (crc & _ & _ & E). eauto.
Qed.

(* ================================================================== *)
(** * ForeFlight AHRS *)

Module AHRSFacts.
Import ForeFlightAHRSMessage.

Lemma between_false (lo x hi : Q) :
  ~ (lo <= x /\ x <= hi)%Q -> between lo x hi = false.
Proof.
  intros H. unfold between.
  destruct (Qle_bool lo x) eqn:E1; [ | reflexivity ].
  destruct (Qle_bool x hi) eqn:E2; [ | reflexivity ].
  apply Qle_bool_iff in E1, E2. tauto.
Qed.

Lemma tenth_nonzero : ~ (1 / 10 == 0)%Q.
Proof. intros H. discriminate H. Qed.

(** An angle field: sentinel or scaled value, always 16 bits. *)
Lemma serialize_roll_ok (r : t) :
  exists b,
    _serialize_roll r = Ok b /\ length b = 16%nat
    /\ (outside (roll r) ROLL_MIN ROLL_MAX
        -> b = uint_bits 16 ROLL_INVALID_VALUE).
Proof.
  unfold _serialize_roll, outside.
  destruct (roll r) as [x | ].
  - destruct (between ROLL_MIN x ROLL_MAX) eqn:E; cbn [negb].
    + unfold ROLL_RESOLUTION, ROLL_BITS.
      rewrite (serialize_resolution_int_ok _ _ 16 tenth_nonzero) by lia.
      eexists. split; [ reflexivity | ].
      split; [ apply uint_bits_length | ].
      intros (y & Hy & Hout). injection Hy as <-.
      apply between_false in Hout. congruence.
    + exists (uint_bits 16 ROLL_INVALID_VALUE).
      split; [ vm_compute; reflexivity | ]. split; reflexivity.
  - exists (uint_bits 16 ROLL_INVALID_VALUE).
    split; [ vm_compute; reflexivity | ]. split; reflexivity.
Qed.

Lemma serialize_pitch_ok (r : t) :
  exists b,
    _serialize_pitch r = Ok b /\ length b = 16%nat
    /\ (outside (pitch r) PITCH_MIN PITCH_MAX
        -> b = uint_bits 16 PITCH_INVALID_VALUE).
Proof.
  unfold _serialize_pitch, outside.
  destruct (pitch r) as [x | ].
  - destruct (between PITCH_MIN x PITCH_MAX) eqn:E; cbn [negb].
    + unfold PITCH_RESOLUTION, PITCH_BITS.
      rewrite (serialize_resolution_int_ok _ _ 16 tenth_nonzero) by lia.
      eexists. split; [ reflexivity | ].
      split; [ apply uint_bits_length | ].
      intros (y & Hy & Hout). injection Hy as <-.
      apply between_false in Hout. congruence.
    + exists (uint_bits 16 PITCH_INVALID_VALUE).
      split; [ vm_compute; reflexivity | ]. split; reflexivity.
  - exists (uint_bits 16 PITCH_INVALID_VALUE).
    split; [ vm_compute; reflexivity | ]. split; reflexivity.
Qed.

Lemma serialize_bool_ok (v : bool) :
  BaseMessage._serialize_bool v = Ok [v].
Proof. destruct v; vm_compute; reflexivity. Qed.

Lemma serialize_heading_ok (r : t) :
  exists b,
    _serialize_heading r = Ok b /\ length b = 16%nat
    /\ (outside (heading r) HEADING_MIN HEADING_MAX
        -> b = uint_bits 16 HEADING_INVALID_VALUE).
Proof.
  unfold _serialize_heading, outside.
  destruct (heading r) as [x | ].
  - destruct (is_magnetic_heading r) as [m | ].
    + destruct (between HEADING_MIN x HEADING_MAX) eqn:E; cbn [negb].
      * unfold HEADING_RESOLUTION, HEADING_BITS.
        rewrite serialize_bool_ok. cbn [bind].
        rewrite (serialize_resolution_int_ok _ _ 15 tenth_nonzero) by lia.
        cbn [bind]. eexists. split; [ reflexivity | ].
        split; [ cbn [app length]; now rewrite uint_bits_length | ].
        intros (y & Hy & Hout). injection Hy as <-.
        apply between_false in Hout. congruence.
      * exists (uint_bits 16 HEADING_INVALID_VALUE).
        split; [ vm_compute; reflexivity | ]. split; reflexivity.
    + exists (uint_bits 16 HEADING_INVALID_VALUE).
      split; [ vm_compute; reflexivity | ]. split; reflexivity.
  - exists (uint_bits 16 HEADING_INVALID_VALUE).
    split; [ destruct (is_magnetic_heading r); vm_compute; reflexivity | ].
    split; reflexivity.
Qed.

Lemma serialize_airspeed_ok (v : option Z) :
  exists b,
    match v with
    | None => BaseMessage._serialize_uint 0xFFFF 16 true
    | Some x => BaseMessage._serialize_int x 16 true
    end = Ok b /\ length b = 16%nat.
Proof.
  destruct v as [x | ].
  - rewrite serialize_int_constrain by lia.
    eexists. split; [ reflexivity | apply uint_bits_length ].
  - eexists. split; [ vm_compute; reflexivity | reflexivity ].
Qed.

(** The field decoders never raise on a span of the right length. *)
Lemma deserialize_resolution_int_total (b : bits) (res : Q) :
  b <> [] -> exists v, BaseMessage._deserialize_resolution_int b res = Ok v.
Proof.
  intros Hb.
  unfold BaseMessage._deserialize_resolution_int,
    BaseMessage._deserialize_resolution_float, BaseMessage._deserialize_int.
  rewrite BitArray_get_int_twos_complement by exact Hb.
  cbn [bind]. eauto.
Qed.

Lemma deserialize_roll_total (b : bits) :
  b <> [] ->
  exists v, _deserialize_roll b = Ok v
            /\ (bits_to_Z b = ROLL_INVALID_VALUE -> v = None).
Proof.
  intros Hb. unfold _deserialize_roll.
  rewrite BitArray_get_uint_nonempty by exact Hb. cbn [bind].
  destruct (Z.eqb_spec (bits_to_Z b) ROLL_INVALID_VALUE) as [E | E].
  - eauto.
  - destruct (deserialize_resolution_int_total b ROLL_RESOLUTION Hb)
      as (v & ->).
    cbn [bind]. eexists. split; [ reflexivity | ]. intros C. contradiction.
Qed.

Lemma deserialize_pitch_total (b : bits) :
  b <> [] ->
  exists v, _deserialize_pitch b = Ok v
            /\ (bits_to_Z b = PITCH_INVALID_VALUE -> v = None).
Proof.
  intros Hb. unfold _deserialize_pitch.
  rewrite BitArray_get_uint_nonempty by exact Hb. cbn [bind].
  destruct (Z.eqb_spec (bits_to_Z b) PITCH_INVALID_VALUE) as [E | E].
  - eauto.
  - destruct (deserialize_resolution_int_total b PITCH_RESOLUTION Hb)
      as (v & ->).
    cbn [bind]. eexists. split; [ reflexivity | ]. intros C. contradiction.
Qed.

Lemma deserialize_heading_total (b : bits) :
  length b = 16%nat ->
  exists v, _deserialize_heading b = Ok v
            /\ (bits_to_Z b = HEADING_INVALID_VALUE -> v = (None, None)).
Proof.
  intros Hl. unfold _deserialize_heading.
  assert (Hb : b <> []) by (apply (nonempty_of_length _ 16); [ exact Hl | lia ]).
  rewrite BitArray_get_uint_nonempty by exact Hb. cbn [bind].
  destruct (Z.eqb_spec (bits_to_Z b) HEADING_INVALID_VALUE) as [E | E].
  - eauto.
  - destruct b as [ | m rest]; [ congruence | ].
    cbn [BitArray_index0 bind IS_MAGNETIC_HEADING_BITS skipn].
    assert (Hr : rest <> []).
    { apply (nonempty_of_length _ 15); [ simpl in Hl; lia | lia ]. }
    destruct (deserialize_resolution_int_total rest HEADING_RESOLUTION Hr)
      as (v & ->).
    cbn [bind]. eexists. split; [ reflexivity | ]. intros C. contradiction.
Qed.

Lemma deserialize_airspeed_total (b : bits) :
  b <> [] ->
  (exists v, _deserialize_indicated_airspeed b = Ok v)
  /\ (exists v, _deserialize_true_airspeed b = Ok v).
Proof.
  intros Hb.
  unfold _deserialize_indicated_airspeed, _deserialize_true_airspeed,
    BaseMessage._deserialize_int.
  rewrite BitArray_get_uint_nonempty by exact Hb. cbn [bind].
  rewrite BitArray_get_int_twos_complement by exact Hb. cbn [bind].
  split.
  - destruct (bits_to_Z b =? INDICATED_AIRSPEED_INVALID_VALUE); eauto.
  - destruct (bits_to_Z b =? TRUE_AIRSPEED_INVALID_VALUE); eauto.
Qed.

End AHRSFacts.

(** Every AHRS record is serialized without raising, the frame is read
    back, and a field that was out of range comes back as [None]. *)
Lemma ahrs_out_of_range (r : ForeFlightAHRSMessage.t) (lsb_ : bool) :
  exists body frame r',
    ForeFlightAHRSMessage.body r = Ok body
    /\ ForeFlightAHRSMessage.serialize r lsb_ = Ok frame
    /\ ForeFlightAHRSMessage.deserialize frame (negb lsb_) = Ok r'
    /\ (outside (ForeFlightAHRSMessage.roll r) (-180) 180 ->
        span body 0 16 = uint_bits 16 0x7FFF
        /\ ForeFlightAHRSMessage.roll r' = None)
    /\ (outside (ForeFlightAHRSMessage.pitch r) (-180) 180 ->
        span body 16 16 = uint_bits 16 0x7FFF
        /\ ForeFlightAHRSMessage.pitch r' = None)
    /\ (outside (ForeFlightAHRSMessage.heading r) (-360) 360 ->
        span body 32 16 = uint_bits 16 0xFFFF
        /\ ForeFlightAHRSMessage.heading r' = None).
Proof.
  destruct (AHRSFacts.serialize_roll_ok r) as (b1 & E1 & L1 & S1).
  destruct (AHRSFacts.serialize_pitch_ok r) as (b2 & E2 & L2 & S2).
  destruct (AHRSFacts.serialize_heading_ok r) as (b3 & E3 & L3 & S3).
  destruct (AHRSFacts.serialize_airspeed_ok
              (ForeFlightAHRSMessage.indicated_airspeed r))
    as (b4 & E4 & L4).
  destruct (AHRSFacts.serialize_airspeed_ok
              (ForeFlightAHRSMessage.true_airspeed r))
    as (b5 & E5 & L5).
  change (ForeFlightAHRSMessage._serialize_indicated_airspeed r = Ok b4) in E4.
  change (ForeFlightAHRSMessage._serialize_true_airspeed r = Ok b5) in E5.
  assert (N1 : b1 <> []) by (apply (nonempty_of_length _ 16); [ exact L1 | lia ]).
  assert (N2 : b2 <> []) by (apply (nonempty_of_length _ 16); [ exact L2 | lia ]).
  assert (N4 : b4 <> []) by (apply (nonempty_of_length _ 16); [ exact L4 | lia ]).
  assert (N5 : b5 <> []) by (apply (nonempty_of_length _ 16); [ exact L5 | lia ]).
  destruct (AHRSFacts.deserialize_roll_total b1 N1) as (v1 & D1 & Z1).
  destruct (AHRSFacts.deserialize_pitch_total b2 N2) as (v2 & D2 & Z2).
  destruct (AHRSFacts.deserialize_heading_total b3 L3) as (v3 & D3 & Z3).
  destruct (AHRSFacts.deserialize_airspeed_total b4 N4) as ((v4 & D4) & _).
  destruct (AHRSFacts.deserialize_airspeed_total b5 N5) as (_ & (v5 & D5)).
  set (body := b1 ++ b2 ++ b3 ++ b4 ++ b5).
  assert (Hbody : ForeFlightAHRSMessage.body r = Ok body).
  { unfold ForeFlightAHRSMessage.body.
    rewrite E1, E2, E3, E4, E5. reflexivity. }
  assert (Hlen : length body = 80%nat).
  { subst body. rewrite !length_app, L1, L2, L3, L4, L5. reflexivity. }
  destruct (build_total ForeFlightAHRSMessage.MESSAGE_IDS body lsb_)
    as (frame & Hframe).
  exists body, frame.
  exists {| ForeFlightAHRSMessage.roll := v1;
            ForeFlightAHRSMessage.pitch := v2;
            ForeFlightAHRSMessage.is_magnetic_heading := fst v3;
            ForeFlightAHRSMessage.heading := snd v3;
            ForeFlightAHRSMessage.indicated_airspeed := v4;
            ForeFlightAHRSMessage.true_airspeed := v5 |}.
  split; [ exact Hbody | ].
  split.
  { unfold ForeFlightAHRSMessage.serialize. rewrite Hbody. exact Hframe. }
  split.
  { unfold ForeFlightAHRSMessage.deserialize.
    rewrite (clean_data_build ForeFlightAHRSMessage.MESSAGE_IDS _ _ _
               (message_ids_well_formed (ForeFlightAHRS r))
               ltac:(rewrite Hlen; reflexivity) Hframe).
    cbn [bind].
    unfold run_reader, ForeFlightAHRSMessage.read_body,
      ForeFlightAHRSMessage.ROLL_BITS, ForeFlightAHRSMessage.PITCH_BITS,
      ForeFlightAHRSMessage.INDICATED_AIRSPEED_BITS,
      ForeFlightAHRSMessage.TRUE_AIRSPEED_BITS.
    change (ForeFlightAHRSMessage.IS_MAGNETIC_HEADING_BITS
            + ForeFlightAHRSMessage.HEADING_BITS)%nat with 16%nat.
    subst body.
    rewrite (rbind_field _ _ _ _ _ _ L1 D1).
    rewrite (rbind_field _ _ _ _ _ _ L2 D2).
    rewrite (rbind_field _ _ _ _ _ _ L3 D3).
    rewrite (rbind_field _ _ _ _ _ _ L4 D4).
    rewrite (rbind_field_last _ _ _ _ _ L5 D5).
    reflexivity. }
  cbn [ForeFlightAHRSMessage.roll ForeFlightAHRSMessage.pitch
       ForeFlightAHRSMessage.heading].
  split; [ | split ].
  - intros Hout. specialize (S1 Hout). subst b1.
    split; [ apply span_app_0; reflexivity | ].
    apply Z1. vm_compute. reflexivity.
  - intros Hout. specialize (S2 Hout). subst b2.
    split.
    + subst body. rewrite (span_app_skip b1 _ 16 0 16 L1).
      apply span_app_0. reflexivity.
    + apply Z2. vm_compute. reflexivity.
  - intros Hout. specialize (S3 Hout). subst b3.
    split.
    + subst body. rewrite (span_app_skip b1 _ 16 16 16 L1).
      rewrite (span_app_skip b2 _ 16 0 16 L2).
      apply span_app_0. reflexivity.
    + rewrite Z3; [ reflexivity | vm_compute; reflexivity ].
Qed.

(* ================================================================== *)
(** * UAT reports *)

Lemma serialize_time_of_reception_outside (r : BaseUATReportMessage.t) :
  outside_Z (BaseUATReportMessage.time_of_reception r) 0 100000000 ->
  BaseUATReportMessage._serialize_time_of_reception r
  = Ok (uint_bits 24 0xFFFFFF).
Proof.
  intros (x & Hx & Hout).
  unfold BaseUATReportMessage._serialize_time_of_reception.
  rewrite Hx.
  assert (E : BaseUATReportMessage.tor_in_range x = false).
  { unfold BaseUATReportMessage.tor_in_range,
      BaseUATReportMessage.TIME_OF_RECEPTION_MIN,
      BaseUATReportMessage.TIME_OF_RECEPTION_MAX.
    destruct (Z.leb_spec 0 x); destruct (Z.leb_spec x 100000000);
      try reflexivity; lia. }
  rewrite E. vm_compute. reflexivity.
Qed.

Lemma uat_out_of_range (ids : bytes) (n : nat)
      (r : BaseUATReportMessage.t) (lsb_ : bool) :
  well_formed_ids ids ->
  (8 * length (BaseUATReportMessage.uplink_payload r))%nat = n ->
  outside_Z (BaseUATReportMessage.time_of_reception r) 0 100000000 ->
  exists body frame r',
    BaseUATReportMessage.body n r = Ok body
    /\ BaseUATReportMessage.serialize ids n r lsb_ = Ok frame
    /\ span body 0 24 = uint_bits 24 0xFFFFFF
    /\ BaseUATReportMessage.deserialize ids n frame (negb lsb_) = Ok r'
    /\ BaseUATReportMessage.time_of_reception r' = None
    /\ BaseUATReportMessage.uplink_payload r'
       = BaseUATReportMessage.uplink_payload r.
Proof.
  intros Hids Hn Hout.
  pose proof (serialize_time_of_reception_outside r Hout) as E1.
  set (payload := BaseUATReportMessage.uplink_payload r) in *.
  set (body := uint_bits 24 0xFFFFFF ++ BitArray_of_bytes payload).
  assert (E2 : BaseUATReportMessage._serialize_uplink_payload n r
               = Ok (BitArray_of_bytes payload)).
  { unfold BaseUATReportMessage._serialize_uplink_payload.
    fold payload. rewrite BitArray_of_bytes_length, Hn, Nat.eqb_refl.
    reflexivity. }
  assert (Hbody : BaseUATReportMessage.body n r = Ok body).
  { unfold BaseUATReportMessage.body. rewrite E1, E2. reflexivity. }
  assert (Hlen : (Nat.modulo (length body) 8 = 0)%nat).
  { subst body. rewrite length_app, uint_bits_length, BitArray_of_bytes_length.
    replace (24 + 8 * length payload)%nat
      with ((3 + length payload) * 8)%nat by lia.
    apply Nat.Div0.mod_mul. }
  destruct (build_total ids body lsb_) as (frame & Hframe).
  exists body, frame.
  exists {| BaseUATReportMessage.time_of_reception := None;
            BaseUATReportMessage.uplink_payload := payload |}.
  split; [ exact Hbody | ].
  split.
  { unfold BaseUATReportMessage.serialize. rewrite Hbody. exact Hframe. }
  split; [ apply span_app_0; reflexivity | ].
  split; [ | split; reflexivity ].
  unfold BaseUATReportMessage.deserialize.
  rewrite (clean_data_build ids _ _ _ Hids Hlen Hframe). cbn [bind].
  unfold run_reader, BaseUATReportMessage.read_body,
    BaseUATReportMessage.TIME_OF_RECEPTION_BITS.
  subst body.
  rewrite (rbind_field _ 24 _ (uint_bits 24 0xFFFFFF) _ None eq_refl)
    by (vm_compute; reflexivity).
  rewrite (rbind_field_last _ n _ _ payload).
  - reflexivity.
  - rewrite BitArray_of_bytes_length. exact Hn.
  - apply BitArray_bytes_of_bytes.
Qed.

(** C10. Every ForeFlight AHRS record is serialized without raising; when
    its roll or pitch lies outside [-180, 180] or its heading outside
    [-360, 360], the 16-bit span of the field carries the sentinel
    (0x7FFF for roll and pitch, 0xFFFF for the heading span) and
    deserializing the frame returns [None] for the field.  For a UAT
    report whose time of reception lies outside [0, 100000000] the
    24-bit span carries 0xFFFFFF, and when the uplink payload has the
    size of the variant (so that a frame is produced) deserializing the
    frame returns [None] for the time of reception. *)
Theorem out_of_range_fields_become_absent :
  (forall (r : ForeFlightAHRSMessage.t) (lsb_ : bool),
      exists body frame r',
        ForeFlightAHRSMessage.body r = Ok body
        /\ ForeFlightAHRSMessage.serialize r lsb_ = Ok frame
        /\ ForeFlightAHRSMessage.deserialize frame (negb lsb_) = Ok r'
        /\ (outside (ForeFlightAHRSMessage.roll r) (-180) 180 ->
            span body 0 16 = uint_bits 16 0x7FFF
            /\ ForeFlightAHRSMessage.roll r' = None)
        /\ (outside (ForeFlightAHRSMessage.pitch r) (-180) 180 ->
            span body 16 16 = uint_bits 16 0x7FFF
            /\ ForeFlightAHRSMessage.pitch r' = None)
        /\ (outside (ForeFlightAHRSMessage.heading r) (-360) 360 ->
            span body 32 16 = uint_bits 16 0xFFFF
            /\ ForeFlightAHRSMessage.heading r' = None))
  /\ (forall (r : BaseUATReportMessage.t),
         outside_Z (BaseUATReportMessage.time_of_reception r) 0 100000000 ->
         BaseUATReportMessage._serialize_time_of_reception r
         = Ok (uint_bits 24 0xFFFFFF))
  /\ (forall (ids : bytes) (n : nat) (r : BaseUATReportMessage.t)
             (lsb_ : bool),
         In (ids, n)
            [(UplinkDataMessage.MESSAGE_IDS,
              UplinkDataMessage.UPLINK_PAYLOAD_BITS);
             (BasicUATReportMessage.MESSAGE_IDS,
              BasicUATReportMessage.UPLINK_PAYLOAD_BITS);
             (LongUATReportMessage.MESSAGE_IDS,
              LongUATReportMessage.UPLINK_PAYLOAD_BITS)] ->
         (8 * length (BaseUATReportMessage.uplink_payload r))%nat = n ->
         outside_Z (BaseUATReportMessage.time_of_reception r) 0 100000000 ->
         exists body frame r',
           BaseUATReportMessage.body n r = Ok body
           /\ BaseUATReportMessage.serialize ids n r lsb_ = Ok frame
           /\ span body 0 24 = uint_bits 24 0xFFFFFF
           /\ BaseUATReportMessage.deserialize ids n frame (negb lsb_)
              = Ok r'
           /\ BaseUATReportMessage.time_of_reception r' = None
           /\ BaseUATReportMessage.uplink_payload r'
              = BaseUATReportMessage.uplink_payload r).
Proof.
  split; [ exact ahrs_out_of_range | ].
  split; [ exact serialize_time_of_reception_outside | ].
  intros ids n r lsb_ Hin Hn Hout.
  apply uat_out_of_range; [ | exact Hn | exact Hout ].
  destruct Hin as [E | [E | [E | []]]]; injection E as <- <-;
    left; eexists; (split; [ reflexivity | discriminate ]).
Qed.

Lemma out_of_range_fields_become_absent_witness :
  (exists body frame r',
      ForeFlightAHRSMessage.body ahrs_out_of_range_example = Ok body
      /\ ForeFlightAHRSMessage.serialize ahrs_out_of_range_example true
         = Ok frame
      /\ ForeFlightAHRSMessage.deserialize frame false = Ok r'
      /\ span body 0 16 = uint_bits 16 0x7FFF
      /\ ForeFlightAHRSMessage.roll r' = None
      /\ span body 32 16 = uint_bits 16 0xFFFF
      /\ ForeFlightAHRSMessage.heading r' = None)
  /\ (exists body frame r',
         BaseUATReportMessage.body 144 uat_out_of_range_example = Ok body
         /\ BasicUATReportMessage.serialize uat_out_of_range_example true
            = Ok frame
         /\ span body 0 24 = uint_bits 24 0xFFFFFF
         /\ BasicUATReportMessage.deserialize frame false = Ok r'
         /\ BaseUATReportMessage.time_of_reception r' = None).
Proof.
  split.
  - destruct (proj1 out_of_range_fields_become_absent
                    ahrs_out_of_range_example true)
      as (body & frame & r' & Hb & Hs & Hd & Hroll & _ & Hheading).
    exists body, frame, r'.
    assert (O1 : outside (ForeFlightAHRSMessage.roll
                            ahrs_out_of_range_example) (-180) 180).
    { exists 200%Q. split; [ reflexivity | ].
      intros [_ H]. apply Qle_bool_iff in H. discriminate H. }
    assert (O2 : outside (ForeFlightAHRSMessage.heading
                            ahrs_out_of_range_example) (-360) 360).
    { exists 361%Q. split; [ reflexivity | ].
      intros [_ H]. apply Qle_bool_iff in H. discriminate H. }
    destruct (Hroll O1) as (R1 & R2). destruct (Hheading O2) as (H1 & H2).
    repeat split; assumption.
  - destruct (proj2 (proj2 out_of_range_fields_become_absent)
                    BasicUATReportMessage.MESSAGE_IDS 144%nat
                    uat_out_of_range_example true)
      as (body & frame & r' & Hb & Hs & Hspan & Hd & Ht & _).
    + right. left. reflexivity.
    + reflexivity.
    + exists 100000001. split; [ reflexivity | lia ].
    + exists body, frame, r'. repeat split; assumption.
Defined.

(* ================================================================== *)
(** * Text *)

Lemma char_isalnum_ascii (c : ascii) :
  char_isalnum c = true -> is_ascii_char c = true.
Proof.
  unfold char_isalnum, char_isdigit, char_isupper, char_islower,
    is_ascii_char.
  generalize (char_code c) as n. intros n H.
  apply Z.ltb_lt.
  repeat match type of H with
         | (_ || _)%bool = true => apply orb_true_iff in H; destruct H as [H | H]
         | (_ && _)%bool = true => apply andb_true_iff in H; destruct H as [_ H]
         end; apply Z.leb_le in H; lia.
Qed.

Lemma space_ascii : is_ascii_char SPACE = true.
Proof. reflexivity. Qed.

Lemma byte_of_ascii_to_Z (c : ascii) : byte_to_Z (byte_of_ascii c) = char_code c.
Proof.
  unfold byte_to_Z, char_code. f_equal.
  rewrite <- (ascii_of_byte_of_ascii c) at 2.
  rewrite ascii_of_byte_via_N.
  rewrite N_ascii_embedding; [ reflexivity | ].
  pose proof (Byte.to_N_bounded (byte_of_ascii c)). lia.
Qed.

Lemma str_encode_ascii (e : encoding) (s : str) :
  forallb is_ascii_char s = true ->
  str_encode e s = Ok (map byte_of_ascii s).
Proof.
  induction s as [ | c rest IH]; [ reflexivity | ].
  cbn [forallb]. intros H. apply andb_true_iff in H. destruct H as [Hc Hr].
  cbn [str_encode map]. unfold encode_char. rewrite Hc. cbn [bind].
  rewrite (IH Hr). reflexivity.
Qed.

Lemma bytes_decode_ascii_map (s : str) :
  forallb is_ascii_char s = true ->
  bytes_decode_ascii (map byte_of_ascii s) = Ok s.
Proof.
  induction s as [ | c rest IH]; [ reflexivity | ].
  cbn [forallb]. intros H. apply andb_true_iff in H. destruct H as [Hc Hr].
  cbn [map bytes_decode_ascii].
  rewrite byte_of_ascii_to_Z. unfold is_ascii_char in Hc. rewrite Hc.
  rewrite (IH Hr). cbn [bind]. rewrite ascii_of_byte_of_ascii. reflexivity.
Qed.

Lemma forallb_app_repeat {A} (f : A -> bool) (l : list A) (x : A) (k : nat) :
  forallb f l = true -> f x = true -> forallb f (l ++ repeat x k) = true.
Proof.
  intros Hl Hx. rewrite forallb_app, Hl. cbn [andb].
  induction k as [ | k IH]; [ reflexivity | cbn; now rewrite Hx ].
Qed.

Lemma forallb_firstn {A} (f : A -> bool) (l : list A) (n : nat) :
  forallb f l = true -> forallb f (firstn n l) = true.
Proof.
  revert n. induction l as [ | a l IH]; intros [ | n] H; try reflexivity.
  cbn [forallb firstn] in *. apply andb_true_iff in H. destruct H as [Ha Hl].
  rewrite Ha, (IH n Hl). reflexivity.
Qed.

Lemma forallb_impl {A} (f g : A -> bool) (l : list A) :
  (forall a, f a = true -> g a = true) ->
  forallb f l = true -> forallb g l = true.
Proof.
  intros Hfg. induction l as [ | a l IH]; [ reflexivity | ].
  cbn [forallb]. intros H. apply andb_true_iff in H. destruct H as [Ha Hl].
  rewrite (Hfg a Ha), (IH Hl). reflexivity.
Qed.

(** [_serialize_str] on ASCII text: the text padded with spaces and cut
    to the width, one byte per character. *)
Lemma serialize_str_ascii (value : str) (nbytes : nat) (e : encoding) :
  forallb is_ascii_char value = true ->
  BaseMessage._serialize_str value (8 * nbytes) e
  = Ok (BitArray_of_bytes
          (map byte_of_ascii
               (firstn nbytes (value ++ repeat SPACE (nbytes - length value))))).
Proof.
  intros Hv. unfold BaseMessage._serialize_str, str_ljust.
  rewrite Nat.mul_comm, Nat.div_mul by lia.
  set (padded := firstn nbytes (value ++ repeat SPACE (nbytes - length value))).
  assert (Hp : forallb is_ascii_char padded = true).
  { apply forallb_firstn, forallb_app_repeat; [ exact Hv | exact space_ascii ]. }
  assert (Hl : length padded = nbytes).
  { subst padded. rewrite length_firstn, length_app, repeat_length. lia. }
  rewrite (str_encode_ascii _ _ Hp). cbn [bind].
  unfold BitArray_bytes_length. rewrite length_map, Hl.
  rewrite (Nat.mul_comm nbytes 8), Nat.ltb_irrefl.
  rewrite firstn_all2; [ reflexivity | ].
  rewrite BitArray_of_bytes_length, length_map, Hl. lia.
Qed.



(* ================================================================== *)
(** * The callsign of a traffic report *)

(** What [_serialize_callsign] does in general: the callsign is trimmed,
    upper-cased and cut to 64 characters, checked, and then cut to 8. *)
Lemma serialize_callsign_general (s : str) :
  let checked := firstn 64 (str_upper (str_strip s)) in
  BaseTrafficReport.serialize_callsign_of (Some s)
  = match checked with
    | [] => Ok (BitArray_of_bytes (repeat x20 8))
    | _ :: _ =>
        if forallb char_isalnum checked
        then Ok (BitArray_of_bytes
                   (map byte_of_ascii
                        (firstn 8 (checked
                                   ++ repeat SPACE (8 - length checked)))))
        else Raise InvalidCallsign
    end.
Proof.
  cbn zeta. unfold BaseTrafficReport.serialize_callsign_of.
  cbn [option_map].
  destruct (str_strip s) as [ | c rest] eqn:Es.
  - vm_compute. reflexivity.
  - unfold BaseTrafficReport.CALLSIGN_BITS.
    set (checked := firstn 64 (str_upper (c :: rest))).
    assert (Hne : exists c' rest', checked = c' :: rest')
      by (subst checked; cbn; eauto).
    destruct Hne as (c' & rest' & Ec). rewrite Ec.
    unfold str_isalnum. rewrite <- Ec.
    destruct (forallb char_isalnum checked) eqn:Ha; cbn [negb];
      [ | reflexivity ].
    apply (serialize_str_ascii checked 8).
    exact (forallb_impl _ _ _ char_isalnum_ascii Ha).
Qed.





(* ================================================================== *)
(** * Traffic and Ownship reports, field by field *)

Module TrafficFacts.
Import BaseMessage BaseTrafficReport.

Lemma serialize_int_length (value : Z) (n : nat) (c : bool) (ba : bits) :
  _serialize_int value n c = Ok ba -> length ba = n.
Proof.
  unfold _serialize_int, BitArray_int.
  repeat match goal with
         | |- context [if ?b then _ else _] => destruct b
         end; intros H; try discriminate H;
    injection H as <-; apply uint_bits_length.
Qed.

Lemma serialize_resolution_uint_length (v : Z) (res : Q) (n : nat)
      (ba : bits) :
  _serialize_resolution_uint v res n = Ok ba -> length ba = n.
Proof.
  unfold _serialize_resolution_uint. intros H.
  apply bind_Ok in H. destruct H as (q & _ & H).
  exact (serialize_uint_length _ _ _ _ H).
Qed.

Lemma serialize_resolution_int_length (v res : Q) (n : nat) (ba : bits) :
  _serialize_resolution_int v res n = Ok ba -> length ba = n.
Proof.
  unfold _serialize_resolution_int. intros H.
  apply bind_Ok in H. destruct H as (q & _ & H).
  exact (serialize_int_length _ _ _ _ H).
Qed.

Lemma deserialize_resolution_uint_total (b : bits) (res : Q) :
  b <> [] -> exists v, _deserialize_resolution_uint b res = Ok v.
Proof.
  intros Hb. unfold _deserialize_resolution_uint, _deserialize_uint.
  rewrite BitArray_get_uint_nonempty by exact Hb. cbn [bind]. eauto.
Qed.

(** An enum member is written as its value and read back. *)
Definition enum_round_trip {T} (E : IntEnum T) (n : nat) : Prop :=
  forall v : T,
    _serialize_enum E v n = Ok (uint_bits n (enum_value E v))
    /\ _deserialize_enum E (uint_bits n (enum_value E v)) = Ok v.

Lemma AddressType_round_trip : enum_round_trip AddressType_enum 4.
Proof. intros v. destruct v; split; vm_compute; reflexivity. Qed.

Lemma TrackType_round_trip : enum_round_trip TrackType_enum 2.
Proof. intros v. destruct v; split; vm_compute; reflexivity. Qed.

Lemma Integrity_round_trip : enum_round_trip Integrity_enum 4.
Proof. intros v. destruct v; split; vm_compute; reflexivity. Qed.

Lemma Accuracy_round_trip : enum_round_trip Accuracy_enum 4.
Proof. intros v. destruct v; split; vm_compute; reflexivity. Qed.

Lemma EmitterCategory_round_trip : enum_round_trip EmitterCategory_enum 8.
Proof. intros v. destruct v; split; vm_compute; reflexivity. Qed.

Lemma EmergencyPriorityCode_round_trip :
  enum_round_trip EmergencyPriorityCode_enum 4.
Proof. intros v. destruct v; split; vm_compute; reflexivity. Qed.

Ltac nonempty_by H n :=
  apply (nonempty_of_length _ n); [ exact H | lia ].

(** The encoder writes the flag in the low bit of the span and the
    decoder reads the high bit, which is never set. *)
Lemma traffic_alert_field (r : t) :
  exists b,
    _serialize_traffic_alert r = Ok b /\ length b = 4%nat
    /\ b = [false; false; false; traffic_alert r]
    /\ _deserialize_traffic_alert b = Ok false.
Proof.
  unfold _serialize_traffic_alert.
  destruct (traffic_alert r); eexists;
    (split; [ vm_compute; reflexivity | repeat split ]).
Qed.

Lemma address_field (r : t) (b : bits) :
  _serialize_address r = Ok b ->
  length b = 24%nat /\ _deserialize_address b = Ok (bits_to_Z b).
Proof.
  intros H. pose proof (serialize_uint_length _ _ _ _ H) as Hl.
  split; [ exact Hl | ].
  apply BitArray_get_uint_nonempty. nonempty_by Hl 24%nat.
Qed.

Lemma latlon_resolution_nonzero : ~ (LATLON_RESOLUTION == 0)%Q.
Proof. intros H. discriminate H. Qed.

Lemma deserialize_resolution_float_total (b : bits) (res : Q) :
  b <> [] -> exists v, _deserialize_resolution_float b res = Ok v.
Proof.
  intros Hb. unfold _deserialize_resolution_float, _deserialize_int.
  rewrite BitArray_get_int_twos_complement by exact Hb.
  cbn [bind]. eauto.
Qed.

Lemma latitude_field (r : t) :
  exists b v,
    _serialize_latitude r = Ok b /\ length b = 24%nat
    /\ _deserialize_latitude b = Ok v
    /\ (integrity r = Integrity.unknown ->
        b = repeat false 24 /\ (v == 0)%Q).
Proof.
  unfold _serialize_latitude, _serialize_resolution_float,
    _deserialize_latitude.
  destruct (Z.eqb_spec (Integrity.value (integrity r))
                       (Integrity.value Integrity.unknown)) as [E | E].
  - exists (repeat false 24). eexists.
    split; [ vm_compute; reflexivity | ].
    split; [ reflexivity | ].
    split; [ vm_compute; reflexivity | ].
    intros _. split; reflexivity.
  - rewrite (serialize_resolution_int_ok _ _ 24 latlon_resolution_nonzero)
      by lia.
    set (b := uint_bits 24 _).
    assert (Hl : length b = 24%nat) by apply uint_bits_length.
    destruct (deserialize_resolution_float_total b LATLON_RESOLUTION)
      as (v & Hv); [ nonempty_by Hl 24%nat | ].
    exists b, v.
    split; [ reflexivity | ]. split; [ exact Hl | ].
    split; [ exact Hv | ].
    intros Hu. rewrite Hu in E. contradiction E. reflexivity.
Qed.

Lemma longitude_field (r : t) :
  exists b v,
    _serialize_longitude r = Ok b /\ length b = 24%nat
    /\ _deserialize_longitude b = Ok v
    /\ (integrity r = Integrity.unknown ->
        b = repeat false 24 /\ (v == 0)%Q).
Proof.
  unfold _serialize_longitude, _serialize_resolution_float,
    _deserialize_longitude.
  destruct (Z.eqb_spec (Integrity.value (integrity r))
                       (Integrity.value Integrity.unknown)) as [E | E].
  - exists (repeat false 24). eexists.
    split; [ vm_compute; reflexivity | ].
    split; [ reflexivity | ].
    split; [ vm_compute; reflexivity | ].
    intros _. split; reflexivity.
  - rewrite (serialize_resolution_int_ok _ _ 24 latlon_resolution_nonzero)
      by lia.
    set (b := uint_bits 24 _).
    assert (Hl : length b = 24%nat) by apply uint_bits_length.
    destruct (deserialize_resolution_float_total b LATLON_RESOLUTION)
      as (v & Hv); [ nonempty_by Hl 24%nat | ].
    exists b, v.
    split; [ reflexivity | ]. split; [ exact Hl | ].
    split; [ exact Hv | ].
    intros Hu. rewrite Hu in E. contradiction E. reflexivity.
Qed.

Lemma pressure_altitude_field (r : t) (b : bits) :
  _serialize_pressure_altitude r = Ok b ->
  length b = 12%nat /\ exists v, _deserialize_pressure_altitude b = Ok v.
Proof.
  intros H.
  assert (Hl : length b = 12%nat).
  { unfold _serialize_pressure_altitude in H.
    destruct (pressure_altitude r).
    - exact (serialize_resolution_uint_length _ _ _ _ H).
    - exact (serialize_uint_length _ _ _ _ H). }
  split; [ exact Hl | ].
  assert (Hb : b <> []) by nonempty_by Hl 12%nat.
  unfold _deserialize_pressure_altitude,
    _deserialize_resolution_offset_uint.
  rewrite BitArray_get_uint_nonempty by exact Hb. cbn [bind].
  destruct (bits_to_Z b =? PRESSURE_ALTITUDE_INVALID_VALUE); [ eauto | ].
  destruct (deserialize_resolution_uint_total
              b PRESSURE_ALTITUDE_RESOLUTION Hb) as (v & ->).
  cbn [bind]. eauto.
Qed.

Lemma horizontal_velocity_field (r : t) (b : bits) :
  _serialize_horizontal_velocity r = Ok b ->
  length b = 12%nat /\ exists v, _deserialize_horizontal_velocity b = Ok v.
Proof.
  intros H.
  assert (Hl : length b = 12%nat).
  { unfold _serialize_horizontal_velocity in H.
    destruct (horizontal_velocity r);
      exact (serialize_uint_length _ _ _ _ H). }
  split; [ exact Hl | ].
  assert (Hb : b <> []) by nonempty_by Hl 12%nat.
  unfold _deserialize_horizontal_velocity, _deserialize_uint.
  rewrite BitArray_get_uint_nonempty by exact Hb. cbn [bind].
  destruct (bits_to_Z b =? HORIZONTAL_VELOCITY_INVALID); eauto.
Qed.

Lemma vertical_velocity_field (r : t) (b : bits) :
  _serialize_vertical_velocity r = Ok b ->
  length b = 12%nat /\ exists v, _deserialize_vertical_velocity b = Ok v.
Proof.
  intros H.
  assert (Hl : length b = 12%nat).
  { unfold _serialize_vertical_velocity in H.
    destruct (vertical_velocity r).
    - exact (serialize_resolution_int_length _ _ _ _ H).
    - exact (serialize_uint_length _ _ _ _ H). }
  split; [ exact Hl | ].
  assert (Hb : b <> []) by nonempty_by Hl 12%nat.
  unfold _deserialize_vertical_velocity.
  rewrite BitArray_get_uint_nonempty by exact Hb. cbn [bind].
  destruct (bits_to_Z b =? VERTICAL_VELOCITY_INVALID); [ eauto | ].
  destruct (AHRSFacts.deserialize_resolution_int_total
              b VERTICAL_VELOCITY_RESOLUTION Hb) as (v & ->).
  cbn [bind]. eauto.
Qed.

Lemma track_field (r : t) (b : bits) :
  _serialize_track r = Ok b ->
  length b = 8%nat /\ exists v, _deserialize_track b = Ok v.
Proof.
  intros H.
  pose proof (serialize_resolution_uint_length _ _ _ _ H) as Hl.
  split; [ exact Hl | ].
  apply deserialize_resolution_uint_total. nonempty_by Hl 8%nat.
Qed.

Lemma callsign_field (r : t) (b : bits) :
  _serialize_callsign r = Ok b ->
  length b = 64%nat /\ exists v, _deserialize_callsign b = Ok v.
Proof.
  unfold _serialize_callsign.
  assert (Hgen : forall l : str,
             length l = 8%nat -> forallb is_ascii_char l = true ->
             length (BitArray_of_bytes (map byte_of_ascii l)) = 64%nat
             /\ exists v,
                 _deserialize_callsign
                   (BitArray_of_bytes (map byte_of_ascii l)) = Ok v).
  { intros l Hl Ha. split.
    - rewrite BitArray_of_bytes_length, length_map, Hl. reflexivity.
    - unfold _deserialize_callsign, _deserialize_str_ascii.
      rewrite BitArray_bytes_of_bytes. cbn [bind].
      rewrite (bytes_decode_ascii_map l Ha). cbn [bind]. eauto. }
  destruct (callsign r) as [s | ].
  - rewrite serialize_callsign_general. cbn zeta.
    set (checked := firstn 64 (str_upper (str_strip s))).
    destruct checked as [ | c rest] eqn:Ec.
    + intros H. injection H as <-.
      apply (Hgen (repeat SPACE 8)); reflexivity.
    + rewrite <- Ec.
      destruct (forallb char_isalnum checked) eqn:Ha; [ | discriminate ].
      intros H.
      set (l := firstn 8 (checked ++ repeat SPACE (8 - length checked)))
        in H.
      assert (Eb : b = BitArray_of_bytes (map byte_of_ascii l))
        by congruence.
      rewrite Eb. apply Hgen; subst l.
      * rewrite length_firstn, length_app, repeat_length. lia.
      * apply forallb_firstn, forallb_app_repeat; [ | exact space_ascii ].
        exact (forallb_impl _ _ _ char_isalnum_ascii Ha).
  - intros H. vm_compute in H. injection H as <-.
    apply (Hgen (repeat SPACE 8)); reflexivity.
Qed.

End TrafficFacts.

Ltac enum_field S E :=
  match type of S with
  | _ = ?rhs =>
      match type of E with
      | ?lhs = _ => change (lhs = rhs) in S
      end
  end;
  rewrite S in E; apply Ok_inj in E.

(** A frame that [serialize] returns for a Traffic or Ownship report is
    read back by [deserialize]; the record read has its traffic alert
    flag cleared, and a zero position when the integrity is unknown. *)
Lemma traffic_serialize_deserialize
      (ids : bytes) (r : BaseTrafficReport.t) (lsb_ : bool) (frame : bytes) :
  well_formed_ids ids ->
  BaseTrafficReport.serialize ids r lsb_ = Ok frame ->
  exists body r',
    BaseTrafficReport.body r = Ok body
    /\ length body = 216%nat
    /\ BaseTrafficReport.deserialize ids frame (negb lsb_) = Ok r'
    /\ span body 0 4 = [false; false; false; BaseTrafficReport.traffic_alert r]
    /\ BaseTrafficReport.traffic_alert r' = false
    /\ (BaseTrafficReport.integrity r = Integrity.unknown ->
        span body 32 24 = repeat false 24
        /\ span body 56 24 = repeat false 24
        /\ (BaseTrafficReport.latitude r' == 0)%Q
        /\ (BaseTrafficReport.longitude r' == 0)%Q).
Proof.
  intros Hids Hs.
  unfold BaseTrafficReport.serialize in Hs.
  apply bind_Ok in Hs. destruct Hs as (body & Hbody & Hframe).
  pose proof Hbody as Hb. unfold BaseTrafficReport.body in Hb.
  apply bind_Ok in Hb. destruct Hb as (f1 & E1 & Hb).
  apply bind_Ok in Hb. destruct Hb as (f2 & E2 & Hb).
  apply bind_Ok in Hb. destruct Hb as (f3 & E3 & Hb).
  apply bind_Ok in Hb. destruct Hb as (f4 & E4 & Hb).
  apply bind_Ok in Hb. destruct Hb as (f5 & E5 & Hb).
  apply bind_Ok in Hb. destruct Hb as (f6 & E6 & Hb).
  apply bind_Ok in Hb. destruct Hb as (f7 & E7 & Hb).
  apply bind_Ok in Hb. destruct Hb as (f8 & E8 & Hb).
  apply bind_Ok in Hb. destruct Hb as (f9 & E9 & Hb).
  apply bind_Ok in Hb. destruct Hb as (f10 & E10 & Hb).
  apply bind_Ok in Hb. destruct Hb as (f11 & E11 & Hb).
  apply bind_Ok in Hb. destruct Hb as (f12 & E12 & Hb).
  apply bind_Ok in Hb. destruct Hb as (f13 & E13 & Hb).
  apply bind_Ok in Hb. destruct Hb as (f14 & E14 & Hb).
  apply bind_Ok in Hb. destruct Hb as (f15 & E15 & Hb).
  apply bind_Ok in Hb. destruct Hb as (f16 & E16 & Hb).
  apply bind_Ok in Hb. destruct Hb as (f17 & E17 & Hb).
  apply bind_Ok in Hb. destruct Hb as (f18 & E18 & Hb).
  assert (Ebody : body = f1 ++ f2 ++ f3 ++ f4 ++ f5 ++ f6 ++ f7 ++ f8 ++ f9
                         ++ f10 ++ f11 ++ f12 ++ f13 ++ f14 ++ f15 ++ f16
                         ++ f17 ++ f18) by congruence.
  clear Hb.
  (* field 1: traffic alert *)
  destruct (TrafficFacts.traffic_alert_field r) as (b1 & S1 & L1 & V1 & D1).
  assert (Hf1 : f1 = b1) by congruence.
  rewrite <- Hf1 in L1, V1, D1. clear Hf1 S1 b1.
  (* field 2: address type *)
  destruct (TrafficFacts.AddressType_round_trip
              (BaseTrafficReport.address_type r)) as (S2 & D2).
  enum_field S2 E2.
  assert (L2 : length f2 = 4%nat) by (rewrite <- E2; apply uint_bits_length).
  rewrite E2 in D2.
  (* field 3: address *)
  destruct (TrafficFacts.address_field r f3 E3) as (L3 & D3).
  (* fields 4 and 5: latitude and longitude *)
  destruct (TrafficFacts.latitude_field r) as (b4 & v4 & S4 & L4 & D4 & U4).
  assert (Hf4 : f4 = b4) by congruence.
  rewrite <- Hf4 in L4, D4, U4. clear Hf4 S4 b4.
  destruct (TrafficFacts.longitude_field r) as (b5 & v5 & S5 & L5 & D5 & U5).
  assert (Hf5 : f5 = b5) by congruence.
  rewrite <- Hf5 in L5, D5, U5. clear Hf5 S5 b5.
  (* field 6: pressure altitude *)
  destruct (TrafficFacts.pressure_altitude_field r f6 E6) as (L6 & v6 & D6).
  (* fields 7 and 8: airborne, report extrapolated *)
  unfold BaseTrafficReport._serialize_airborne in E7.
  rewrite AHRSFacts.serialize_bool_ok in E7. apply Ok_inj in E7.
  unfold BaseTrafficReport._serialize_report_extrapolated in E8.
  rewrite AHRSFacts.serialize_bool_ok in E8. apply Ok_inj in E8.
  (* fields 9, 10, 11: track type, integrity, accuracy *)
  destruct (TrafficFacts.TrackType_round_trip
              (BaseTrafficReport.track_type r)) as (S9 & D9).
  enum_field S9 E9.
  assert (L9 : length f9 = 2%nat) by (rewrite <- E9; apply uint_bits_length).
  rewrite E9 in D9.
  destruct (TrafficFacts.Integrity_round_trip
              (BaseTrafficReport.integrity r)) as (S10 & D10).
  enum_field S10 E10.
  assert (L10 : length f10 = 4%nat)
    by (rewrite <- E10; apply uint_bits_length).
  rewrite E10 in D10.
  destruct (TrafficFacts.Accuracy_round_trip
              (BaseTrafficReport.accuracy r)) as (S11 & D11).
  enum_field S11 E11.
  assert (L11 : length f11 = 4%nat)
    by (rewrite <- E11; apply uint_bits_length).
  rewrite E11 in D11.
  (* fields 12, 13, 14: velocities and track *)
  destruct (TrafficFacts.horizontal_velocity_field r f12 E12)
    as (L12 & v12 & D12).
  destruct (TrafficFacts.vertical_velocity_field r f13 E13)
    as (L13 & v13 & D13).
  destruct (TrafficFacts.track_field r f14 E14) as (L14 & v14 & D14).
  (* field 15: emitter category *)
  destruct (TrafficFacts.EmitterCategory_round_trip
              (BaseTrafficReport.emitter_category r)) as (S15 & D15).
  enum_field S15 E15.
  assert (L15 : length f15 = 8%nat)
    by (rewrite <- E15; apply uint_bits_length).
  rewrite E15 in D15.
  (* field 16: callsign *)
  destruct (TrafficFacts.callsign_field r f16 E16) as (L16 & v16 & D16).
  (* field 17: emergency priority code *)
  destruct (TrafficFacts.EmergencyPriorityCode_round_trip
              (BaseTrafficReport.emergency_priority_code r)) as (S17 & D17).
  enum_field S17 E17.
  assert (L17 : length f17 = 4%nat)
    by (rewrite <- E17; apply uint_bits_length).
  rewrite E17 in D17.
  (* reserved *)
  assert (E18' : f18 = [false; false; false; false])
    by (vm_compute in E18; congruence).
  assert (Hlen : length body = 216%nat).
  { rewrite Ebody, !length_app, L1, L2, L3, L4, L5, L6, L9, L10, L11, L12,
      L13, L14, L15, L16, L17, <- E7, <- E8, E18'. reflexivity. }
  exists body.
  exists {|
      BaseTrafficReport.traffic_alert := false;
      BaseTrafficReport.address_type := BaseTrafficReport.address_type r;
      BaseTrafficReport.address := bits_to_Z f3;
      BaseTrafficReport.latitude := v4;
      BaseTrafficReport.longitude := v5;
      BaseTrafficReport.pressure_altitude := v6;
      BaseTrafficReport.track_type := BaseTrafficReport.track_type r;
      BaseTrafficReport.report_extrapolated :=
        BaseTrafficReport.report_extrapolated r;
      BaseTrafficReport.airborne := BaseTrafficReport.airborne r;
      BaseTrafficReport.integrity := BaseTrafficReport.integrity r;
      BaseTrafficReport.accuracy := BaseTrafficReport.accuracy r;
      BaseTrafficReport.horizontal_velocity := v12;
      BaseTrafficReport.vertical_velocity := v13;
      BaseTrafficReport.track := v14;
      BaseTrafficReport.emitter_category :=
        BaseTrafficReport.emitter_category r;
      BaseTrafficReport.callsign := Some v16;
      BaseTrafficReport.emergency_priority_code :=
        BaseTrafficReport.emergency_priority_code r |}.
  cbn [BaseTrafficReport.traffic_alert BaseTrafficReport.latitude
       BaseTrafficReport.longitude].
  split; [ exact Hbody | ].
  split; [ exact Hlen | ].
  split.
  { unfold BaseTrafficReport.deserialize.
    rewrite (clean_data_build ids _ _ _ Hids
               ltac:(rewrite Hlen; reflexivity) Hframe).
    cbn [bind].
    unfold run_reader, BaseTrafficReport.read_body,
      BaseTrafficReport.TRAFFIC_ALERT_BITS,
      BaseTrafficReport.ADDRESS_TYPE_BITS, BaseTrafficReport.ADDRESS_BITS,
      BaseTrafficReport.LATITUDE_BITS, BaseTrafficReport.LONGITUDE_BITS,
      BaseTrafficReport.PRESSURE_ALTITUDE_BITS,
      BaseTrafficReport.TRACK_TYPE_BITS, BaseTrafficReport.INTEGRITY_BITS,
      BaseTrafficReport.ACCURACY_BITS,
      BaseTrafficReport.HORIZONTAL_VELOCITY_BITS,
      BaseTrafficReport.VERTICAL_VELOCITY_BITS, BaseTrafficReport.TRACK_BITS,
      BaseTrafficReport.EMITTER_CATEGORY_BITS,
      BaseTrafficReport.CALLSIGN_BITS,
      BaseTrafficReport.EMERGENCY_PRIORITY_CODE_BITS,
      BaseTrafficReport.RESERVED_BITS.
    rewrite Ebody.
    rewrite (rbind_field _ _ _ _ _ _ L1 D1).
    rewrite (rbind_field _ _ _ _ _ _ L2 D2).
    rewrite (rbind_field _ _ _ _ _ _ L3 D3).
    rewrite (rbind_field _ _ _ _ _ _ L4 D4).
    rewrite (rbind_field _ _ _ _ _ _ L5 D5).
    rewrite (rbind_field _ _ _ _ _ _ L6 D6).
    rewrite <- E7.
    rewrite (rbind_field BaseTrafficReport._deserialize_airborne 1 _
               [BaseTrafficReport.airborne r] _ _ eq_refl eq_refl).
    rewrite <- E8.
    rewrite (rbind_field BaseTrafficReport._deserialize_report_extrapolated
               1 _ [BaseTrafficReport.report_extrapolated r] _ _
               eq_refl eq_refl).
    rewrite (rbind_field _ _ _ _ _ _ L9 D9).
    rewrite (rbind_field _ _ _ _ _ _ L10 D10).
    rewrite (rbind_field _ _ _ _ _ _ L11 D11).
    rewrite (rbind_field _ _ _ _ _ _ L12 D12).
    rewrite (rbind_field _ _ _ _ _ _ L13 D13).
    rewrite (rbind_field _ _ _ _ _ _ L14 D14).
    rewrite (rbind_field _ _ _ _ _ _ L15 D15).
    rewrite (rbind_field _ _ _ _ _ _ L16 D16).
    rewrite (rbind_field _ _ _ _ _ _ L17 D17).
    rewrite E18'. reflexivity. }
  split.
  { rewrite Ebody, V1. apply span_app_0. reflexivity. }
  split; [ reflexivity | ].
  intros Hu. destruct (U4 Hu) as (Z4 & Q4). destruct (U5 Hu) as (Z5 & Q5).
  split; [ | split; [ | split; assumption ] ].
  - rewrite Ebody.
    rewrite (span_app_skip f1 _ 4 28 24 L1).
    rewrite (span_app_skip f2 _ 4 24 24 L2).
    rewrite (span_app_skip f3 _ 24 0 24 L3).
    rewrite <- Z4. apply span_app_0. exact L4.
  - rewrite Ebody.
    rewrite (span_app_skip f1 _ 4 52 24 L1).
    rewrite (span_app_skip f2 _ 4 48 24 L2).
    rewrite (span_app_skip f3 _ 24 24 24 L3).
    rewrite (span_app_skip f4 _ 24 0 24 L4).
    rewrite <- Z5. apply span_app_0. exact L5.
Qed.

(** C4. For every Traffic Report or Ownship Report whose integrity is
    [Integrity.unknown], when [serialize] returns a frame the body
    carries zero in the 24-bit latitude span and in the 24-bit longitude
    span, whatever the latitude and longitude of the record, and
    deserializing the frame yields latitude 0.0 and longitude 0.0. *)
Theorem unknown_integrity_zero_position
        (ids : bytes) (r : BaseTrafficReport.t) (lsb_ : bool) (frame : bytes)
        (Hids : In ids [OwnshipReportMessage.MESSAGE_IDS;
                        TrafficReportMessage.MESSAGE_IDS])
        (Hunknown : BaseTrafficReport.integrity r = Integrity.unknown)
        (Hframe : BaseTrafficReport.serialize ids r lsb_ = Ok frame) :
  exists body r',
    BaseTrafficReport.body r = Ok body
    /\ span body 32 24 = repeat false 24
    /\ span body 56 24 = repeat false 24
    /\ BaseTrafficReport.deserialize ids frame (negb lsb_) = Ok r'
    /\ (BaseTrafficReport.latitude r' == 0)%Q
    /\ (BaseTrafficReport.longitude r' == 0)%Q.
Proof.
  assert (Hwf : well_formed_ids ids).
  { destruct Hids as [<- | [<- | []]];
      left; eexists; (split; [ reflexivity | discriminate ]). }
  destruct (traffic_serialize_deserialize ids r lsb_ frame Hwf Hframe)
    as (body & r' & Hb & _ & Hd & _ & _ & Hpos).
  destruct (Hpos Hunknown) as (Z1 & Z2 & Q1 & Q2).
  exists body, r'.
  exact (conj Hb (conj Z1 (conj Z2 (conj Hd (conj Q1 Q2))))).
Qed.

Lemma unknown_integrity_zero_position_witness :
  exists frame body r',
    TrafficReportMessage.serialize
      (traffic_scenario false (Some (text "N825V"%string))) true = Ok frame
    /\ BaseTrafficReport.body
         (traffic_scenario false (Some (text "N825V"%string))) = Ok body
    /\ span body 32 24 = repeat false 24
    /\ span body 56 24 = repeat false 24
    /\ TrafficReportMessage.deserialize frame false = Ok r'
    /\ (BaseTrafficReport.latitude r' == 0)%Q
    /\ (BaseTrafficReport.longitude r' == 0)%Q.
Proof.
  eexists.
  assert (Hs : TrafficReportMessage.serialize
                 (traffic_scenario false (Some (text "N825V"%string))) true
               = Ok ?[frame]) by (vm_compute; reflexivity).
  destruct (unknown_integrity_zero_position
              TrafficReportMessage.MESSAGE_IDS
              (traffic_scenario false (Some (text "N825V"%string)))
              true _ (or_intror (or_introl eq_refl)) eq_refl Hs)
    as (body & r' & Hb & Z1 & Z2 & Hd & Q1 & Q2).
  exists body, r'.
  exact (conj Hs (conj Hb (conj Z1 (conj Z2 (conj Hd (conj Q1 Q2)))))).
Defined.

(* ================================================================== *)
(** * The round trip and the traffic alert flag *)

(** C1 fails on the code. [traffic_alert_example] carries
    [traffic_alert = True]; with either bit order its frame is read back
    as a record that agrees with it on every other field but has
    [traffic_alert = False]: the encoder writes the flag as the unsigned
    integer 1 in four bits (0001) and the decoder returns bit 0 of the
    span, the high bit. *)
Theorem traffic_alert_lost_in_round_trip (lsb_ : bool) :
  exists frame body r',
    TrafficReportMessage.serialize traffic_alert_example lsb_ = Ok frame
    /\ BaseTrafficReport.body traffic_alert_example = Ok body
    /\ span body 0 4 = [false; false; false; true]
    /\ TrafficReportMessage.deserialize frame (negb lsb_) = Ok r'
    /\ BaseTrafficReport.traffic_alert traffic_alert_example = true
    /\ BaseTrafficReport.traffic_alert r' = false
    /\ same_but_alert r' traffic_alert_example.
Proof.
  destruct lsb_.
  - do 3 eexists.
    split; [ vm_compute; reflexivity | ].
    split; [ vm_compute; reflexivity | ].
    split; [ reflexivity | ].
    split; [ vm_compute; reflexivity | ].
    repeat split.
  - do 3 eexists.
    split; [ vm_compute; reflexivity | ].
    split; [ vm_compute; reflexivity | ].
    split; [ reflexivity | ].
    split; [ vm_compute; reflexivity | ].
    repeat split.
Qed.

(** The flag is lost for every record, not only this one: whatever
    [serialize] returns is read back with the flag cleared. *)
Lemma traffic_alert_never_read_back
      (ids : bytes) (r : BaseTrafficReport.t) (lsb_ : bool) (frame : bytes) :
  well_formed_ids ids ->
  BaseTrafficReport.serialize ids r lsb_ = Ok frame ->
  exists r',
    BaseTrafficReport.deserialize ids frame (negb lsb_) = Ok r'
    /\ BaseTrafficReport.traffic_alert r' = false.
Proof.
  intros Hwf Hs.
  destruct (traffic_serialize_deserialize ids r lsb_ frame Hwf Hs)
    as (body & r' & _ & _ & Hd & _ & Ha & _).
  eauto.
Qed.

(* ================================================================== *)
(** * The round trip of the Heartbeat *)

Lemma divmod_seconds (h m s : Z) :
  0 <= m <= 59 -> 0 <= s <= 59 ->
  let total := h * 3600 + m * 60 + s in
  total / 3600 = h
  /\ (total mod 3600) / 60 = m
  /\ (total mod 3600) mod 60 = s.
Proof.
  intros Hm Hs. cbn zeta.
  assert (E1 : (h * 3600 + m * 60 + s) / 3600 = h).
  { symmetry. apply (Z.div_unique _ _ _ (m * 60 + s)); lia. }
  assert (E2 : (h * 3600 + m * 60 + s) mod 3600 = m * 60 + s).
  { symmetry. apply (Z.mod_unique _ _ h); lia. }
  rewrite E1, E2. split; [ reflexivity | ]. split.
  - symmetry. apply (Z.div_unique _ _ _ s); lia.
  - symmetry. apply (Z.mod_unique _ _ m); lia.
Qed.

Lemma heartbeat_timestamp_round_trip (r : HeartbeatMessage.t) :
  heartbeat_valid r ->
  HeartbeatMessage._serialize_timestamp r
  = Ok (uint_bits 17
          (datetime.hour (HeartbeatMessage.timestamp r) * 3600
           + datetime.minute (HeartbeatMessage.timestamp r) * 60
           + datetime.second (HeartbeatMessage.timestamp r)))
  /\ HeartbeatMessage._deserialize_timestamp
       (uint_bits 17
          (datetime.hour (HeartbeatMessage.timestamp r) * 3600
           + datetime.minute (HeartbeatMessage.timestamp r) * 60
           + datetime.second (HeartbeatMessage.timestamp r)))
     = Ok (HeartbeatMessage.timestamp r).
Proof.
  intros (Hh & Hm & Hs & Hus & Htz & _).
  destruct (HeartbeatMessage.timestamp r) as [h m s us tz] eqn:Er.
  cbn [datetime.hour datetime.minute datetime.second datetime.microsecond
       datetime.tzinfo_UTC] in *.
  subst us tz.
  set (total := h * 3600 + m * 60 + s).
  assert (Ht : 0 <= total < 2 ^ 17)
    by (change (2 ^ 17) with 131072; subst total; lia).
  split.
  - unfold HeartbeatMessage._serialize_timestamp. rewrite Er.
    cbn [datetime.hour datetime.minute datetime.second].
    change (h * HeartbeatMessage.SECONDS_PER_HOUR
            + m * HeartbeatMessage.SECONDS_PER_MINUTE + s) with total.
    change HeartbeatMessage.TIMESTAMP_BITS with 17%nat.
    rewrite serialize_uint_constrain by lia.
    change (2 ^ Z.of_nat 17) with (2 ^ 17).
    rewrite Z.min_l by lia.
    reflexivity.
  - unfold HeartbeatMessage._deserialize_timestamp,
      BaseMessage._deserialize_uint.
    rewrite BitArray_get_uint_nonempty by (apply uint_bits_nonempty; lia).
    cbn [bind]. rewrite bits_to_Z_uint_bits.
    rewrite Z.mod_small by exact Ht.
    change HeartbeatMessage.SECONDS_PER_HOUR with 3600.
    change HeartbeatMessage.SECONDS_PER_MINUTE with 60.
    destruct (divmod_seconds h m s Hm Hs) as (E1 & E2 & E3).
    fold total in E1, E2, E3. rewrite E1, E2, E3.
    unfold datetime.make.
    destruct (Z.leb_spec 0 h); [ | lia ].
    destruct (Z.leb_spec h 23); [ | lia ].
    destruct (Z.leb_spec 0 m); [ | lia ].
    destruct (Z.leb_spec m 59); [ | lia ].
    destruct (Z.leb_spec 0 s); [ | lia ].
    destruct (Z.leb_spec s 59); [ | lia ].
    reflexivity.
Qed.

Lemma uint_field_round_trip (v : Z) (n : nat) :
  (0 < n)%nat -> 0 <= v < 2 ^ Z.of_nat n ->
  BaseMessage._serialize_uint v n true = Ok (uint_bits n v)
  /\ BaseMessage._deserialize_uint (uint_bits n v) = Ok v.
Proof.
  intros Hn Hv. split.
  - rewrite serialize_uint_constrain by lia.
    rewrite Z.min_l by lia. reflexivity.
  - unfold BaseMessage._deserialize_uint.
    rewrite BitArray_get_uint_nonempty by (apply uint_bits_nonempty; exact Hn).
    rewrite bits_to_Z_uint_bits, Z.mod_small by exact Hv. reflexivity.
Qed.

(** The round trip holds for the Heartbeat: on its valid domain
    [deserialize (serialize r lsb) (not lsb)] is [r], for both bit
    orders. *)
Lemma heartbeat_round_trip (r : HeartbeatMessage.t) (lsb_ : bool) :
  heartbeat_valid r ->
  exists frame,
    HeartbeatMessage.serialize r lsb_ = Ok frame
    /\ HeartbeatMessage.deserialize frame (negb lsb_) = Ok r.
Proof.
  intros Hv.
  destruct (heartbeat_timestamp_round_trip r Hv) as (St & Dt).
  destruct Hv as (_ & _ & _ & _ & _ & Hu & Hb).
  destruct (uint_field_round_trip
              (HeartbeatMessage.uplink_messages_count r) 5
              ltac:(lia) Hu) as (Su & Du).
  destruct (uint_field_round_trip
              (HeartbeatMessage.basic_long_messages_count r) 10
              ltac:(lia) Hb) as (Sb & Db).
  set (ts := uint_bits 17 _) in St, Dt.
  set (fu := uint_bits 5 _) in Su, Du.
  set (fb := uint_bits 10 _) in Sb, Db.
  assert (Lts : length ts = 17%nat) by apply uint_bits_length.
  assert (Lu : length fu = 5%nat) by apply uint_bits_length.
  assert (Lb : length fb = 10%nat) by apply uint_bits_length.
  set (t1 := firstn 1 ts).
  set (t2 := firstn 8 (skipn 1 ts)).
  set (t3 := skipn 9 ts).
  assert (L1 : length t1 = 1%nat) by (subst t1; rewrite length_firstn; lia).
  assert (L2 : length t2 = 8%nat)
    by (subst t2; rewrite length_firstn, length_skipn; lia).
  assert (L3 : length t3 = 8%nat) by (subst t3; rewrite length_skipn; lia).
  assert (Ets : t1 ++ t2 ++ t3 = ts).
  { subst t1 t2 t3.
    pose proof (firstn_skipn 8 (skipn 1 ts)) as E2.
    rewrite skipn_skipn in E2. change (8 + 1)%nat with 9%nat in E2.
    rewrite E2. apply firstn_skipn. }
  set (body :=
         [HeartbeatMessage.gps_position_valid r]
         ++ [HeartbeatMessage.maintenance_required r]
         ++ [HeartbeatMessage.ident_talkback r]
         ++ [HeartbeatMessage.self_assigned_address_talkback r]
         ++ [HeartbeatMessage.gps_battery_low r]
         ++ [HeartbeatMessage.RATCS_talkback r]
         ++ [false]
         ++ [HeartbeatMessage.UAT_initialized r]
         ++ t1
         ++ [HeartbeatMessage.CSA_requested r]
         ++ [HeartbeatMessage.CSA_unavailable r]
         ++ [false; false; false; false]
         ++ [HeartbeatMessage.UTC_timing_valid r]
         ++ t3 ++ t2 ++ fu ++ [false] ++ fb).
  assert (Hbody : HeartbeatMessage.body r = Ok body).
  { unfold HeartbeatMessage.body.
    rewrite St. cbn [bind].
    rewrite !AHRSFacts.serialize_bool_ok. cbn [bind].
    unfold HeartbeatMessage._serialize_uplink_messages_count,
      HeartbeatMessage._serialize_basic_long_messages_count,
      HeartbeatMessage.UPLINK_MESSAGES_COUNT_BITS,
      HeartbeatMessage.BASIC_LONG_MESSAGES_COUNT_BITS.
    rewrite Su, Sb. reflexivity. }
  assert (Hlen : length body = 48%nat).
  { subst body. rewrite !length_app, L1, L2, L3, Lu, Lb. reflexivity. }
  destruct (build_total HeartbeatMessage.MESSAGE_IDS body lsb_)
    as (frame & Hframe).
  exists frame. split.
  { unfold HeartbeatMessage.serialize. rewrite Hbody. exact Hframe. }
  unfold HeartbeatMessage.deserialize.
  rewrite (clean_data_build HeartbeatMessage.MESSAGE_IDS _ _ _
             (message_ids_well_formed (Heartbeat r))
             ltac:(rewrite Hlen; reflexivity) Hframe).
  cbn [bind].
  unfold run_reader, HeartbeatMessage.read_body, raw,
    HeartbeatMessage.RESERVED_1_BITS, HeartbeatMessage.RESERVED_2_BITS,
    HeartbeatMessage.RESERVED_3_BITS, HeartbeatMessage.TIMESTAMP_BITS_1,
    HeartbeatMessage.TIMESTAMP_BITS_2, HeartbeatMessage.TIMESTAMP_BITS_3,
    HeartbeatMessage.UPLINK_MESSAGES_COUNT_BITS,
    HeartbeatMessage.BASIC_LONG_MESSAGES_COUNT_BITS.
  subst body.
  rewrite (rbind_field BaseMessage._deserialize_bool 1 _ [_] _ _ eq_refl eq_refl).
  rewrite (rbind_field BaseMessage._deserialize_bool 1 _ [_] _ _ eq_refl eq_refl).
  rewrite (rbind_field BaseMessage._deserialize_bool 1 _ [_] _ _ eq_refl eq_refl).
  rewrite (rbind_field BaseMessage._deserialize_bool 1 _ [_] _ _ eq_refl eq_refl).
  rewrite (rbind_field BaseMessage._deserialize_bool 1 _ [_] _ _ eq_refl eq_refl).
  rewrite (rbind_field BaseMessage._deserialize_bool 1 _ [_] _ _ eq_refl eq_refl).
  rewrite (rbind_field (fun b => Ok b) 1 _ [_] _ _ eq_refl eq_refl).
  rewrite (rbind_field BaseMessage._deserialize_bool 1 _ [_] _ _ eq_refl eq_refl).
  rewrite (rbind_field (fun b => Ok b) 1 _ t1 _ _ L1 eq_refl).
  rewrite (rbind_field BaseMessage._deserialize_bool 1 _ [_] _ _ eq_refl eq_refl).
  rewrite (rbind_field BaseMessage._deserialize_bool 1 _ [_] _ _ eq_refl eq_refl).
  rewrite (rbind_field (fun b => Ok b) 4 _ [_; _; _; _] _ _ eq_refl eq_refl).
  rewrite (rbind_field BaseMessage._deserialize_bool 1 _ [_] _ _ eq_refl eq_refl).
  rewrite (rbind_field (fun b => Ok b) 8 _ t3 _ _ L3 eq_refl).
  rewrite (rbind_field (fun b => Ok b) 8 _ t2 _ _ L2 eq_refl).
  unfold rbind at 1. rewrite Ets, Dt. cbn [bind].
  rewrite (rbind_field _ 5 _ fu _ _ Lu Du).
  rewrite (rbind_field (fun b => Ok b) 1 _ [_] _ _ eq_refl eq_refl).
  rewrite (rbind_field_last _ 10 _ fb _ Lb Db).
  destruct r. reflexivity.
Qed.

(* ================================================================== *)
(** * Further properties of the framing code *)

Lemma escape_length (data : bytes) :
  length (escape data) = (length data + count_special data)%nat.
Proof.
  unfold count_special.
  induction data as [ | d rest IH]; [ reflexivity | ].
  change (escape (d :: rest)) with (escape_byte d ++ escape rest).
  rewrite length_app, IH. cbn [filter length].
  unfold escape_byte.
  destruct (Byte.eqb d FLAG_BYTE || Byte.eqb d CONTROL_ESCAPE_BYTE);
    cbn [length]; lia.
Qed.

(** X1. [unescape] undoes [escape] on every byte string, and [escape]
    lengthens a buffer by exactly one byte for each 0x7E or 0x7D in it. *)
Theorem escape_round_trip_and_length (data : bytes) :
  unescape (escape data) = Ok data
  /\ length (escape data) = (length data + count_special data)%nat
  /\ (length data <= length (escape data) <= 2 * length data)%nat.
Proof.
  split; [ apply unescape_escape | ].
  split; [ apply escape_length | ].
  rewrite escape_length. unfold count_special.
  pose proof (filter_length_le
                (fun b => Byte.eqb b FLAG_BYTE
                          || Byte.eqb b CONTROL_ESCAPE_BYTE) data).
  lia.
Qed.

Lemma unescape_app_escape (a rest : bytes) :
  unescape (escape a ++ rest)
  = (tl <- unescape rest ;; Ok (a ++ tl)).
Proof.
  induction a as [ | d a IH].
  - cbn [escape flat_map app]. destruct (unescape rest); reflexivity.
  - change (escape (d :: a)) with (escape_byte d ++ escape a).
    rewrite <- app_assoc.
    destruct (escape_byte_cases d) as [[Hd E] | (H1 & H2 & E)]; rewrite E.
    + destruct (escaped_value_plain d Hd) as (_ & _ & Hx).
      cbn [app]. rewrite unescape_pair, IH.
      destruct (unescape rest); cbn [bind]; [ rewrite Hx | ]; reflexivity.
    + cbn [app]. rewrite (unescape_plain _ _ H2), IH.
      destruct (unescape rest); reflexivity.
Qed.

Lemma unescape_length (data out : bytes) :
  unescape data = Ok out -> (length out <= length data)%nat.
Proof.
  remember (length data) as n eqn:En. revert data out En.
  induction n as [n IH] using lt_wf_ind. intros data out En.
  destruct data as [ | b rest].
  - intros H. injection H as <-. simpl. lia.
  - destruct (Byte.byte_eq_dec b x7d) as [-> | Hb].
    + destruct rest as [ | c rest]; [ discriminate | ].
      rewrite unescape_pair. intros H.
      apply bind_Ok in H. destruct H as (tl & Ht & H).
      apply Ok_inj in H. subst out.
      pose proof (IH (length rest) ltac:(subst n; simpl; lia)
                     rest tl eq_refl Ht).
      subst n. simpl. lia.
    + rewrite (unescape_plain _ _ Hb). intros H.
      apply bind_Ok in H. destruct H as (tl & Ht & H).
      apply Ok_inj in H. subst out.
      pose proof (IH (length rest) ltac:(subst n; simpl; lia)
                     rest tl eq_refl Ht).
      subst n. simpl. lia.
Qed.

(** X2. [unescape] fails only with [IndexError], which is what a 0x7D
    that ends the data gives (here after any escaped buffer); when it
    succeeds its output is no longer than its input. *)
Theorem unescape_errors (data : bytes) :
  unescape (escape data ++ [CONTROL_ESCAPE_BYTE]) = Raise IndexError
  /\ match unescape data with
     | Ok out => (length out <= length data)%nat
     | Raise e => e = IndexError
     end.
Proof.
  split.
  - rewrite unescape_app_escape. reflexivity.
  - destruct (unescape data) as [out | e] eqn:E.
    + exact (unescape_length _ _ E).
    + exact (unescape_raises_IndexError _ _ E).
Qed.

(** Induction over a bit array eight bits at a time, with a short last
    chunk. *)
Lemma chunks_ind (P : bits -> Prop) :
  (forall short, (length short < 8)%nat -> P short) ->
  (forall b7 b6 b5 b4 b3 b2 b1 b0 rest,
      P rest -> P (b7 :: b6 :: b5 :: b4 :: b3 :: b2 :: b1 :: b0 :: rest)) ->
  forall ba, P ba.
Proof.
  intros Hshort Hstep ba.
  remember (length ba) as n eqn:En. revert ba En.
  induction n as [n IH] using lt_wf_ind. intros ba En.
  destruct ba as [ | b7 [ | b6 [ | b5 [ | b4 [ | b3 [ | b2 [ | b1 [ | b0 rest]]]]]]]];
    try (apply Hshort; simpl; lia).
  apply Hstep. apply (IH (length rest)); [ subst n; simpl; lia | reflexivity ].
Qed.

Lemma lsb_short (short : bits) :
  (length short < 8)%nat -> lsb short = rev short.
Proof.
  intros H.
  destruct short as [ | b7 [ | b6 [ | b5 [ | b4 [ | b3 [ | b2 [ | b1 [ | b0 rest]]]]]]]];
    try reflexivity.
  simpl in H. lia.
Qed.

Lemma lsb_involutive (ba : bits) : lsb (lsb ba) = ba.
Proof.
  revert ba. apply chunks_ind.
  - intros short H. rewrite (lsb_short short H).
    rewrite lsb_short by (rewrite length_rev; exact H).
    apply rev_involutive.
  - intros b7 b6 b5 b4 b3 b2 b1 b0 rest IH.
    cbn [lsb app]. rewrite IH. reflexivity.
Qed.

Lemma lsb_length (ba : bits) : length (lsb ba) = length ba.
Proof.
  revert ba. apply chunks_ind.
  - intros short H. rewrite (lsb_short short H). apply length_rev.
  - intros b7 b6 b5 b4 b3 b2 b1 b0 rest IH.
    cbn [lsb app length]. rewrite IH. reflexivity.
Qed.

(** X3. Reversing the bits of each byte is an involution that keeps the
    length: on every bit array (a last chunk shorter than a byte is
    reversed too), and on every byte string, where [lsb_bytes] never
    raises. *)
Theorem lsb_is_an_involution (ba : bits) (bytes_ : bytes) :
  lsb (lsb ba) = ba
  /\ length (lsb ba) = length ba
  /\ exists flipped,
       lsb_bytes bytes_ = Ok flipped
       /\ length flipped = length bytes_
       /\ lsb_bytes flipped = Ok bytes_.
Proof.
  split; [ apply lsb_involutive | ].
  split; [ apply lsb_length | ].
  exists (map rev_byte bytes_).
  split; [ apply lsb_bytes_map | ].
  split; [ apply length_map | ].
  rewrite lsb_bytes_map, map_rev_byte_involutive. reflexivity.
Qed.

Lemma escape_no_flag (data : bytes) : ~ In FLAG_BYTE (escape data).
Proof.
  intros Hin. apply In_nth_error in Hin. destruct Hin as (i & Hi).
  destruct (escape_stuffed data i FLAG_BYTE Hi) as (Hne & _).
  apply Hne. reflexivity.
Qed.

Lemma rev_byte_flag (b : byte) : rev_byte b = FLAG_BYTE -> b = FLAG_BYTE.
Proof.
  intros H. rewrite <- (rev_byte_involutive b), H. reflexivity.
Qed.

Lemma map_rev_byte_no_flag (region : bytes) :
  ~ In FLAG_BYTE region -> ~ In FLAG_BYTE (map rev_byte region).
Proof.
  intros Hno Hin. apply in_map_iff in Hin. destruct Hin as (b & Hb & Hin).
  apply rev_byte_flag in Hb. subst b. contradiction.
Qed.

(** The frames [build] returns, for both bit orders. *)
Lemma build_delimited (ids : bytes) (body : bits) (lsb_ : bool) (frame : bytes) :
  build ids body lsb_ = Ok frame -> delimited frame.
Proof.
  intros Hb.
  destruct (build_ok ids body lsb_) as (crc & _ & _ & E).
  rewrite E in Hb. apply Ok_inj in Hb. subst frame.
  unfold frame_of. destruct lsb_.
  - exists (map rev_byte (escape ((ids ++ tobytes body) ++ crc))). split.
    + rewrite map_cons, map_app. reflexivity.
    + apply map_rev_byte_no_flag, escape_no_flag.
  - exists (escape ((ids ++ tobytes body) ++ crc)). split;
      [ reflexivity | apply escape_no_flag ].
Qed.

(** X4. For every message ID list and body, [build] never raises; the
    frame for least-significant-bit-first transmission is the frame for
    most-significant-bit-first transmission with the bits of each byte
    reversed; in both, the frame opens and closes with 0x7E and has no
    0x7E in between, and it has between n + 4 and 2 n + 6 bytes, n being
    the number of ID and body bytes. *)
Theorem build_frame_shape (ids : bytes) (body : bits) :
  exists msb_frame lsb_frame,
    build ids body false = Ok msb_frame
    /\ build ids body true = Ok lsb_frame
    /\ lsb_frame = map rev_byte msb_frame
    /\ delimited msb_frame
    /\ delimited lsb_frame
    /\ length lsb_frame = length msb_frame
    /\ (length ids + length (tobytes body) + 4 <= length msb_frame
        <= 2 * (length ids + length (tobytes body)) + 6)%nat.
Proof.
  destruct (build_ok ids body false) as (crc & Hc & Hl & E0).
  destruct (build_ok ids body true) as (crc' & Hc' & _ & E1).
  assert (crc' = crc) by congruence. subst crc'.
  exists (frame_of (ids ++ tobytes body) crc).
  exists (map rev_byte (frame_of (ids ++ tobytes body) crc)).
  split; [ exact E0 | ]. split; [ exact E1 | ]. split; [ reflexivity | ].
  split; [ exact (build_delimited _ _ _ _ E0) | ].
  split; [ exact (build_delimited _ _ _ _ E1) | ].
  split; [ apply length_map | ].
  unfold frame_of. cbn [length]. rewrite length_app. cbn [length].
  rewrite escape_length. unfold count_special.
  pose proof (filter_length_le
                (fun b => Byte.eqb b FLAG_BYTE
                          || Byte.eqb b CONTROL_ESCAPE_BYTE)
                ((ids ++ tobytes body) ++ crc)) as Hb.
  rewrite !length_app, Hl in *. lia.
Qed.

(** X5. A frame built with one choice of bit order and deconstructed
    with the matching one ([incoming_msb = not outgoing_lsb]) gives back
    the message IDs and, for a body of whole bytes, the body, for a
    single ID other than 0x65 or for 0x65 followed by a sub-ID. *)
Theorem build_deconstruct_round_trip
        (ids : bytes) (body : bits) (lsb_ : bool)
        (Hids : well_formed_ids ids)
        (Hwhole : (Nat.modulo (length body) 8 = 0)%nat) :
  exists frame,
    build ids body lsb_ = Ok frame
    /\ deconstruct frame (negb lsb_) = Ok (ids, body).
Proof.
  destruct (build_total ids body lsb_) as (frame & Hb).
  exists frame. split; [ exact Hb | ].
  rewrite (deconstruct_build _ _ _ _ Hids Hb).
  rewrite BitArray_of_bytes_tobytes by exact Hwhole. reflexivity.
Qed.

Lemma build_deconstruct_round_trip_witness :
  exists frame,
    build [x65; x01] (BitArray_of_bytes [x7e; x7d; x00; xff]) true = Ok frame
    /\ deconstruct frame false
       = Ok ([x65; x01], BitArray_of_bytes [x7e; x7d; x00; xff]).
Proof.
  apply (build_deconstruct_round_trip
           [x65; x01] (BitArray_of_bytes [x7e; x7d; x00; xff]) true).
  - right. exists x01. reflexivity.
  - reflexivity.
Defined.

(** X6. A frame whose two CRC bytes are not the CRC of its payload is
    refused with [InvalidCRC]: [deconstruct] fails on the payload
    stuffed and delimited together with any other two bytes. *)
Theorem deconstruct_rejects_wrong_crc
        (payload crc : bytes)
        (Hlen : length crc = 2%nat)
        (Hwrong : compute_crc payload <> Ok crc) :
  deconstruct (frame_of payload crc) true = Raise InvalidCRC.
Proof.
  unfold frame_of, FLAG_BYTE, deconstruct.
  change (Byte.eqb x7e x7e) with true. cbn [negb andb].
  rewrite slice_1_m1_frame. cbn [bind].
  rewrite unescape_escape. cbn [bind].
  rewrite (slice_last2_app _ _ Hlen), (slice_but_last2_app _ _ Hlen).
  unfold check_crc.
  destruct (compute_crc_two_bytes payload) as (lo & hi & E).
  rewrite E in *. cbn [bind].
  unfold bytes_eqb.
  destruct (list_eq_dec Byte.byte_eq_dec [lo; hi] crc) as [Heq | Hne];
    [ | reflexivity ].
  subst crc. contradiction Hwrong. reflexivity.
Qed.

Lemma deconstruct_rejects_wrong_crc_witness :
  deconstruct (frame_of [x00; x01; x00; x01; x00; x00; x00] [x85; x44]) true
  = Raise InvalidCRC.
Proof.
  apply (deconstruct_rejects_wrong_crc
           [x00; x01; x00; x01; x00; x00; x00] [x85; x44] eq_refl).
  vm_compute. discriminate.
Defined.

(** X7. The guard of [deconstruct]: on a non-empty buffer it raises
    [MissingFlagBytes] exactly when neither the first byte nor the last
    byte is 0x7E; on an empty buffer the indexing raises [IndexError]. *)
Theorem deconstruct_flag_guard (first : byte) (rest : bytes) (msb : bool) :
  (deconstruct (first :: rest) msb = Raise MissingFlagBytes
   <-> first <> FLAG_BYTE /\ last (first :: rest) first <> FLAG_BYTE)
  /\ deconstruct [] msb = Raise IndexError.
Proof.
  split; [ | reflexivity ].
  split.
  - intros H.
    destruct (Byte.byte_eq_dec first FLAG_BYTE) as [E1 | E1].
    + exfalso. exact (deconstruct_one_flag_enough _ _ _ (or_introl E1) H).
    + destruct (Byte.byte_eq_dec (last (first :: rest) first) FLAG_BYTE)
        as [E2 | E2]; [ | auto ].
      exfalso. exact (deconstruct_one_flag_enough _ _ _ (or_intror E2) H).
  - intros (H1 & H2). apply deconstruct_MissingFlagBytes; assumption.
Qed.

Lemma deconstruct_flag_guard_witness :
  deconstruct [x00; x01; x02] true = Raise MissingFlagBytes
  /\ deconstruct [x00; x01; x7e] true <> Raise MissingFlagBytes.
Proof.
  split.
  - apply (proj1 (deconstruct_flag_guard x00 [x01; x02] true)).
    split; discriminate.
  - intros H.
    apply (proj1 (deconstruct_flag_guard x00 [x01; x7e] true)) in H.
    destruct H as (_ & H). apply H. reflexivity.
Defined.

(* ================================================================== *)
(** * Further properties of the parser *)

(** X8. [parse_message] on a frame that [build] made, read with the
    matching bit order: an ID list the registry does not know gives
    [None] when unknown messages are ignored and [UnkownMessageID]
    otherwise; for a known one the registered decoder is run on the body
    and its result or its error is the result. *)
Theorem parse_message_of_built_frame
        {M : Type} (KNOWN_MESSAGE_TYPES : bytes -> option (bits -> result M))
        (ids : bytes) (body : bits) (lsb_ ignore_unknown : bool)
        (Hids : well_formed_ids ids)
        (Hwhole : (Nat.modulo (length body) 8 = 0)%nat) :
  exists frame,
    build ids body lsb_ = Ok frame
    /\ parse_message KNOWN_MESSAGE_TYPES frame (negb lsb_) ignore_unknown
       = match KNOWN_MESSAGE_TYPES ids with
         | None => if ignore_unknown then Ok None else Raise UnkownMessageID
         | Some deserialize_ =>
             match deserialize_ body with
             | Ok m => Ok (Some m)
             | Raise e => Raise e
             end
         end.
Proof.
  destruct (build_total ids body lsb_) as (frame & Hb).
  exists frame. split; [ exact Hb | ].
  unfold parse_message.
  rewrite (deconstruct_build _ _ _ _ Hids Hb).
  rewrite BitArray_of_bytes_tobytes by exact Hwhole. cbn [bind].
  destruct (KNOWN_MESSAGE_TYPES ids) as [d | ]; [ | reflexivity ].
  destruct (d body); reflexivity.
Qed.

Lemma parse_message_of_built_frame_witness :
  exists frame,
    build [x09] (BitArray_of_bytes [x01; x02]) false = Ok frame
    /\ parse_message (fun _ : bytes => @None (bits -> result bits))
                     frame true false
       = Raise UnkownMessageID.
Proof.
  apply (parse_message_of_built_frame
           (fun _ : bytes => @None (bits -> result bits))
           [x09] (BitArray_of_bytes [x01; x02]) false false).
  - left. exists x09. split; [ reflexivity | discriminate ].
  - reflexivity.
Defined.

Lemma count_occ_flag_region (region : bytes) :
  ~ In FLAG_BYTE region -> count_occ Byte.byte_eq_dec region FLAG_BYTE = 0%nat.
Proof.
  intros H. apply count_occ_not_In. exact H.
Qed.

Lemma count_occ_delimited (frame : bytes) :
  delimited frame -> count_occ Byte.byte_eq_dec frame FLAG_BYTE = 2%nat.
Proof.
  intros (region & -> & Hno).
  rewrite count_occ_cons_eq by reflexivity.
  rewrite count_occ_app, (count_occ_flag_region _ Hno).
  reflexivity.
Qed.

Lemma count_occ_concat_delimited (frames : list bytes) :
  Forall delimited frames ->
  count_occ Byte.byte_eq_dec (concat frames) FLAG_BYTE
  = (2 * length frames)%nat.
Proof.
  induction 1 as [ | f fs Hf _ IH]; [ reflexivity | ].
  cbn [concat length]. rewrite count_occ_app, IH, (count_occ_delimited _ Hf).
  lia.
Qed.

Lemma index_from_region (region rest : bytes) (start : nat) :
  ~ In FLAG_BYTE region ->
  index_from FLAG_BYTE (region ++ FLAG_BYTE :: rest) start
  = Ok (start + length region)%nat.
Proof.
  revert start. induction region as [ | b region IH]; intros start Hno.
  - cbn [app index_from length].
    change (Byte.eqb FLAG_BYTE FLAG_BYTE) with true. cbv iota.
    rewrite Nat.add_0_r. reflexivity.
  - cbn [app index_from length].
    destruct (Byte.eqb b FLAG_BYTE) eqn:E.
    + exfalso. apply Hno. left.
      apply Byte.byte_dec_bl in E. exact E.
    + rewrite IH by (intros Hin; apply Hno; right; exact Hin).
      rewrite Nat.add_succ_comm. reflexivity.
Qed.

Lemma index_flag_delimited (frame rest : bytes) :
  delimited frame ->
  exists i, index_flag_from_1 (frame ++ rest) = Ok i
            /\ firstn (i + 1) (frame ++ rest) = frame
            /\ skipn (i + 1) (frame ++ rest) = rest.
Proof.
  intros (region & -> & Hno).
  exists (1 + length region)%nat.
  assert (L : (1 + length region + 1)%nat
              = length (FLAG_BYTE :: region ++ [FLAG_BYTE])).
  { cbn [length]. rewrite length_app. cbn [length]. lia. }
  split; [ | split ].
  - unfold index_flag_from_1. cbn [app tl].
    rewrite <- app_assoc. cbn [app].
    apply index_from_region. exact Hno.
  - rewrite L, firstn_app, firstn_all, Nat.sub_diag.
    cbn [firstn]. apply app_nil_r.
  - rewrite L, skipn_app, skipn_all, Nat.sub_diag. reflexivity.
Qed.

Lemma parse_loop_concat
      {M : Type} (KNOWN_MESSAGE_TYPES : bytes -> option (bits -> result M))
      (frames : list bytes) (tail : bytes) (msb ignore_unknown : bool)
      (output : list M) :
  Forall delimited frames ->
  parse_loop KNOWN_MESSAGE_TYPES (length frames) (concat frames ++ tail)
             msb ignore_unknown output
  = (rest <- parse_each KNOWN_MESSAGE_TYPES frames msb ignore_unknown ;;
     Ok (output ++ rest)).
Proof.
  intros Hall. revert output.
  induction Hall as [ | f fs Hf _ IH]; intros output.
  - cbn [length parse_loop parse_each bind]. rewrite app_nil_r. reflexivity.
  - cbn [length concat parse_loop parse_each].
    rewrite <- app_assoc.
    destruct (index_flag_delimited f (concat fs ++ tail) Hf)
      as (i & Ei & Ef & Es).
    rewrite Ei. cbn [bind]. rewrite Ef, Es.
    destruct (parse_message KNOWN_MESSAGE_TYPES f msb ignore_unknown)
      as [[m | ] | e]; cbn [bind]; [ | | reflexivity ].
    + rewrite IH.
      destruct (parse_each KNOWN_MESSAGE_TYPES fs msb ignore_unknown);
        cbn [bind]; [ | reflexivity ].
      rewrite <- app_assoc. reflexivity.
    + rewrite IH.
      destruct (parse_each KNOWN_MESSAGE_TYPES fs msb ignore_unknown);
        reflexivity.
Qed.

(** X9. [parse_messages] on delimited frames put end to end parses each
    frame in turn: the messages come in the order of the frames, ignored
    frames leave no entry, and the first frame that fails gives the
    error.  Bytes after the last frame that hold at most one flag byte
    (an incomplete frame) are dropped without an error. *)
Theorem parse_messages_concat
        {M : Type} (KNOWN_MESSAGE_TYPES : bytes -> option (bits -> result M))
        (frames : list bytes) (tail : bytes) (msb ignore_unknown : bool)
        (Hframes : Forall delimited frames)
        (Htail : (count_occ Byte.byte_eq_dec tail FLAG_BYTE <= 1)%nat) :
  parse_messages KNOWN_MESSAGE_TYPES (concat frames ++ tail)
                 msb ignore_unknown
  = parse_each KNOWN_MESSAGE_TYPES frames msb ignore_unknown.
Proof.
  unfold parse_messages.
  rewrite count_occ_app, (count_occ_concat_delimited _ Hframes).
  replace (Nat.div (2 * length frames
                    + count_occ Byte.byte_eq_dec tail FLAG_BYTE) 2)
    with (length frames).
  - rewrite (parse_loop_concat _ _ _ _ _ _ Hframes).
    destruct (parse_each KNOWN_MESSAGE_TYPES frames msb ignore_unknown);
      reflexivity.
  - symmetry. rewrite Nat.mul_comm, Nat.div_add_l by discriminate.
    rewrite Nat.div_small by lia. lia.
Qed.

Lemma parse_messages_concat_witness :
  parse_messages (fun _ : bytes => Some (fun body : bits => Ok body))
                 (concat [[x7e; x00; x7e]; [x7e; x7e]] ++ [x7e; x01])
                 true false
  = parse_each (fun _ : bytes => Some (fun body : bits => Ok body))
               [[x7e; x00; x7e]; [x7e; x7e]] true false.
Proof.
  apply (parse_messages_concat
           (fun _ : bytes => Some (fun body : bits => Ok body))
           [[x7e; x00; x7e]; [x7e; x7e]] [x7e; x01] true false).
  - repeat constructor.
    + exists [x00]. split; [ reflexivity | ].
      intros [H | []]. discriminate H.
    + exists []. split; [ reflexivity | ]. intros [].
  - cbn. lia.
Defined.

(* ================================================================== *)
(** * Further properties of the field codecs *)

Lemma serialize_uint_negative (value : Z) (n : nat) (constrain : bool) :
  value < 0 ->
  BaseMessage._serialize_uint value n constrain = Raise UnexpectedNegative.
Proof.
  intros Hneg. unfold BaseMessage._serialize_uint.
  destruct (Z.ltb_spec value 0); [ reflexivity | lia ].
Qed.

Lemma serialize_uint_strict (value : Z) (n : nat) :
  0 <= value <= 2 ^ Z.of_nat n - 1 ->
  BaseMessage._serialize_uint value n false = Ok (uint_bits n value).
Proof.
  intros Hv. unfold BaseMessage._serialize_uint, BitArray_uint.
  destruct (Z.ltb_spec value 0); [ lia | ].
  destruct (Z.gtb_spec value (2 ^ Z.of_nat n - 1)); [ lia | ].
  cbn [orb].
  destruct (Z.leb_spec (2 ^ Z.of_nat n) value); [ lia | reflexivity ].
Qed.

Lemma serialize_uint_too_big (value : Z) (n : nat) :
  2 ^ Z.of_nat n - 1 < value ->
  BaseMessage._serialize_uint value n false = Raise BadIntegerSize.
Proof.
  intros Hv. unfold BaseMessage._serialize_uint.
  assert (Hp : 0 < 2 ^ Z.of_nat n) by (apply Z.pow_pos_nonneg; lia).
  destruct (Z.ltb_spec value 0); [ lia | ].
  destruct (Z.gtb_spec value (2 ^ Z.of_nat n - 1)); [ reflexivity | lia ].
Qed.

(** X10. Unsigned fields of a positive width [n].  A negative value is
    refused with [UnexpectedNegative] whatever the mode.  With
    [constrain] a value that is not negative is always written, on [n]
    bits, and read back as the smaller of the value and [2^n - 1].
    Without [constrain] a value up to [2^n - 1] is written the same way
    and a larger one is refused with [BadIntegerSize]. *)
Theorem serialize_uint_codec (value : Z) (n : nat) (Hn : (0 < n)%nat) :
  (value < 0 ->
   forall constrain,
     BaseMessage._serialize_uint value n constrain = Raise UnexpectedNegative)
  /\ (0 <= value ->
      exists ba,
        BaseMessage._serialize_uint value n true = Ok ba
        /\ length ba = n
        /\ BaseMessage._deserialize_uint ba
           = Ok (Z.min value (2 ^ Z.of_nat n - 1)))
  /\ (0 <= value <= 2 ^ Z.of_nat n - 1 ->
      BaseMessage._serialize_uint value n false
      = BaseMessage._serialize_uint value n true)
  /\ (2 ^ Z.of_nat n - 1 < value ->
      BaseMessage._serialize_uint value n false = Raise BadIntegerSize).
Proof.
  assert (Hp : 0 < 2 ^ Z.of_nat n) by (apply Z.pow_pos_nonneg; lia).
  split; [ | split; [ | split ] ].
  - intros Hneg constrain. unfold BaseMessage._serialize_uint.
    destruct (Z.ltb_spec value 0); [ reflexivity | lia ].
  - intros Hv. exists (uint_bits n (Z.min value (2 ^ Z.of_nat n - 1))).
    split; [ apply serialize_uint_constrain; exact Hv | ].
    split; [ apply uint_bits_length | ].
    unfold BaseMessage._deserialize_uint.
    rewrite BitArray_get_uint_nonempty by (apply uint_bits_nonempty; exact Hn).
    rewrite bits_to_Z_uint_bits, Z.mod_small by lia. reflexivity.
  - intros Hv. unfold BaseMessage._serialize_uint.
    destruct (Z.ltb_spec value 0); [ lia | ].
    destruct (Z.gtb_spec value (2 ^ Z.of_nat n - 1)); [ lia | ].
    rewrite Z.min_l by lia. reflexivity.
  - intros Hv. unfold BaseMessage._serialize_uint.
    destruct (Z.ltb_spec value 0); [ lia | ].
    destruct (Z.gtb_spec value (2 ^ Z.of_nat n - 1)); [ reflexivity | lia ].
Qed.

Lemma serialize_uint_codec_witness :
  BaseMessage._serialize_uint (-1) 8 false = Raise UnexpectedNegative
  /\ (exists ba,
        BaseMessage._serialize_uint 300 8 true = Ok ba
        /\ length ba = 8%nat
        /\ BaseMessage._deserialize_uint ba = Ok (Z.min 300 (2 ^ 8 - 1)))
  /\ BaseMessage._serialize_uint 255 8 false
     = BaseMessage._serialize_uint 255 8 true
  /\ BaseMessage._serialize_uint 256 8 false = Raise BadIntegerSize.
Proof.
  refine (conj (proj1 (serialize_uint_codec (-1) 8 _) _ false)
          (conj (proj1 (proj2 (serialize_uint_codec 300 8 _)) _)
           (conj (proj1 (proj2 (proj2 (serialize_uint_codec 255 8 _))) _)
                 (proj2 (proj2 (proj2 (serialize_uint_codec 256 8 _))) _))));
    cbn; lia.
Defined.

(** X11. Signed fields of a positive width [n].  With [constrain] every
    value is written, on [n] bits, and read back saturated to the range
    from [-2^(n-1)] to [2^(n-1) - 1].  Without [constrain] a value in
    that range is written the same way and read back unchanged, and a
    value outside is refused with [BadIntegerSize]. *)
Theorem serialize_int_codec (value : Z) (n : nat) (Hn : (0 < n)%nat) :
  (exists ba,
      BaseMessage._serialize_int value n true = Ok ba
      /\ length ba = n
      /\ BaseMessage._deserialize_int ba = Ok (saturate n value))
  /\ (- 2 ^ (Z.of_nat n - 1) <= value < 2 ^ (Z.of_nat n - 1) ->
      BaseMessage._serialize_int value n false
      = BaseMessage._serialize_int value n true
      /\ saturate n value = value)
  /\ (value < - 2 ^ (Z.of_nat n - 1) \/ 2 ^ (Z.of_nat n - 1) <= value ->
      BaseMessage._serialize_int value n false = Raise BadIntegerSize).
Proof.
  assert (Hp : 0 < 2 ^ (Z.of_nat n - 1)) by (apply Z.pow_pos_nonneg; lia).
  split; [ | split ].
  - exists (uint_bits n (saturate n value)).
    split; [ apply serialize_int_constrain; exact Hn | ].
    split; [ apply uint_bits_length | ].
    unfold BaseMessage._deserialize_int.
    apply BitArray_get_int_uint_bits; [ exact Hn | ].
    apply saturate_range; exact Hn.
  - intros Hv.
    assert (Es : saturate n value = value) by (unfold saturate; lia).
    split; [ | exact Es ].
    rewrite serialize_int_constrain by exact Hn. rewrite Es.
    unfold BaseMessage._serialize_int, BitArray_int.
    destruct (Z.gtb_spec value (2 ^ (Z.of_nat n - 1) - 1)); [ lia | ].
    destruct (Z.ltb_spec value (0 - 2 ^ (Z.of_nat n - 1))); [ lia | ].
    destruct (Z.ltb_spec value (- 2 ^ (Z.of_nat n - 1))); [ lia | ].
    destruct (Z.leb_spec (2 ^ (Z.of_nat n - 1)) value); [ lia | ].
    reflexivity.
  - intros Hv. unfold BaseMessage._serialize_int.
    destruct (Z.gtb_spec value (2 ^ (Z.of_nat n - 1) - 1));
      [ reflexivity | ].
    destruct (Z.ltb_spec value (0 - 2 ^ (Z.of_nat n - 1)));
      [ reflexivity | lia ].
Qed.

Lemma serialize_int_codec_witness :
  (exists ba,
      BaseMessage._serialize_int 40000 16 true = Ok ba
      /\ length ba = 16%nat
      /\ BaseMessage._deserialize_int ba = Ok (saturate 16 40000))
  /\ (BaseMessage._serialize_int (-32768) 16 false
      = BaseMessage._serialize_int (-32768) 16 true
      /\ saturate 16 (-32768) = -32768)
  /\ BaseMessage._serialize_int 32768 16 false = Raise BadIntegerSize.
Proof.
  refine (conj (proj1 (serialize_int_codec 40000 16 _))
          (conj (proj1 (proj2 (serialize_int_codec (-32768) 16 _)) _)
                (proj2 (proj2 (serialize_int_codec 32768 16 _)) _)));
    cbn; lia.
Defined.

Ltac eight_bits ba H :=
  do 8 (destruct ba as [ | ? ba]; [ discriminate H | ]);
  destruct ba; [ clear H | discriminate H ].

Ltac four_bits ba H :=
  do 4 (destruct ba as [ | ? ba]; [ discriminate H | ]);
  destruct ba; [ clear H | discriminate H ].

Ltac all_patterns :=
  repeat match goal with
         | b : bool |- _ => destruct b
         end;
  cbn;
  first [ reflexivity | split; [ reflexivity | lia ] ].

(** X12. Enumeration fields.  Every member of the six enumerations is
    written as its value and read back.  Reading a field never gives a
    member with another value than the field's; it fails, with
    [ValueError], exactly on the values that no member has: 6 and above
    for an address type, 12 and above for an integrity or an accuracy, 7
    and above for an emergency code (four bits each), and 8, 13, 16 and
    22 and above for an emitter category (eight bits). *)
Theorem enum_fields_codec :
  (forall m, _serialize_enum AddressType_enum m 4
             = Ok (uint_bits 4 (AddressType.value m))
             /\ _deserialize_enum AddressType_enum
                  (uint_bits 4 (AddressType.value m)) = Ok m)
  /\ (forall m, _serialize_enum Integrity_enum m 4
                = Ok (uint_bits 4 (Integrity.value m))
                /\ _deserialize_enum Integrity_enum
                     (uint_bits 4 (Integrity.value m)) = Ok m)
  /\ (forall m, _serialize_enum Accuracy_enum m 4
                = Ok (uint_bits 4 (Accuracy.value m))
                /\ _deserialize_enum Accuracy_enum
                     (uint_bits 4 (Accuracy.value m)) = Ok m)
  /\ (forall m, _serialize_enum EmergencyPriorityCode_enum m 4
                = Ok (uint_bits 4 (EmergencyPriorityCode.value m))
                /\ _deserialize_enum EmergencyPriorityCode_enum
                     (uint_bits 4 (EmergencyPriorityCode.value m)) = Ok m)
  /\ (forall m, _serialize_enum EmitterCategory_enum m 8
                = Ok (uint_bits 8 (EmitterCategory.value m))
                /\ _deserialize_enum EmitterCategory_enum
                     (uint_bits 8 (EmitterCategory.value m)) = Ok m)
  /\ (forall m, _serialize_enum TrackType_enum m 2
                = Ok (uint_bits 2 (TrackType.value m))
                /\ _deserialize_enum TrackType_enum
                     (uint_bits 2 (TrackType.value m)) = Ok m)
  /\ (forall ba, length ba = 4%nat ->
        match _deserialize_enum AddressType_enum ba with
        | Ok m => AddressType.value m = bits_to_Z ba
        | Raise e => e = ValueError /\ 6 <= bits_to_Z ba
        end)
  /\ (forall ba, length ba = 4%nat ->
        match _deserialize_enum Integrity_enum ba with
        | Ok m => Integrity.value m = bits_to_Z ba
        | Raise e => e = ValueError /\ 12 <= bits_to_Z ba
        end)
  /\ (forall ba, length ba = 4%nat ->
        match _deserialize_enum Accuracy_enum ba with
        | Ok m => Accuracy.value m = bits_to_Z ba
        | Raise e => e = ValueError /\ 12 <= bits_to_Z ba
        end)
  /\ (forall ba, length ba = 4%nat ->
        match _deserialize_enum EmergencyPriorityCode_enum ba with
        | Ok m => EmergencyPriorityCode.value m = bits_to_Z ba
        | Raise e => e = ValueError /\ 7 <= bits_to_Z ba
        end)
  /\ (forall ba, length ba = 8%nat ->
        match _deserialize_enum EmitterCategory_enum ba with
        | Ok m => EmitterCategory.value m = bits_to_Z ba
        | Raise e =>
            e = ValueError
            /\ (bits_to_Z ba = 8 \/ bits_to_Z ba = 13 \/ bits_to_Z ba = 16
                \/ 22 <= bits_to_Z ba)
        end).
Proof.
  split; [ exact TrafficFacts.AddressType_round_trip | ].
  split; [ exact TrafficFacts.Integrity_round_trip | ].
  split; [ exact TrafficFacts.Accuracy_round_trip | ].
  split; [ exact TrafficFacts.EmergencyPriorityCode_round_trip | ].
  split; [ exact TrafficFacts.EmitterCategory_round_trip | ].
  split; [ exact TrafficFacts.TrackType_round_trip | ].
  split; [ intros ba H; four_bits ba H; all_patterns | ].
  split; [ intros ba H; four_bits ba H; all_patterns | ].
  split; [ intros ba H; four_bits ba H; all_patterns | ].
  split; [ intros ba H; four_bits ba H; all_patterns | ].
  intros ba H; eight_bits ba H; all_patterns.
Qed.

Lemma enum_fields_codec_witness :
  match _deserialize_enum EmitterCategory_enum (uint_bits 8 13) with
  | Ok m => EmitterCategory.value m = bits_to_Z (uint_bits 8 13)
  | Raise e =>
      e = ValueError
      /\ (bits_to_Z (uint_bits 8 13) = 8 \/ bits_to_Z (uint_bits 8 13) = 13
          \/ bits_to_Z (uint_bits 8 13) = 16
          \/ 22 <= bits_to_Z (uint_bits 8 13))
  end.
Proof.
  apply (proj2 (proj2 (proj2 (proj2 (proj2 (proj2 (proj2 (proj2 (proj2
           (proj2 enum_fields_codec)))))))))
           (uint_bits 8 13)).
  reflexivity.
Defined.

(** X13. Text fields.  A text of ASCII characters written on [n] whole
    bytes is padded on the right with spaces, or cut after [n]
    characters, into exactly [n] bytes, with either encoding; reading
    the field gives the padded or cut text back. *)
Theorem serialize_str_codec (value : str) (nbytes : nat) (e : encoding)
        (Hascii : is_ascii_str value = true) :
  exists ba,
    BaseMessage._serialize_str value (8 * nbytes) e = Ok ba
    /\ length ba = (8 * nbytes)%nat
    /\ BaseMessage._deserialize_str_ascii ba
       = Ok (firstn nbytes (value ++ repeat SPACE (nbytes - length value))).
Proof.
  unfold is_ascii_str in Hascii.
  rewrite (serialize_str_ascii value nbytes e Hascii).
  set (padded := firstn nbytes (value ++ repeat SPACE (nbytes - length value))).
  assert (Hp : forallb is_ascii_char padded = true).
  { apply forallb_firstn, forallb_app_repeat;
      [ exact Hascii | exact space_ascii ]. }
  assert (Hl : length padded = nbytes).
  { subst padded. rewrite length_firstn, length_app, repeat_length. lia. }
  eexists. split; [ reflexivity | ]. split.
  - rewrite BitArray_of_bytes_length, length_map, Hl. reflexivity.
  - unfold BaseMessage._deserialize_str_ascii.
    rewrite BitArray_bytes_of_bytes. cbn [bind].
    apply bytes_decode_ascii_map. exact Hp.
Qed.

Lemma serialize_str_codec_witness :
  exists ba,
    BaseMessage._serialize_str (text "N123"%string) (8 * 8) enc_ascii = Ok ba
    /\ length ba = (8 * 8)%nat
    /\ BaseMessage._deserialize_str_ascii ba
       = Ok (firstn 8 (text "N123"%string
                       ++ repeat SPACE (8 - length (text "N123"%string)))).
Proof.
  apply (serialize_str_codec (text "N123"%string) 8 enc_ascii). reflexivity.
Defined.

(* ================================================================== *)
(** * Further properties of the messages *)

Lemma serialize_uint_clamp_idem (v : Z) (n : nat) :
  0 <= v ->
  BaseMessage._serialize_uint (Z.min v (2 ^ Z.of_nat n - 1)) n true
  = BaseMessage._serialize_uint v n true.
Proof.
  intros Hv.
  assert (Hp : 0 < 2 ^ Z.of_nat n) by (apply Z.pow_pos_nonneg; lia).
  rewrite !serialize_uint_constrain by lia.
  rewrite Z.min_l by lia. reflexivity.
Qed.

Lemma heartbeat_read_back_body (r : HeartbeatMessage.t) :
  0 <= HeartbeatMessage.uplink_messages_count r ->
  0 <= HeartbeatMessage.basic_long_messages_count r ->
  HeartbeatMessage.body (heartbeat_read_back r) = HeartbeatMessage.body r.
Proof.
  intros Hu Hb.
  unfold HeartbeatMessage.body, HeartbeatMessage._serialize_timestamp,
    HeartbeatMessage._serialize_uplink_messages_count,
    HeartbeatMessage._serialize_basic_long_messages_count,
    heartbeat_read_back.
  cbn [HeartbeatMessage.gps_position_valid
       HeartbeatMessage.maintenance_required
       HeartbeatMessage.ident_talkback
       HeartbeatMessage.self_assigned_address_talkback
       HeartbeatMessage.gps_battery_low
       HeartbeatMessage.RATCS_talkback
       HeartbeatMessage.UAT_initialized
       HeartbeatMessage.CSA_requested
       HeartbeatMessage.CSA_unavailable
       HeartbeatMessage.UTC_timing_valid
       HeartbeatMessage.timestamp
       HeartbeatMessage.uplink_messages_count
       HeartbeatMessage.basic_long_messages_count].
  change (Z.min (HeartbeatMessage.uplink_messages_count r) 31)
    with (Z.min (HeartbeatMessage.uplink_messages_count r)
                (2 ^ Z.of_nat HeartbeatMessage.UPLINK_MESSAGES_COUNT_BITS - 1)).
  change (Z.min (HeartbeatMessage.basic_long_messages_count r) 1023)
    with (Z.min (HeartbeatMessage.basic_long_messages_count r)
                (2 ^ Z.of_nat HeartbeatMessage.BASIC_LONG_MESSAGES_COUNT_BITS
                 - 1)).
  rewrite (serialize_uint_clamp_idem
             (HeartbeatMessage.uplink_messages_count r)
             HeartbeatMessage.UPLINK_MESSAGES_COUNT_BITS Hu).
  rewrite (serialize_uint_clamp_idem
             (HeartbeatMessage.basic_long_messages_count r)
             HeartbeatMessage.BASIC_LONG_MESSAGES_COUNT_BITS Hb).
  reflexivity.
Qed.

(** X14. The Heartbeat round trip.  For a time of day in whole seconds
    and message counts that are not negative, [serialize] succeeds and
    the frame deserializes, with the matching bit order, to the same
    record except that the uplink count is cut to 31 and the basic and
    long count to 1023; when the counts fit, the record comes back
    unchanged. *)
Theorem heartbeat_round_trip_saturating
        (r : HeartbeatMessage.t) (lsb_ : bool)
        (Hh : 0 <= datetime.hour (HeartbeatMessage.timestamp r) <= 23)
        (Hm : 0 <= datetime.minute (HeartbeatMessage.timestamp r) <= 59)
        (Hs : 0 <= datetime.second (HeartbeatMessage.timestamp r) <= 59)
        (Hus : datetime.microsecond (HeartbeatMessage.timestamp r) = 0)
        (Htz : datetime.tzinfo_UTC (HeartbeatMessage.timestamp r) = true)
        (Hu : 0 <= HeartbeatMessage.uplink_messages_count r)
        (Hb : 0 <= HeartbeatMessage.basic_long_messages_count r) :
  (exists frame,
      HeartbeatMessage.serialize r lsb_ = Ok frame
      /\ HeartbeatMessage.deserialize frame (negb lsb_)
         = Ok (heartbeat_read_back r))
  /\ (HeartbeatMessage.uplink_messages_count r <= 31 ->
      HeartbeatMessage.basic_long_messages_count r <= 1023 ->
      heartbeat_read_back r = r).
Proof.
  split.
  - assert (Hv : heartbeat_valid (heartbeat_read_back r)).
    { unfold heartbeat_valid, heartbeat_read_back.
      cbn [HeartbeatMessage.timestamp HeartbeatMessage.uplink_messages_count
           HeartbeatMessage.basic_long_messages_count].
      change (2 ^ 5) with 32. change (2 ^ 10) with 1024.
      repeat split; try assumption; lia. }
    destruct (heartbeat_round_trip (heartbeat_read_back r) lsb_ Hv)
      as (frame & Sf & Df).
    exists frame. split; [ | exact Df ].
    unfold HeartbeatMessage.serialize in *.
    rewrite <- (heartbeat_read_back_body r Hu Hb). exact Sf.
  - intros Hu' Hb'. unfold heartbeat_read_back.
    rewrite !Z.min_l by assumption. destruct r; reflexivity.
Qed.

Lemma heartbeat_round_trip_saturating_witness :
  (exists frame,
      HeartbeatMessage.serialize heartbeat_server_example false = Ok frame
      /\ HeartbeatMessage.deserialize frame true
         = Ok (heartbeat_read_back heartbeat_server_example))
  /\ HeartbeatMessage.uplink_messages_count
       (heartbeat_read_back heartbeat_server_example) = 31.
Proof.
  split; [ | reflexivity ].
  apply (heartbeat_round_trip_saturating heartbeat_server_example false);
    cbn; first [ reflexivity | lia ].
Defined.

(** X15. The time of day of a received Heartbeat.  A 17-bit time stamp
    below 86400 is read as the UTC time of day with that many seconds
    since midnight; a time stamp of 86400 or more, which the 17 bits can
    hold, makes [_deserialize_timestamp] fail with [ValueError]. *)
Theorem heartbeat_deserialize_timestamp (ba : bits)
        (Hlen : length ba = 17%nat) :
  match HeartbeatMessage._deserialize_timestamp ba with
  | Ok time =>
      0 <= datetime.hour time <= 23
      /\ 0 <= datetime.minute time <= 59
      /\ 0 <= datetime.second time <= 59
      /\ datetime.microsecond time = 0
      /\ datetime.tzinfo_UTC time = true
      /\ datetime.hour time * 3600 + datetime.minute time * 60
         + datetime.second time = bits_to_Z ba
  | Raise e => e = ValueError /\ 86400 <= bits_to_Z ba
  end.
Proof.
  unfold HeartbeatMessage._deserialize_timestamp, BaseMessage._deserialize_uint.
  rewrite BitArray_get_uint_nonempty
    by (apply (nonempty_of_length _ 17); [ exact Hlen | lia ]).
  cbn [bind].
  change HeartbeatMessage.SECONDS_PER_HOUR with 3600.
  change HeartbeatMessage.SECONDS_PER_MINUTE with 60.
  pose proof (bits_to_Z_range ba) as Hr.
  set (total := bits_to_Z ba) in *.
  pose proof (Z.div_mod total 3600 ltac:(lia)) as E1.
  pose proof (Z.mod_pos_bound total 3600 ltac:(lia)) as B1.
  pose proof (Z.div_mod (total mod 3600) 60 ltac:(lia)) as E2.
  pose proof (Z.mod_pos_bound (total mod 3600) 60 ltac:(lia)) as B2.
  set (h := total / 3600) in *.
  set (rem := total mod 3600) in *.
  set (m := rem / 60) in *.
  set (s := rem mod 60) in *.
  unfold datetime.make.
  destruct (Z.leb_spec 0 h); destruct (Z.leb_spec h 23);
    destruct (Z.leb_spec 0 m); destruct (Z.leb_spec m 59);
    destruct (Z.leb_spec 0 s); destruct (Z.leb_spec s 59);
    cbn [andb datetime.hour datetime.minute datetime.second
         datetime.microsecond datetime.tzinfo_UTC];
    first [ repeat split; lia | split; [ reflexivity | lia ] ].
Qed.

Lemma heartbeat_deserialize_timestamp_witness :
  match HeartbeatMessage._deserialize_timestamp (uint_bits 17 86400) with
  | Ok time =>
      0 <= datetime.hour time <= 23
      /\ 0 <= datetime.minute time <= 59
      /\ 0 <= datetime.second time <= 59
      /\ datetime.microsecond time = 0
      /\ datetime.tzinfo_UTC time = true
      /\ datetime.hour time * 3600 + datetime.minute time * 60
         + datetime.second time = bits_to_Z (uint_bits 17 86400)
  | Raise e => e = ValueError /\ 86400 <= bits_to_Z (uint_bits 17 86400)
  end.
Proof.
  apply (heartbeat_deserialize_timestamp (uint_bits 17 86400)). reflexivity.
Defined.

Lemma height_above_terrain_field (ba : bits) :
  ba <> [] ->
  HeightAboveTerrainMessage._deserialize_height_above_terrain ba
  = Ok (if bits_to_Z ba =? 0x8000 then None
        else Some (twos_complement (length ba) (bits_to_Z ba))).
Proof.
  intros Hne.
  unfold HeightAboveTerrainMessage._deserialize_height_above_terrain.
  rewrite BitArray_get_uint_nonempty by exact Hne. cbn [bind].
  unfold HeightAboveTerrainMessage.HEIGHT_ABOVE_TERRAIN_INVALID_VALUE.
  destruct (bits_to_Z ba =? 32768); [ reflexivity | ].
  unfold BaseMessage._deserialize_int.
  rewrite BitArray_get_int_twos_complement by exact Hne.
  reflexivity.
Qed.

Lemma well_formed_single (i : byte) :
  i <> FOREFLIGHT_MESSAGE_ID -> well_formed_ids [i].
Proof.
  intros H. left. exists i. split; [ reflexivity | exact H ].
Qed.

(** X16. The Height Above Terrain round trip.  [serialize] never fails.
    "No data" is read back as "no data"; a height above -32768 ft is
    read back cut to at most 32767 ft; a height of -32768 ft or below
    saturates to the pattern 0x8000, which is the "no data" pattern, and
    is read back as "no data". *)
Theorem height_above_terrain_round_trip
        (r : HeightAboveTerrainMessage.t) (lsb_ : bool) :
  exists frame,
    HeightAboveTerrainMessage.serialize r lsb_ = Ok frame
    /\ HeightAboveTerrainMessage.deserialize frame (negb lsb_)
       = Ok {| HeightAboveTerrainMessage.height_above_terrain :=
                 match HeightAboveTerrainMessage.height_above_terrain r with
                 | None => None
                 | Some h =>
                     if h <=? -32768 then None else Some (Z.min h 32767)
                 end |}.
Proof.
  assert (Hs : exists body,
             HeightAboveTerrainMessage._serialize_height_above_terrain r
             = Ok body
             /\ length body = 16%nat
             /\ HeightAboveTerrainMessage._deserialize_height_above_terrain
                  body
                = Ok match HeightAboveTerrainMessage.height_above_terrain r
                     with
                     | None => None
                     | Some h =>
                         if h <=? -32768 then None else Some (Z.min h 32767)
                     end).
  { unfold HeightAboveTerrainMessage._serialize_height_above_terrain.
    destruct (HeightAboveTerrainMessage.height_above_terrain r) as [h | ].
    - unfold HeightAboveTerrainMessage.HEIGHT_ABOVE_TERRAIN_BITS.
      rewrite serialize_int_constrain by lia.
      exists (uint_bits 16 (saturate 16 h)).
      split; [ reflexivity | ]. split; [ apply uint_bits_length | ].
      rewrite height_above_terrain_field
        by (apply uint_bits_nonempty; lia).
      rewrite uint_bits_length, bits_to_Z_uint_bits.
      pose proof (saturate_range 16 h ltac:(lia)) as Hr.
      rewrite twos_complement_of_signed by (try exact Hr; lia).
      change (Z.of_nat 16 - 1) with 15 in Hr.
      change (2 ^ 15) with 32768 in Hr.
      change (2 ^ Z.of_nat 16) with 65536.
      unfold saturate in *.
      change (2 ^ (Z.of_nat 16 - 1)) with 32768 in *.
      destruct (Z.leb_spec h (-32768)) as [Hlow | Hhigh].
      + rewrite Z.max_r by lia. reflexivity.
      + rewrite Z.max_l by lia.
        destruct (Z.eqb_spec (Z.min h (32768 - 1) mod 65536) 32768)
          as [E | E].
        * exfalso.
          destruct (Z.neg_nonneg_cases (Z.min h (32768 - 1))) as [Hn | Hp].
          -- rewrite <- (Z.mod_add _ 1) in E by lia.
             rewrite Z.mod_small in E by lia. lia.
          -- rewrite Z.mod_small in E by lia. lia.
        * reflexivity.
    - eexists. split; [ vm_compute; reflexivity | ].
      split; reflexivity. }
  destruct Hs as (body & Sb & Lb & Db).
  destruct (build_total HeightAboveTerrainMessage.MESSAGE_IDS body lsb_)
    as (frame & Hf).
  exists frame. split.
  - unfold HeightAboveTerrainMessage.serialize. rewrite Sb. exact Hf.
  - unfold HeightAboveTerrainMessage.deserialize.
    rewrite (clean_data_build HeightAboveTerrainMessage.MESSAGE_IDS _ _ _
               (well_formed_single x09 ltac:(discriminate))
               ltac:(rewrite Lb; reflexivity) Hf).
    cbn [bind].
    unfold run_reader, HeightAboveTerrainMessage.read_body,
      HeightAboveTerrainMessage.HEIGHT_ABOVE_TERRAIN_BITS.
    rewrite (rbind_field_last _ _ _ _ _ Lb Db).
    reflexivity.
Qed.

(** X17. A Height Above Terrain frame whose body has not two bytes.  A
    longer body is refused with [DataTooLong]; an empty body fails with
    the [InterpretError] of the bit array; a one-byte body is accepted
    and read as a signed 8-bit height. *)
Theorem height_above_terrain_body_size (body : bits) (lsb_ : bool)
        (Hwhole : (Nat.modulo (length body) 8 = 0)%nat) :
  exists frame,
    build HeightAboveTerrainMessage.MESSAGE_IDS body lsb_ = Ok frame
    /\ ((16 < length body)%nat ->
        HeightAboveTerrainMessage.deserialize frame (negb lsb_)
        = Raise DataTooLong)
    /\ (body = [] ->
        HeightAboveTerrainMessage.deserialize frame (negb lsb_)
        = Raise InterpretError)
    /\ (length body = 8%nat ->
        HeightAboveTerrainMessage.deserialize frame (negb lsb_)
        = Ok {| HeightAboveTerrainMessage.height_above_terrain :=
                  Some (twos_complement 8 (bits_to_Z body)) |}).
Proof.
  destruct (build_total HeightAboveTerrainMessage.MESSAGE_IDS body lsb_)
    as (frame & Hf).
  exists frame. split; [ exact Hf | ].
  unfold HeightAboveTerrainMessage.deserialize.
  rewrite (clean_data_build HeightAboveTerrainMessage.MESSAGE_IDS _ _ _
             (well_formed_single x09 ltac:(discriminate)) Hwhole Hf).
  cbn [bind].
  unfold run_reader, HeightAboveTerrainMessage.read_body,
    HeightAboveTerrainMessage.HEIGHT_ABOVE_TERRAIN_BITS.
  split; [ | split ].
  - intros Hlong.
    rewrite <- (firstn_skipn 16 body) at 1.
    assert (L : length (firstn 16 body) = 16%nat)
      by (rewrite length_firstn; lia).
    rewrite (rbind_field _ _ _ _ _ _ L
               (height_above_terrain_field _
                  (nonempty_of_length _ 16 L ltac:(lia)))).
    unfold finish.
    destruct (skipn 16 body) eqn:Es; [ | reflexivity ].
    apply (f_equal (@length bool)) in Es.
    rewrite length_skipn in Es. cbn [length] in Es. lia.
  - intros ->. reflexivity.
  - intros L8.
    unfold rbind, field, pop_bits.
    rewrite firstn_all2, skipn_all2 by lia.
    rewrite height_above_terrain_field
      by (apply (nonempty_of_length _ 8); [ exact L8 | lia ]).
    cbn [bind]. rewrite L8.
    pose proof (bits_to_Z_range body) as Hr. rewrite L8 in Hr.
    change (2 ^ Z.of_nat 8) with 256 in Hr.
    destruct (Z.eqb_spec (bits_to_Z body) 32768); [ lia | ].
    reflexivity.
Qed.

Lemma height_above_terrain_body_size_witness :
  exists frame,
    build HeightAboveTerrainMessage.MESSAGE_IDS (uint_bits 24 5) false
    = Ok frame
    /\ HeightAboveTerrainMessage.deserialize frame true = Raise DataTooLong.
Proof.
  destruct (height_above_terrain_body_size (uint_bits 24 5) false eq_refl)
    as (frame & Hf & Hlong & _).
  exists frame. split; [ exact Hf | ].
  apply Hlong. cbn. lia.
Defined.

Lemma clean_data_other_ids (ids expected : bytes) (body : bits)
      (lsb_ : bool) (frame : bytes) :
  well_formed_ids ids -> ids <> expected ->
  build ids body lsb_ = Ok frame ->
  BaseMessage._clean_data expected frame (negb lsb_) = Raise InvalidMessageID.
Proof.
  intros Hids Hne Hf. unfold BaseMessage._clean_data.
  rewrite (deconstruct_build _ _ _ _ Hids Hf). cbn [bind].
  unfold bytes_eqb.
  destruct (list_eq_dec Byte.byte_eq_dec ids expected); [ contradiction | ].
  reflexivity.
Qed.

(** X18. A frame built for other message IDs than those of a message
    class is refused by the [deserialize] of that class with
    [InvalidMessageID], whatever its body: this holds for the ten
    decoders. *)
Theorem deserialize_rejects_other_ids
        (ids : bytes) (body : bits) (lsb_ : bool) (frame : bytes)
        (Hids : well_formed_ids ids)
        (Hf : build ids body lsb_ = Ok frame) :
  (ids <> HeartbeatMessage.MESSAGE_IDS ->
   HeartbeatMessage.deserialize frame (negb lsb_) = Raise InvalidMessageID)
  /\ (ids <> InitializationMessage.MESSAGE_IDS ->
      InitializationMessage.deserialize frame (negb lsb_)
      = Raise InvalidMessageID)
  /\ (ids <> UplinkDataMessage.MESSAGE_IDS ->
      UplinkDataMessage.deserialize frame (negb lsb_)
      = Raise InvalidMessageID)
  /\ (ids <> HeightAboveTerrainMessage.MESSAGE_IDS ->
      HeightAboveTerrainMessage.deserialize frame (negb lsb_)
      = Raise InvalidMessageID)
  /\ (ids <> OwnshipReportMessage.MESSAGE_IDS ->
      OwnshipReportMessage.deserialize frame (negb lsb_)
      = Raise InvalidMessageID)
  /\ (ids <> OwnshipGeometricAltitudeMessage.MESSAGE_IDS ->
      OwnshipGeometricAltitudeMessage.deserialize frame (negb lsb_)
      = Raise InvalidMessageID)
  /\ (ids <> TrafficReportMessage.MESSAGE_IDS ->
      TrafficReportMessage.deserialize frame (negb lsb_)
      = Raise InvalidMessageID)
  /\ (ids <> BasicUATReportMessage.MESSAGE_IDS ->
      BasicUATReportMessage.deserialize frame (negb lsb_)
      = Raise InvalidMessageID)
  /\ (ids <> LongUATReportMessage.MESSAGE_IDS ->
      LongUATReportMessage.deserialize frame (negb lsb_)
      = Raise InvalidMessageID)
  /\ (ids <> ForeFlightAHRSMessage.MESSAGE_IDS ->
      ForeFlightAHRSMessage.deserialize frame (negb lsb_)
      = Raise InvalidMessageID).
Proof.
  repeat match goal with
         | |- _ /\ _ => split
         end;
    intros Hne;
    unfold HeartbeatMessage.deserialize, InitializationMessage.deserialize,
      UplinkDataMessage.deserialize, HeightAboveTerrainMessage.deserialize,
      OwnshipReportMessage.deserialize,
      OwnshipGeometricAltitudeMessage.deserialize,
      TrafficReportMessage.deserialize, BasicUATReportMessage.deserialize,
      LongUATReportMessage.deserialize, ForeFlightAHRSMessage.deserialize,
      BaseTrafficReport.deserialize, BaseUATReportMessage.deserialize;
    rewrite (clean_data_other_ids _ _ _ _ _ Hids Hne Hf); reflexivity.
Qed.

Lemma deserialize_rejects_other_ids_witness :
  HeartbeatMessage.deserialize
    [x7e; x09; x80; x00; x29; x11; x7e] true
  = Raise InvalidMessageID.
Proof.
  apply (proj1 (deserialize_rejects_other_ids
                  [x09] (uint_bits 16 0x8000) false
                  [x7e; x09; x80; x00; x29; x11; x7e]
                  (well_formed_single x09 ltac:(discriminate))
                  ltac:(vm_compute; reflexivity))).
  discriminate.
Defined.

Ltac sixteen_bits ba H :=
  do 16 (destruct ba as [ | ? ba]; [ discriminate H | ]);
  destruct ba; [ clear H | discriminate H ].

(** X19. The Initialization round trip: for every record and both bit
    orders [serialize] gives a frame with a two-byte body, and
    [deserialize] with the matching bit order gives the record back. *)
Theorem initialization_round_trip (r : InitializationMessage.t) (lsb_ : bool) :
  exists body frame,
    InitializationMessage.body r = Ok body
    /\ length body = 16%nat
    /\ InitializationMessage.serialize r lsb_ = Ok frame
    /\ InitializationMessage.deserialize frame (negb lsb_) = Ok r.
Proof.
  assert (Hb : InitializationMessage.body r
               = Ok [false; InitializationMessage.audio_test r;
                     false; false; false; false;
                     InitializationMessage.audio_inhibit r;
                     InitializationMessage.CDTI_ok r;
                     false; false; false; false; false; false;
                     InitializationMessage.CSA_audio_disable r;
                     InitializationMessage.CSA_disable r]).
  { destruct r as [[ | ] [ | ] [ | ] [ | ] [ | ]]; reflexivity. }
  destruct (build_total InitializationMessage.MESSAGE_IDS
              [false; InitializationMessage.audio_test r;
               false; false; false; false;
               InitializationMessage.audio_inhibit r;
               InitializationMessage.CDTI_ok r;
               false; false; false; false; false; false;
               InitializationMessage.CSA_audio_disable r;
               InitializationMessage.CSA_disable r] lsb_)
    as (frame & Hf).
  eexists. exists frame.
  split; [ exact Hb | ]. split; [ reflexivity | ]. split.
  - unfold InitializationMessage.serialize. rewrite Hb. exact Hf.
  - unfold InitializationMessage.deserialize.
    rewrite (fun Hwhole =>
               clean_data_build InitializationMessage.MESSAGE_IDS _ _ _
                 (well_formed_single x02 ltac:(discriminate)) Hwhole Hf)
      by reflexivity.
    destruct r; reflexivity.
Qed.

(** X20. [deserialize] of an Initialization frame reads the five flags
    at bits 1, 6, 7, 14 and 15 of a two-byte body and ignores the eleven
    reserved bits, whatever they hold: it fails on no two-byte body. *)
Theorem initialization_ignores_reserved_bits
        (body : bits) (lsb_ : bool) (Hlen : length body = 16%nat) :
  exists frame,
    build InitializationMessage.MESSAGE_IDS body lsb_ = Ok frame
    /\ InitializationMessage.deserialize frame (negb lsb_)
       = Ok {| InitializationMessage.audio_test := nth 1 body false;
               InitializationMessage.audio_inhibit := nth 6 body false;
               InitializationMessage.CDTI_ok := nth 7 body false;
               InitializationMessage.CSA_audio_disable := nth 14 body false;
               InitializationMessage.CSA_disable := nth 15 body false |}.
Proof.
  destruct (build_total InitializationMessage.MESSAGE_IDS body lsb_)
    as (frame & Hf).
  exists frame. split; [ exact Hf | ].
  unfold InitializationMessage.deserialize.
  rewrite (clean_data_build InitializationMessage.MESSAGE_IDS _ _ _
             (well_formed_single x02 ltac:(discriminate))
             ltac:(rewrite Hlen; reflexivity) Hf).
  clear Hf. sixteen_bits body Hlen. reflexivity.
Qed.

Lemma initialization_ignores_reserved_bits_witness :
  exists frame,
    build InitializationMessage.MESSAGE_IDS (uint_bits 16 0xFFFF) false
    = Ok frame
    /\ InitializationMessage.deserialize frame true
       = Ok {| InitializationMessage.audio_test := true;
               InitializationMessage.audio_inhibit := true;
               InitializationMessage.CDTI_ok := true;
               InitializationMessage.CSA_audio_disable := true;
               InitializationMessage.CSA_disable := true |}.
Proof.
  apply (initialization_ignores_reserved_bits (uint_bits 16 0xFFFF) false).
  reflexivity.
Defined.

Lemma py_int_div_pos (g : Z) (k : positive) :
  py_int (inject_Z g / inject_Z (Zpos k)) = Z.quot g (Zpos k).
Proof.
  unfold py_int, Qdiv, Qinv, Qmult, inject_Z. cbn [Qnum Qden].
  rewrite Z.mul_1_r, Pos.mul_1_l. reflexivity.
Qed.

Lemma py_int_mul (i k : Z) : py_int (inject_Z i * inject_Z k) = i * k.
Proof.
  unfold py_int, Qmult, inject_Z. cbn [Qnum Qden].
  change (Z.pos (1 * 1)) with 1. apply Z.quot_1_r.
Qed.





Ltac twenty_four_bits ba H :=
  do 24 (destruct ba as [ | ? ba]; [ discriminate H | ]);
  destruct ba; [ clear H | discriminate H ].

Lemma byteswap_involutive_24 (ba : bits) :
  length ba = 24%nat ->
  exists swapped,
    byteswap ba = Ok swapped /\ length swapped = 24%nat
    /\ byteswap swapped = Ok ba.
Proof.
  intros H. twenty_four_bits ba H.
  eexists. split; [ reflexivity | ]. split; reflexivity.
Qed.

(** The time of reception field: the pattern [u] with its bytes
    swapped, read back. *)
Lemma time_of_reception_decode (u : Z) (swapped : bits) :
  0 <= u < 2 ^ 23 \/ u = 0xFFFFFF ->
  byteswap swapped = Ok (uint_bits 24 u) ->
  BaseUATReportMessage._deserialize_time_of_reception swapped
  = Ok (if u =? 0xFFFFFF then None else Some (u * 80)).
Proof.
  intros Hu Hsw.
  unfold BaseUATReportMessage._deserialize_time_of_reception.
  rewrite Hsw. cbn [bind].
  rewrite BitArray_get_uint_nonempty by (apply uint_bits_nonempty; lia).
  rewrite bits_to_Z_uint_bits.
  change (2 ^ Z.of_nat 24) with 16777216.
  change (2 ^ 23) with 8388608 in Hu.
  rewrite Z.mod_small by lia. cbn [bind].
  unfold BaseUATReportMessage.TIME_OF_RECEPTION_INVALID_VALUE.
  destruct (Z.eqb_spec u 16777215) as [E | E]; [ reflexivity | ].
  unfold BaseMessage._deserialize_resolution_int,
    BaseMessage._deserialize_resolution_float, BaseMessage._deserialize_int.
  rewrite BitArray_get_int_uint_bits
    by (try change (2 ^ (Z.of_nat 24 - 1)) with 8388608; lia).
  cbn [bind].
  change BaseUATReportMessage.TIME_OF_RECEPTION_RESOLUTION with (inject_Z 80).
  rewrite py_int_mul. reflexivity.
Qed.

Lemma time_of_reception_field (r : BaseUATReportMessage.t) :
  exists b,
    BaseUATReportMessage._serialize_time_of_reception r = Ok b
    /\ length b = 24%nat
    /\ BaseUATReportMessage._deserialize_time_of_reception b
       = Ok (BaseUATReportMessage.time_of_reception (uat_read_back r)).
Proof.
  assert (Hgen : forall u,
             0 <= u < 2 ^ 23 \/ u = 0xFFFFFF ->
             exists b,
               byteswap (uint_bits 24 u) = Ok b /\ length b = 24%nat
               /\ BaseUATReportMessage._deserialize_time_of_reception b
                  = Ok (if u =? 0xFFFFFF then None else Some (u * 80))).
  { intros u Hu.
    destruct (byteswap_involutive_24 (uint_bits 24 u)
                (uint_bits_length 24 u)) as (b & Sb & Lb & Bb).
    exists b. split; [ exact Sb | ]. split; [ exact Lb | ].
    apply time_of_reception_decode; assumption. }
  assert (Hinvalid :
            BaseMessage._serialize_uint
              BaseUATReportMessage.TIME_OF_RECEPTION_INVALID_VALUE
              BaseUATReportMessage.TIME_OF_RECEPTION_BITS true
            = Ok (uint_bits 24 0xFFFFFF)) by (vm_compute; reflexivity).
  unfold BaseUATReportMessage._serialize_time_of_reception, uat_read_back.
  cbn [BaseUATReportMessage.time_of_reception].
  destruct (BaseUATReportMessage.time_of_reception r) as [v | ].
  - unfold BaseUATReportMessage.tor_in_range,
      BaseUATReportMessage.TIME_OF_RECEPTION_MIN,
      BaseUATReportMessage.TIME_OF_RECEPTION_MAX.
    destruct (Z.leb_spec 0 v) as [Hlo | Hlo];
      [ destruct (Z.leb_spec v 100000000) as [Hhi | Hhi] | ];
      cbn [andb negb].
    + unfold BaseMessage._serialize_resolution_uint.
      rewrite true_div_ok by discriminate. cbn [bind].
      change BaseUATReportMessage.TIME_OF_RECEPTION_RESOLUTION
        with (inject_Z (Zpos 80)).
      rewrite py_int_div_pos.
      rewrite Z.quot_div_nonneg by lia.
      assert (Hq : 0 <= v / 80 <= 1250000).
      { split; [ apply Z.div_pos; lia | ].
        apply Z.div_le_upper_bound; lia. }
      rewrite serialize_uint_constrain by lia.
      unfold BaseUATReportMessage.TIME_OF_RECEPTION_BITS.
      change (2 ^ Z.of_nat 24 - 1) with 16777215.
      rewrite Z.min_l by lia. cbn [bind].
      destruct (Hgen (v / 80)) as (b & Sb & Lb & Db);
        [ left; change (2 ^ 23) with 8388608; lia | ].
      exists b. split; [ exact Sb | ]. split; [ exact Lb | ].
      rewrite Db.
      destruct (Z.eqb_spec (v / 80) 16777215); [ lia | reflexivity ].
    + rewrite Hinvalid. cbn [bind].
      destruct (Hgen 0xFFFFFF) as (b & Sb & Lb & Db); [ right; reflexivity | ].
      exists b. split; [ exact Sb | ]. split; [ exact Lb | exact Db ].
    + rewrite Hinvalid. cbn [bind].
      destruct (Hgen 0xFFFFFF) as (b & Sb & Lb & Db); [ right; reflexivity | ].
      exists b. split; [ exact Sb | ]. split; [ exact Lb | exact Db ].
  - rewrite Hinvalid. cbn [bind].
    destruct (Hgen 0xFFFFFF) as (b & Sb & Lb & Db); [ right; reflexivity | ].
    exists b. split; [ exact Sb | ]. split; [ exact Lb | exact Db ].
Qed.

(** X22. The round trip of the UAT reports (Uplink Data, Basic and Long
    reports), for message IDs of one byte other than 0x65 and a payload
    size of [k] bytes.  A record whose payload has [k] bytes is
    serialized, and the frame deserializes, with the matching bit order,
    to the same payload and to the time of reception rounded down to a
    multiple of 80 ns, or to no time of reception when the record has
    none or one outside 0 to 100000000.  A payload of another length
    makes [serialize] fail with [UplinkDataWrongSize]. *)
Theorem uat_report_round_trip
        (ids : bytes) (k : nat) (r : BaseUATReportMessage.t) (lsb_ : bool)
        (Hids : well_formed_ids ids) :
  (length (BaseUATReportMessage.uplink_payload r) = k ->
   exists frame,
     BaseUATReportMessage.serialize ids (8 * k) r lsb_ = Ok frame
     /\ BaseUATReportMessage.deserialize ids (8 * k) frame (negb lsb_)
        = Ok (uat_read_back r))
  /\ (length (BaseUATReportMessage.uplink_payload r) <> k ->
      BaseUATReportMessage.serialize ids (8 * k) r lsb_
      = Raise UplinkDataWrongSize).
Proof.
  destruct (time_of_reception_field r) as (ft & St & Lt & Dt).
  set (payload := BaseUATReportMessage.uplink_payload r) in *.
  split.
  - intros Hk.
    set (body := ft ++ BitArray_of_bytes payload).
    assert (E2 : BaseUATReportMessage._serialize_uplink_payload (8 * k) r
                 = Ok (BitArray_of_bytes payload)).
    { unfold BaseUATReportMessage._serialize_uplink_payload.
      fold payload. rewrite BitArray_of_bytes_length, Hk, Nat.eqb_refl.
      reflexivity. }
    assert (Hbody : BaseUATReportMessage.body (8 * k) r = Ok body).
    { unfold BaseUATReportMessage.body. rewrite St, E2. reflexivity. }
    assert (Hlen : (Nat.modulo (length body) 8 = 0)%nat).
    { subst body. rewrite length_app, Lt, BitArray_of_bytes_length.
      replace (24 + 8 * length payload)%nat
        with ((3 + length payload) * 8)%nat by lia.
      apply Nat.Div0.mod_mul. }
    destruct (build_total ids body lsb_) as (frame & Hframe).
    exists frame. split.
    { unfold BaseUATReportMessage.serialize. rewrite Hbody. exact Hframe. }
    unfold BaseUATReportMessage.deserialize.
    rewrite (clean_data_build ids _ _ _ Hids Hlen Hframe). cbn [bind].
    unfold run_reader, BaseUATReportMessage.read_body,
      BaseUATReportMessage.TIME_OF_RECEPTION_BITS.
    subst body.
    rewrite (rbind_field _ 24 _ ft _ _ Lt Dt).
    rewrite (rbind_field_last
               (BaseUATReportMessage._deserialize_uplink_payload) (8 * k) _
               (BitArray_of_bytes payload) payload).
    + reflexivity.
    + rewrite BitArray_of_bytes_length, Hk. reflexivity.
    + apply BitArray_bytes_of_bytes.
  - intros Hk.
    unfold BaseUATReportMessage.serialize, BaseUATReportMessage.body.
    rewrite St. cbn [bind].
    unfold BaseUATReportMessage._serialize_uplink_payload. fold payload.
    rewrite BitArray_of_bytes_length.
    destruct (Nat.eqb_spec (8 * length payload) (8 * k)) as [E | E];
      [ lia | reflexivity ].
Qed.

Lemma uat_report_round_trip_witness :
  exists frame,
    BasicUATReportMessage.serialize
      {| BaseUATReportMessage.time_of_reception := Some 1234567;
         BaseUATReportMessage.uplink_payload := repeat x7e 18 |} false
    = Ok frame
    /\ BasicUATReportMessage.deserialize frame true
       = Ok {| BaseUATReportMessage.time_of_reception := Some 1234560;
               BaseUATReportMessage.uplink_payload := repeat x7e 18 |}.
Proof.
  apply (proj1 (uat_report_round_trip
                  BasicUATReportMessage.MESSAGE_IDS 18
                  {| BaseUATReportMessage.time_of_reception := Some 1234567;
                     BaseUATReportMessage.uplink_payload := repeat x7e 18 |}
                  false
                  (well_formed_single x1e ltac:(discriminate)))).
  reflexivity.
Defined.

Lemma signed_pattern_all_ones (s : Z) :
  - 32768 <= s < 32768 -> (s mod 65536 = 65535 <-> s = -1).
Proof.
  intros Hs. split.
  - intros E. destruct (Z.neg_nonneg_cases s) as [Hn | Hp].
    + rewrite <- (Z.mod_add _ 1) in E by lia.
      rewrite Z.mod_small in E by lia. lia.
    + rewrite Z.mod_small in E by lia. lia.
  - intros ->. reflexivity.
Qed.

(** A field of 16 bits that holds a signed value, or 0xFFFF for an
    absent one. *)
Lemma airspeed_codec (v : option Z) :
  exists b,
    match v with
    | None => BaseMessage._serialize_uint 0xFFFF 16 true
    | Some n => BaseMessage._serialize_int n 16 true
    end = Ok b
    /\ length b = 16%nat
    /\ (u <- BitArray_get_uint b ;;
        if u =? 0xFFFF then Ok None
        else n <- BaseMessage._deserialize_int b ;; Ok (Some n))
       = Ok match v with
            | None => None
            | Some n =>
                if n =? -1 then None
                else Some (Z.max (Z.min n 32767) (-32768))
            end.
Proof.
  destruct v as [n | ].
  - rewrite serialize_int_constrain by lia.
    eexists. split; [ reflexivity | ]. split; [ apply uint_bits_length | ].
    rewrite BitArray_get_uint_nonempty by (apply uint_bits_nonempty; lia).
    rewrite bits_to_Z_uint_bits. cbn [bind].
    pose proof (saturate_range 16 n ltac:(lia)) as Hr.
    unfold BaseMessage._deserialize_int.
    rewrite BitArray_get_int_uint_bits by (try exact Hr; lia).
    change (Z.of_nat 16 - 1) with 15 in Hr.
    change (2 ^ 15) with 32768 in Hr.
    change (2 ^ Z.of_nat 16) with 65536.
    pose proof (signed_pattern_all_ones (saturate 16 n) Hr) as Hones.
    unfold saturate in *.
    change (2 ^ (Z.of_nat 16 - 1)) with 32768 in *.
    change (32768 - 1) with 32767 in *.
    set (s := Z.max (Z.min n 32767) (- (32768))) in *.
    destruct (Z.eqb_spec (s mod 65536) 65535) as [E | E];
      destruct (Z.eqb_spec n (-1)) as [E1 | E1]; cbn [bind];
      try reflexivity; subst s.
    + apply Hones in E. lia.
    + exfalso. apply E. apply Hones. lia.
  - eexists. split; [ vm_compute; reflexivity | ]. split; reflexivity.
Qed.

(** X23. The two airspeeds of the ForeFlight AHRS message.  An airspeed
    is written on 16 bits as a signed integer, saturated to the range
    from -32768 to 32767 knots, and an absent one as 0xFFFF.  Reading
    gives the saturated airspeed back, except for -1, whose pattern is
    0xFFFF and which is read as absent. *)
Theorem ahrs_airspeed_fields (r : ForeFlightAHRSMessage.t) :
  (exists b,
      ForeFlightAHRSMessage._serialize_indicated_airspeed r = Ok b
      /\ length b = 16%nat
      /\ ForeFlightAHRSMessage._deserialize_indicated_airspeed b
         = Ok match ForeFlightAHRSMessage.indicated_airspeed r with
              | None => None
              | Some n =>
                  if n =? -1 then None
                  else Some (Z.max (Z.min n 32767) (-32768))
              end)
  /\ (exists b,
         ForeFlightAHRSMessage._serialize_true_airspeed r = Ok b
         /\ length b = 16%nat
         /\ ForeFlightAHRSMessage._deserialize_true_airspeed b
            = Ok match ForeFlightAHRSMessage.true_airspeed r with
                 | None => None
                 | Some n =>
                     if n =? -1 then None
                     else Some (Z.max (Z.min n 32767) (-32768))
                 end).
Proof.
  split.
  - exact (airspeed_codec (ForeFlightAHRSMessage.indicated_airspeed r)).
  - exact (airspeed_codec (ForeFlightAHRSMessage.true_airspeed r)).
Qed.

(** X24. The time of reception of a received UAT report.  The three
    bytes are swapped and, unless they are 0xFFFFFF, read as a signed
    24-bit count of 80 ns steps: a field whose last byte has its top bit
    set is read as a negative time. *)
Theorem time_of_reception_read_signed (b : bits)
        (Hlen : length b = 24%nat) :
  exists swapped,
    byteswap b = Ok swapped
    /\ length swapped = 24%nat
    /\ BaseUATReportMessage._deserialize_time_of_reception b
       = Ok (if bits_to_Z swapped =? 0xFFFFFF then None
             else Some (twos_complement 24 (bits_to_Z swapped) * 80))
    /\ (0x800000 <= bits_to_Z swapped < 0xFFFFFF ->
        twos_complement 24 (bits_to_Z swapped) * 80 < 0).
Proof.
  destruct (byteswap_involutive_24 b Hlen) as (swapped & Sb & Ls & _).
  exists swapped. split; [ exact Sb | ]. split; [ exact Ls | ].
  assert (Hne : swapped <> [])
    by (apply (nonempty_of_length _ 24); [ exact Ls | lia ]).
  split.
  - unfold BaseUATReportMessage._deserialize_time_of_reception.
    rewrite Sb. cbn [bind].
    rewrite BitArray_get_uint_nonempty by exact Hne. cbn [bind].
    unfold BaseUATReportMessage.TIME_OF_RECEPTION_INVALID_VALUE.
    destruct (bits_to_Z swapped =? 16777215); [ reflexivity | ].
    unfold BaseMessage._deserialize_resolution_int,
      BaseMessage._deserialize_resolution_float, BaseMessage._deserialize_int.
    rewrite BitArray_get_int_twos_complement by exact Hne.
    cbn [bind]. rewrite Ls.
    change BaseUATReportMessage.TIME_OF_RECEPTION_RESOLUTION with (inject_Z 80).
    rewrite py_int_mul. reflexivity.
  - intros Hu. unfold twos_complement.
    change (2 ^ (Z.of_nat 24 - 1)) with 8388608.
    change (2 ^ Z.of_nat 24) with 16777216.
    destruct (Z.ltb_spec (bits_to_Z swapped) 8388608); lia.
Qed.

Lemma time_of_reception_read_signed_witness :
  exists swapped,
    byteswap (uint_bits 24 0x000080) = Ok swapped
    /\ BaseUATReportMessage._deserialize_time_of_reception
         (uint_bits 24 0x000080)
       = Ok (Some (-8388608 * 80)).
Proof.
  destruct (time_of_reception_read_signed (uint_bits 24 0x000080) eq_refl)
    as (swapped & Sb & _ & Db & _).
  exists swapped. split; [ exact Sb | ].
  rewrite Db. vm_compute in Sb. apply Ok_inj in Sb. subst swapped.
  reflexivity.
Defined.

Lemma uint_field_decode (n : nat) (u : Z) :
  (0 < n)%nat -> 0 <= u < 2 ^ Z.of_nat n ->
  BitArray_get_uint (uint_bits n u) = Ok u.
Proof.
  intros Hn Hu.
  rewrite BitArray_get_uint_nonempty by (apply uint_bits_nonempty; exact Hn).
  rewrite bits_to_Z_uint_bits, Z.mod_small by exact Hu. reflexivity.
Qed.

Lemma pressure_altitude_codec (v : option Z) :
  exists b,
    match v with
    | None => BaseMessage._serialize_uint 0xFFF 12 true
    | Some pa =>
        BaseMessage._serialize_resolution_offset_uint
          (Z.max (Z.min pa 101350) (-1000)) 1000 25 12
    end = Ok b
    /\ length b = 12%nat
    /\ BaseTrafficReport._deserialize_pressure_altitude b
       = Ok (option_map
               (fun pa =>
                  (Z.max (Z.min pa 101350) (-1000) + 1000) / 25 * 25 - 1000)
               v).
Proof.
  destruct v as [pa | ].
  - set (c := Z.max (Z.min pa 101350) (-1000)).
    assert (Hc : -1000 <= c <= 101350) by (subst c; lia).
    assert (Hq : 0 <= (c + 1000) / 25 <= 4094).
    { split; [ apply Z.div_pos; lia | ].
      apply Z.div_le_upper_bound; lia. }
    unfold BaseMessage._serialize_resolution_offset_uint,
      BaseMessage._serialize_resolution_uint.
    rewrite true_div_ok by discriminate. cbn [bind].
    change (25 : Q) with (inject_Z (Zpos 25)).
    rewrite py_int_div_pos, Z.quot_div_nonneg by lia.
    rewrite serialize_uint_constrain by lia.
    change (2 ^ Z.of_nat 12 - 1) with 4095.
    rewrite Z.min_l by lia.
    eexists. split; [ reflexivity | ]. split; [ apply uint_bits_length | ].
    unfold BaseTrafficReport._deserialize_pressure_altitude,
      BaseMessage._deserialize_resolution_offset_uint,
      BaseMessage._deserialize_resolution_uint,
      BaseMessage._deserialize_uint.
    rewrite uint_field_decode
      by (try change (2 ^ Z.of_nat 12) with 4096; lia).
    cbn [bind].
    unfold BaseTrafficReport.PRESSURE_ALTITUDE_INVALID_VALUE.
    destruct (Z.eqb_spec ((c + 1000) / 25) 4095); [ lia | ].
    change BaseTrafficReport.PRESSURE_ALTITUDE_RESOLUTION with (inject_Z 25).
    rewrite py_int_mul. reflexivity.
  - eexists. split; [ vm_compute; reflexivity | ]. split; reflexivity.
Qed.

Lemma vertical_velocity_codec (v : option Z) :
  let limited vv :=
    if vv >? 32576 then 32640 else if vv <? -32576 then -32640 else vv in
  exists b,
    match v with
    | None => BaseMessage._serialize_uint 0x800 12 true
    | Some vv =>
        BaseMessage._serialize_resolution_int (inject_Z (limited vv)) 64 12
    end = Ok b
    /\ length b = 12%nat
    /\ BaseTrafficReport._deserialize_vertical_velocity b
       = Ok (option_map (fun vv => Z.quot (limited vv) 64 * 64) v).
Proof.
  intros limited.
  destruct v as [vv | ].
  - assert (Hl : -32640 <= limited vv <= 32640).
    { subst limited. cbv beta.
      destruct (Z.gtb_spec vv 32576); [ lia | ].
      destruct (Z.ltb_spec vv (-32576)); lia. }
    set (l := limited vv) in *.
    assert (Hq : -510 <= Z.quot l 64 <= 510).
    { split.
      - apply Z.quot_le_lower_bound; lia.
      - apply Z.quot_le_upper_bound; lia. }
    rewrite serialize_resolution_int_ok by (try discriminate; lia).
    change (64 : Q) with (inject_Z (Zpos 64)).
    rewrite py_int_div_pos.
    unfold saturate. change (2 ^ (Z.of_nat 12 - 1)) with 2048.
    rewrite Z.min_l, Z.max_l by lia.
    eexists. split; [ reflexivity | ]. split; [ apply uint_bits_length | ].
    unfold BaseTrafficReport._deserialize_vertical_velocity.
    rewrite BitArray_get_uint_nonempty by (apply uint_bits_nonempty; lia).
    rewrite bits_to_Z_uint_bits. cbn [bind].
    change (2 ^ Z.of_nat 12) with 4096.
    unfold BaseTrafficReport.VERTICAL_VELOCITY_INVALID.
    destruct (Z.eqb_spec (Z.quot l 64 mod 4096) 2048) as [E | E].
    + exfalso.
      destruct (Z.neg_nonneg_cases (Z.quot l 64)) as [Hn | Hp].
      * rewrite <- (Z.mod_add _ 1) in E by lia.
        rewrite Z.mod_small in E by lia. lia.
      * rewrite Z.mod_small in E by lia. lia.
    + unfold BaseMessage._deserialize_resolution_int,
        BaseMessage._deserialize_resolution_float,
        BaseMessage._deserialize_int.
      rewrite BitArray_get_int_uint_bits
        by (try change (2 ^ (Z.of_nat 12 - 1)) with 2048; lia).
      cbn [bind].
      change BaseTrafficReport.VERTICAL_VELOCITY_RESOLUTION
        with (inject_Z 64).
      rewrite py_int_mul. reflexivity.
  - eexists. split; [ vm_compute; reflexivity | ]. split; reflexivity.
Qed.

(** X25. Altitude and velocities of a Traffic or Ownship Report, each on
    12 bits.  The pressure altitude is cut to the range from -1000 to
    101350 ft and read back rounded down to a step of 25 ft from -1000
    ft.  The horizontal velocity is cut to 4094 kt and read back so; a
    negative one is refused with [UnexpectedNegative].  The vertical
    velocity becomes 32640 fpm above 32576 and -32640 fpm below -32576,
    and is read back rounded toward zero to a multiple of 64 fpm.  An
    absent value is read back as absent in the three fields. *)
Theorem traffic_altitude_and_velocity_fields (r : BaseTrafficReport.t) :
  (exists b,
      BaseTrafficReport._serialize_pressure_altitude r = Ok b
      /\ length b = 12%nat
      /\ BaseTrafficReport._deserialize_pressure_altitude b
         = Ok (option_map
                 (fun pa =>
                    (Z.max (Z.min pa 101350) (-1000) + 1000) / 25 * 25 - 1000)
                 (BaseTrafficReport.pressure_altitude r)))
  /\ (match BaseTrafficReport.horizontal_velocity r with
      | Some hv => 0 <= hv
      | None => True
      end ->
      exists b,
        BaseTrafficReport._serialize_horizontal_velocity r = Ok b
        /\ length b = 12%nat
        /\ BaseTrafficReport._deserialize_horizontal_velocity b
           = Ok (option_map (fun hv => Z.min hv 4094)
                            (BaseTrafficReport.horizontal_velocity r)))
  /\ (forall hv,
         BaseTrafficReport.horizontal_velocity r = Some hv -> hv < 0 ->
         BaseTrafficReport._serialize_horizontal_velocity r
         = Raise UnexpectedNegative)
  /\ (exists b,
         BaseTrafficReport._serialize_vertical_velocity r = Ok b
         /\ length b = 12%nat
         /\ BaseTrafficReport._deserialize_vertical_velocity b
            = Ok (option_map
                    (fun vv =>
                       Z.quot (if vv >? 32576 then 32640
                               else if vv <? -32576 then -32640 else vv) 64
                       * 64)
                    (BaseTrafficReport.vertical_velocity r))).
Proof.
  split; [ | split; [ | split ] ].
  - exact (pressure_altitude_codec (BaseTrafficReport.pressure_altitude r)).
  - unfold BaseTrafficReport._serialize_horizontal_velocity.
    destruct (BaseTrafficReport.horizontal_velocity r) as [hv | ].
    + intros Hhv. cbn zeta.
      unfold BaseTrafficReport.HORIZONTAL_VELOCITY_MAX,
        BaseTrafficReport.HORIZONTAL_VELOCITY_BITS.
      rewrite serialize_uint_constrain by lia.
      change (2 ^ Z.of_nat 12 - 1) with 4095.
      rewrite (Z.min_l (Z.min hv 4094)) by lia.
      eexists. split; [ reflexivity | ]. split; [ apply uint_bits_length | ].
      unfold BaseTrafficReport._deserialize_horizontal_velocity,
        BaseMessage._deserialize_uint.
      rewrite uint_field_decode
        by (try change (2 ^ Z.of_nat 12) with 4096; lia).
      cbn [bind].
      unfold BaseTrafficReport.HORIZONTAL_VELOCITY_INVALID.
      destruct (Z.eqb_spec (Z.min hv 4094) 4095); [ lia | reflexivity ].
    + intros _. eexists. split; [ vm_compute; reflexivity | ].
      split; reflexivity.
  - intros hv Hhv Hneg.
    unfold BaseTrafficReport._serialize_horizontal_velocity.
    rewrite Hhv. cbn zeta.
    unfold BaseTrafficReport.HORIZONTAL_VELOCITY_MAX,
      BaseMessage._serialize_uint.
    destruct (Z.ltb_spec (Z.min hv 4094) 0); [ reflexivity | lia ].
  - unfold BaseTrafficReport._serialize_vertical_velocity.
    destruct (BaseTrafficReport.vertical_velocity r) as [vv | ].
    + pose proof (vertical_velocity_codec (Some vv)) as H.
      cbn zeta in *. cbn [option_map] in *.
      unfold BaseTrafficReport.VERTICAL_VELOCITY_MAX,
        BaseTrafficReport.VERTICAL_VELOCITY_MIN,
        BaseTrafficReport.VERTICAL_VELOCITY_MAX_VALUE,
        BaseTrafficReport.VERTICAL_VELOCITY_MIN_VALUE,
        BaseTrafficReport.VERTICAL_VELOCITY_RESOLUTION,
        BaseTrafficReport.VERTICAL_VELOCITY_BITS.
      destruct (Z.gtb_spec vv 32576) as [Hhigh | Hhigh].
      * change (32640 <? -32576) with false. cbv iota. exact H.
      * exact H.
    + exact (vertical_velocity_codec None).
Qed.

Lemma traffic_altitude_and_velocity_fields_witness :
  exists b,
    BaseTrafficReport._serialize_horizontal_velocity
      traffic_alert_example = Ok b
    /\ length b = 12%nat
    /\ BaseTrafficReport._deserialize_horizontal_velocity b
       = Ok (option_map (fun hv => Z.min hv 4094)
               (BaseTrafficReport.horizontal_velocity
                  traffic_alert_example)).
Proof.
  apply (proj1 (proj2 (traffic_altitude_and_velocity_fields
                         traffic_alert_example))).
  cbn. lia.
Defined.

Lemma traffic_body_starts (r : BaseTrafficReport.t) (e : exn) :
  BaseTrafficReport._serialize_address r = Raise e ->
  forall ids lsb_, BaseTrafficReport.serialize ids r lsb_ = Raise e.
Proof.
  intros He ids lsb_.
  unfold BaseTrafficReport.serialize, BaseTrafficReport.body.
  destruct (TrafficFacts.traffic_alert_field r) as (b1 & S1 & _).
  rewrite S1. cbn [bind].
  unfold BaseTrafficReport._serialize_address_type,
    BaseTrafficReport.ADDRESS_TYPE_BITS.
  rewrite (proj1 (TrafficFacts.AddressType_round_trip
                    (BaseTrafficReport.address_type r))).
  cbn [bind]. rewrite He. reflexivity.
Qed.

(** X26. The participant address of a Traffic or Ownship Report.  An
    address from 0 to 0xFFFFFF is written on 24 bits and read back
    unchanged.  The address is not constrained to its span: a larger one
    makes [serialize] of the whole report fail with [BadIntegerSize], a
    negative one with [UnexpectedNegative]. *)
Theorem traffic_address_field (r : BaseTrafficReport.t) :
  (0 <= BaseTrafficReport.address r <= 0xFFFFFF ->
   exists b,
     BaseTrafficReport._serialize_address r = Ok b
     /\ length b = 24%nat
     /\ BaseTrafficReport._deserialize_address b
        = Ok (BaseTrafficReport.address r))
  /\ (0xFFFFFF < BaseTrafficReport.address r ->
      forall ids lsb_,
        BaseTrafficReport.serialize ids r lsb_ = Raise BadIntegerSize)
  /\ (BaseTrafficReport.address r < 0 ->
      forall ids lsb_,
        BaseTrafficReport.serialize ids r lsb_ = Raise UnexpectedNegative).
Proof.
  split; [ | split ].
  - intros Ha.
    exists (uint_bits 24 (BaseTrafficReport.address r)).
    unfold BaseTrafficReport._serialize_address,
      BaseTrafficReport._deserialize_address, BaseTrafficReport.ADDRESS_BITS,
      BaseMessage._deserialize_uint.
    split; [ apply serialize_uint_strict; exact Ha | ].
    split; [ apply uint_bits_length | ].
    apply uint_field_decode;
      [ lia | change (2 ^ Z.of_nat 24) with 16777216; lia ].
  - intros Ha. apply traffic_body_starts.
    apply serialize_uint_too_big. exact Ha.
  - intros Ha. apply traffic_body_starts.
    apply serialize_uint_negative. exact Ha.
Qed.

Lemma traffic_address_field_witness :
  (exists b,
      BaseTrafficReport._serialize_address traffic_alert_example = Ok b
      /\ length b = 24%nat
      /\ BaseTrafficReport._deserialize_address b = Ok 0xABCDEF).
Proof.
  apply (proj1 (traffic_address_field traffic_alert_example)).
  cbn. lia.
Defined.





(* ================================================================== *)
(** * Further properties of the bit utilities *)

Lemma bits_to_Z_inj (a b : bits) :
  length a = length b -> bits_to_Z a = bits_to_Z b -> a = b.
Proof.
  revert b. induction a as [ | x a IH]; intros [ | y b] Hl Hv;
    try discriminate Hl; [ reflexivity | ].
  cbn [length] in Hl. injection Hl as Hl.
  rewrite !bits_to_Z_cons, Hl in Hv.
  pose proof (bits_to_Z_range a) as Ha. rewrite Hl in Ha.
  pose proof (bits_to_Z_range b) as Hb.
  set (p := 2 ^ Z.of_nat (length b)) in *.
  destruct x, y; cbn [Z.b2z] in Hv.
  - f_equal. apply IH; [ exact Hl | lia ].
  - exfalso. lia.
  - exfalso. lia.
  - f_equal. apply IH; [ exact Hl | lia ].
Qed.

Lemma uint_bits_bits_to_Z (ba : bits) :
  uint_bits (length ba) (bits_to_Z ba) = ba.
Proof.
  apply bits_to_Z_inj; [ apply uint_bits_length | ].
  rewrite bits_to_Z_uint_bits. apply Z.mod_small. apply bits_to_Z_range.
Qed.

(** X28. [lsb_int] on a positive number of bits.  A value that fits the
    bits is mapped to a value that fits them, and [lsb_int] applied to
    the result gives the value back; a value that does not fit, or a
    negative one, fails with the [CreationError] of the bit array. *)
Theorem lsb_int_involution (int_ : Z) (length_ : nat)
        (Hlen : (0 < length_)%nat) :
  (0 <= int_ < 2 ^ Z.of_nat length_ ->
   exists flipped,
     lsb_int int_ length_ = Ok flipped
     /\ 0 <= flipped < 2 ^ Z.of_nat length_
     /\ lsb_int flipped length_ = Ok int_)
  /\ (int_ < 0 \/ 2 ^ Z.of_nat length_ <= int_ ->
      lsb_int int_ length_ = Raise CreationError).
Proof.
  split.
  - intros Hv.
    assert (Hu : forall v, 0 <= v < 2 ^ Z.of_nat length_ ->
                           BitArray_uint v length_ = Ok (uint_bits length_ v)).
    { intros v Hr. unfold BitArray_uint.
      destruct (Z.ltb_spec v 0); [ lia | ].
      destruct (Z.leb_spec (2 ^ Z.of_nat length_) v); [ lia | ].
      reflexivity. }
    set (flipped_bits := lsb (uint_bits length_ int_)).
    assert (Lf : length flipped_bits = length_).
    { subst flipped_bits. rewrite lsb_length. apply uint_bits_length. }
    assert (Hf : 0 <= bits_to_Z flipped_bits < 2 ^ Z.of_nat length_).
    { pose proof (bits_to_Z_range flipped_bits) as Hr.
      rewrite Lf in Hr. exact Hr. }
    exists (bits_to_Z flipped_bits).
    split; [ | split; [ exact Hf | ] ].
    + unfold lsb_int. rewrite (Hu int_ Hv). cbn [bind].
      apply BitArray_get_uint_nonempty.
      apply (nonempty_of_length _ length_ Lf Hlen).
    + unfold lsb_int. rewrite (Hu _ Hf). cbn [bind].
      pose proof (uint_bits_bits_to_Z flipped_bits) as Hub.
      rewrite Lf in Hub. rewrite Hub.
      subst flipped_bits. rewrite lsb_involutive.
      rewrite uint_field_decode by assumption. reflexivity.
  - intros Hv. unfold lsb_int, BitArray_uint.
    destruct (Z.ltb_spec int_ 0); [ reflexivity | ].
    destruct (Z.leb_spec (2 ^ Z.of_nat length_) int_); [ reflexivity | lia ].
Qed.

Lemma lsb_int_involution_witness :
  exists flipped,
    lsb_int 0x7E 8 = Ok flipped
    /\ 0 <= flipped < 2 ^ Z.of_nat 8
    /\ lsb_int flipped 8 = Ok 0x7E.
Proof.
  apply (proj1 (lsb_int_involution 0x7E 8 ltac:(lia))).
  cbn. lia.
Defined.

(* ================================================================== *)
(** * Further properties of the callsign *)

Lemma char_isalnum_not_space (c : ascii) :
  char_isalnum c = true -> char_isspace c = false.
Proof.
  unfold char_isalnum, char_isdigit, char_isupper, char_islower,
    char_isspace.
  generalize (char_code c) as n. intros n H.
  destruct (Z.leb_spec 9 n); destruct (Z.leb_spec n 13);
    destruct (Z.leb_spec 28 n); destruct (Z.leb_spec n 32);
    try reflexivity; exfalso;
    destruct (Z.leb_spec 48 n); destruct (Z.leb_spec n 57);
    destruct (Z.leb_spec 65 n); destruct (Z.leb_spec n 90);
    destruct (Z.leb_spec 97 n); destruct (Z.leb_spec n 122);
    cbn in H; try discriminate H; lia.
Qed.

Lemma str_lstrip_repeat_space (k : nat) (s : str) :
  str_lstrip (repeat SPACE k ++ s) = str_lstrip s.
Proof.
  induction k as [ | k IH]; [ reflexivity | ].
  cbn [repeat app str_lstrip].
  change (char_isspace SPACE) with true. exact IH.
Qed.

Lemma rev_repeat {A} (x : A) (k : nat) : rev (repeat x k) = repeat x k.
Proof.
  induction k as [ | k IH]; [ reflexivity | ].
  cbn [repeat rev]. rewrite IH.
  clear IH. induction k as [ | k IH]; [ reflexivity | ].
  cbn [repeat app]. rewrite IH. reflexivity.
Qed.

Lemma str_rstrip_padded (t : str) (k : nat) :
  forallb char_isalnum t = true ->
  str_rstrip (t ++ repeat SPACE k) = t.
Proof.
  intros Ha. unfold str_rstrip.
  rewrite rev_app_distr, rev_repeat, str_lstrip_repeat_space.
  assert (Hr : forallb char_isalnum (rev t) = true).
  { apply forallb_forall. intros c Hc. apply in_rev in Hc.
    exact (proj1 (forallb_forall _ _) Ha c Hc). }
  destruct (rev t) as [ | c rest] eqn:Er.
  - cbn [str_lstrip rev]. rewrite <- (rev_involutive t), Er. reflexivity.
  - cbn [forallb] in Hr. apply andb_true_iff in Hr. destruct Hr as [Hc _].
    cbn [str_lstrip]. rewrite (char_isalnum_not_space c Hc).
    rewrite <- Er. apply rev_involutive.
Qed.

Lemma rbind_Ok {A B} (m : reader A) (k : A -> reader B) (data : bits)
      (out : B * bits) :
  rbind m k data = Ok out ->
  exists a data', m data = Ok (a, data') /\ k a data' = Ok out.
Proof.
  unfold rbind. destruct (m data) as [[a data'] | e]; [ eauto | discriminate ].
Qed.

Lemma finish_Ok {A} (a : A) (data : bits) (out : A * bits) :
  finish (Ok a) data = Ok out -> out = (a, []).
Proof.
  unfold finish. destruct data; [ | discriminate ].
  cbn [bind]. intros H. apply Ok_inj in H. symmetry. exact H.
Qed.

(** X29. The callsign of a Traffic or Ownship Report, read back.  A
    callsign of ASCII text that, trimmed and upper-cased, has from one
    to eight alphanumeric characters is written on 8 bytes and read
    back trimmed and upper-cased.  An absent callsign is written as
    eight spaces and read back as the empty text, not as absent: no
    frame is deserialized to a report without a callsign. *)
Theorem traffic_callsign_read_back (r : BaseTrafficReport.t) :
  (forall s,
      BaseTrafficReport.callsign r = Some s ->
      is_ascii_str s = true ->
      str_upper (str_strip s) <> [] ->
      (length (str_strip s) <= 8)%nat ->
      forallb char_isalnum (str_upper (str_strip s)) = true ->
      exists b,
        BaseTrafficReport._serialize_callsign r = Ok b
        /\ length b = 64%nat
        /\ BaseTrafficReport._deserialize_callsign b
           = Ok (str_upper (str_strip s)))
  /\ (BaseTrafficReport.callsign r = None ->
      exists b,
        BaseTrafficReport._serialize_callsign r = Ok b
        /\ length b = 64%nat
        /\ BaseTrafficReport._deserialize_callsign b = Ok [])
  /\ (forall ids frame msb,
         BaseTrafficReport.deserialize ids frame msb = Ok r ->
         BaseTrafficReport.callsign r <> None).
Proof.
  split; [ | split ].
  - intros s Hcs _ Hne Hlen Ha.
    unfold BaseTrafficReport._serialize_callsign. rewrite Hcs.
    rewrite serialize_callsign_general. cbn zeta.
    set (t := str_upper (str_strip s)) in *.
    assert (Ht : (length t <= 8)%nat)
      by (subst t; unfold str_upper; rewrite length_map; exact Hlen).
    rewrite (firstn_all2 (n := 64) t) by lia.
    rewrite (firstn_all2 (n := 8) (t ++ repeat SPACE (8 - length t)))
      by (rewrite length_app, repeat_length; lia).
    destruct t as [ | c rest] eqn:Et; [ congruence | ].
    rewrite <- Et in *. rewrite Ha.
    eexists. split; [ reflexivity | ]. split.
    + rewrite BitArray_of_bytes_length, length_map, length_app,
        repeat_length.
      replace (length t + (8 - length t))%nat with 8%nat by lia.
      reflexivity.
    + unfold BaseTrafficReport._deserialize_callsign,
        BaseMessage._deserialize_str_ascii.
      rewrite BitArray_bytes_of_bytes. cbn [bind].
      rewrite bytes_decode_ascii_map
        by (apply forallb_app_repeat;
            [ exact (forallb_impl _ _ _ char_isalnum_ascii Ha)
            | exact space_ascii ]).
      cbn [bind]. rewrite (str_rstrip_padded t _ Ha). reflexivity.
  - intros Hcs.
    unfold BaseTrafficReport._serialize_callsign. rewrite Hcs.
    eexists. split; [ vm_compute; reflexivity | ].
    split; vm_compute; reflexivity.
  - intros ids frame msb Hd.
    unfold BaseTrafficReport.deserialize in Hd.
    apply bind_Ok in Hd. destruct Hd as (data & _ & Hd).
    unfold run_reader in Hd.
    apply bind_Ok in Hd. destruct Hd as ([r0 rest] & Hd & Hr).
    apply Ok_inj in Hr. subst r0.
    unfold BaseTrafficReport.read_body in Hd.
    repeat (apply rbind_Ok in Hd; destruct Hd as (? & ? & _ & Hd)).
    apply finish_Ok in Hd. injection Hd as -> _. discriminate.
Qed.

Lemma traffic_callsign_read_back_witness :
  exists b,
    BaseTrafficReport._serialize_callsign
      (traffic_scenario true (Some (text " n825v "%string))) = Ok b
    /\ length b = 64%nat
    /\ BaseTrafficReport._deserialize_callsign b
       = Ok (text "N825V"%string).
Proof.
  apply (proj1 (traffic_callsign_read_back
                  (traffic_scenario true (Some (text " n825v "%string))))
               (text " n825v "%string) eq_refl).
  - reflexivity.
  - discriminate.
  - cbn. lia.
  - reflexivity.
Defined.

(* ================================================================== *)
(** * Further properties of the ForeFlight ID message *)

(** X30. The ForeFlight ID message, for names of ASCII text, a version
    that is not negative and a serial number that is absent or fits 64
    bits.  [serialize] succeeds; the body has 37 bytes: the version, at
    most 255; the serial number, all ones when absent; the name padded
    with spaces or cut to 8 bytes; the long name, or the name when there
    is no long name, padded or cut to 16 bytes; then seven zero bits,
    the MSL flag and three zero bytes.  [deconstruct] with the matching
    bit order gives the message IDs 0x65, 0x00 and this body back. *)
Theorem foreflight_id_layout (r : ForeFlightIDMessage.t) (lsb_ : bool)
        (Hname : is_ascii_str (ForeFlightIDMessage.device_name r) = true)
        (Hlong : match ForeFlightIDMessage.device_long_name r with
                 | Some long => is_ascii_str long = true
                 | None => True
                 end)
        (Hversion : 0 <= ForeFlightIDMessage.version r)
        (Hserial : match ForeFlightIDMessage.device_serial_number r with
                   | Some n => 0 <= n < 2 ^ 64
                   | None => True
                   end) :
  let padded (s : str) (n : nat) :=
    BitArray_of_bytes
      (map byte_of_ascii (firstn n (s ++ repeat SPACE (n - length s)))) in
  let body :=
    uint_bits 8 (Z.min (ForeFlightIDMessage.version r) 255)
    ++ uint_bits 64 match ForeFlightIDMessage.device_serial_number r with
                    | Some n => n
                    | None => 0xFFFFFFFFFFFFFFFF
                    end
    ++ padded (ForeFlightIDMessage.device_name r) 8%nat
    ++ padded match ForeFlightIDMessage.device_long_name r with
              | Some long => long
              | None => ForeFlightIDMessage.device_name r
              end 16%nat
    ++ repeat false 7 ++ [ForeFlightIDMessage.is_msl r] ++ repeat false 24 in
  ForeFlightIDMessage.body r = Ok body
  /\ length body = (8 * 37)%nat
  /\ exists frame,
       ForeFlightIDMessage.serialize r lsb_ = Ok frame
       /\ deconstruct frame (negb lsb_)
          = Ok (ForeFlightIDMessage.MESSAGE_IDS, body).
Proof.
  intros padded body.
  set (long := match ForeFlightIDMessage.device_long_name r with
               | Some long => long
               | None => ForeFlightIDMessage.device_name r
               end) in *.
  assert (Hl : is_ascii_str long = true).
  { subst long.
    destruct (ForeFlightIDMessage.device_long_name r); assumption. }
  set (serial := match ForeFlightIDMessage.device_serial_number r with
                 | Some n => n
                 | None => 0xFFFFFFFFFFFFFFFF
                 end) in *.
  assert (Hs : 0 <= serial <= 2 ^ Z.of_nat 64 - 1).
  { subst serial. change (2 ^ Z.of_nat 64) with (2 ^ 64).
    destruct (ForeFlightIDMessage.device_serial_number r);
      [ lia | cbn; lia ]. }
  assert (Lp : forall s n, length (padded s n) = (8 * n)%nat).
  { intros s n. subst padded. cbv beta.
    rewrite BitArray_of_bytes_length, length_map, length_firstn,
      length_app, repeat_length. lia. }
  assert (Hbody : ForeFlightIDMessage.body r = Ok body).
  { unfold ForeFlightIDMessage.body, ForeFlightIDMessage._serialize_version,
      ForeFlightIDMessage._serialize_device_serial_number,
      ForeFlightIDMessage._serialize_device_name,
      ForeFlightIDMessage._serialize_device_long_name,
      ForeFlightIDMessage._serialize_is_msl,
      ForeFlightIDMessage.VERSION_BITS,
      ForeFlightIDMessage.DEVICE_SERIAL_NUMBER_BITS,
      ForeFlightIDMessage.DEVICE_SERIAL_NUMBER_INVALID_VALUE,
      ForeFlightIDMessage.DEVICE_NAME_BITS,
      ForeFlightIDMessage.DEVICE_LONG_NAME_BITS.
    rewrite serialize_uint_constrain by exact Hversion. cbn [bind].
    cbn zeta. fold serial. fold long.
    rewrite (serialize_uint_strict serial 64 Hs). cbn [bind].
    pose proof (serialize_str_ascii (ForeFlightIDMessage.device_name r) 8
                  enc_utf8 Hname) as Sn.
    pose proof (serialize_str_ascii long 16 enc_utf8 Hl) as Sl.
    change (8 * 8)%nat with 64%nat in Sn.
    change (8 * 16)%nat with 128%nat in Sl.
    rewrite Sn. cbn [bind]. rewrite Sl. cbn [bind].
    rewrite AHRSFacts.serialize_bool_ok. reflexivity. }
  assert (Hlen : length body = (8 * 37)%nat).
  { subst body. rewrite !length_app, !uint_bits_length, !Lp, !repeat_length.
    reflexivity. }
  split; [ exact Hbody | ]. split; [ exact Hlen | ].
  destruct (build_total ForeFlightIDMessage.MESSAGE_IDS body lsb_)
    as (frame & Hf).
  exists frame. split.
  - unfold ForeFlightIDMessage.serialize. rewrite Hbody. exact Hf.
  - rewrite (deconstruct_build _ _ _ _
               (or_intror (ex_intro _ x00 eq_refl)) Hf).
    rewrite BitArray_of_bytes_tobytes
      by (rewrite Hlen; apply Nat.Div0.mod_mul || (rewrite Nat.mul_comm;
                                                   apply Nat.Div0.mod_mul)).
    reflexivity.
Qed.

Lemma foreflight_id_layout_witness :
  exists body frame,
    ForeFlightIDMessage.body
      {| ForeFlightIDMessage.device_serial_number := None;
         ForeFlightIDMessage.device_name := text "palas"%string;
         ForeFlightIDMessage.device_long_name := None;
         ForeFlightIDMessage.is_msl := true;
         ForeFlightIDMessage.version := 1 |} = Ok body
    /\ length body = (8 * 37)%nat
    /\ ForeFlightIDMessage.serialize
         {| ForeFlightIDMessage.device_serial_number := None;
            ForeFlightIDMessage.device_name := text "palas"%string;
            ForeFlightIDMessage.device_long_name := None;
            ForeFlightIDMessage.is_msl := true;
            ForeFlightIDMessage.version := 1 |} false = Ok frame
    /\ deconstruct frame true = Ok (ForeFlightIDMessage.MESSAGE_IDS, body).
Proof.
  destruct (foreflight_id_layout
              {| ForeFlightIDMessage.device_serial_number := None;
                 ForeFlightIDMessage.device_name := text "palas"%string;
                 ForeFlightIDMessage.device_long_name := None;
                 ForeFlightIDMessage.is_msl := true;
                 ForeFlightIDMessage.version := 1 |} false
              eq_refl I ltac:(cbn; lia) I)
    as (Hbody & Hlen & frame & Hs & Hd).
  eexists. exists frame.
  split; [ exact Hbody | ]. split; [ exact Hlen | ].
  split; [ exact Hs | exact Hd ].
Defined.
